(** * Task management API: authorization pipeline and task CRUD

    A shallow embedding of the Flask application under [backend/app]:
    the token service and the bearer gate ([middleware/auth_middleware.py]),
    the input validators ([utils/validators.py]), the task and user tables
    ([models/]), and the request handlers ([routes/]).

    Conventions of the embedding.
    - A Python [str] is a [string]; its characters are code points 0..255.
    - Time is counted in whole seconds ([Z]); one request reads one clock value.
    - The relational store is a pair of tables keyed by their primary key
      ([gmap Z row]) with their auto-increment counters; statements do not
      fail, and string comparison in [WHERE] clauses is exact.  Where an
      [ORDER BY] leaves the order of two rows open, the order is the
      engine's choice, which the state carries for each such statement to
      come ([ties]).
    - The libraries beside the repository (the token library, the password
      hash) are parameters or models of what the application relies on; a
      password hash may raise.
    - A handler is a computation over the application state (store, log,
      clock) that may raise; the [try/except Exception] of every handler is
      [try_except]. *)

From Stdlib Require Import ZArith NArith String Ascii List Lia Bool.
From Stdlib Require Import DecimalString DecimalZ DecimalPos Sorted.
From stdpp Require Import gmap strings list.

Open Scope string_scope.
Open Scope Z_scope.

(* ===================================================================== *)
(** * Python built-ins used by the application *)
(* ===================================================================== *)

Module Py.

(** [str.isspace] on one character (code points below 256). *)
Definition isspace (c : ascii) : bool :=
  let n := N_of_ascii c in
  (((9 <=? n) && (n <=? 13)) || ((28 <=? n) && (n <=? 32))
   || (n =? 133) || (n =? 160))%N.

Fixpoint lstrip (s : string) : string :=
  match s with
  | EmptyString => EmptyString
  | String c r => if isspace c then lstrip r else s
  end.

Fixpoint rstrip (s : string) : string :=
  match s with
  | EmptyString => EmptyString
  | String c r =>
      match rstrip r with
      | EmptyString => if isspace c then EmptyString else String c EmptyString
      | r' => String c r'
      end
  end.

(** [s.strip()] *)
Definition strip (s : string) : string := lstrip (rstrip s).

Definition cons_word (w : string) (ws : list string) : list string :=
  match w with EmptyString => ws | _ => w :: ws end.

(** The word that starts at the head of [s] (empty when [s] starts with
    white space) and the words after it. *)
Fixpoint words (s : string) : string * list string :=
  match s with
  | EmptyString => (EmptyString, [])
  | String c r =>
      let '(w, ws) := words r in
      if isspace c then (EmptyString, cons_word w ws) else (String c w, ws)
  end.

(** [s.split()]: the maximal runs of characters that are not white space. *)
Definition split (s : string) : list string :=
  let '(w, ws) := words s in cons_word w ws.

Definition lower_char (c : ascii) : ascii :=
  let n := N_of_ascii c in
  if (((65 <=? n) && (n <=? 90))
      || ((192 <=? n) && (n <=? 222) && negb (n =? 215)))%N
  then ascii_of_N (n + 32) else c.

(** [s.lower()] *)
Fixpoint lower (s : string) : string :=
  match s with
  | EmptyString => EmptyString
  | String c r => String (lower_char c) (lower r)
  end.

(** [sep.join(l)] *)
Fixpoint join (sep : string) (l : list string) : string :=
  match l with
  | [] => EmptyString
  | [x] => x
  | x :: r => x ++ sep ++ join sep r
  end.

(** [len(s)] *)
Definition len (s : string) : Z := Z.of_nat (String.length s).

(** [str(n)] for an [int]. *)
Definition str_of_int (n : Z) : string := NilZero.string_of_int (Z.to_int n).

Definition is_digit (c : ascii) : bool :=
  let n := N_of_ascii c in ((48 <=? n) && (n <=? 57))%N.

Definition digit_value (c : ascii) : Z := Z.of_N (N_of_ascii c) - 48.

(** The digits of an [int] literal after its sign: decimal digits, with
    single underscores allowed between two digits.  [prev] tells whether
    the previous character was a digit. *)
Fixpoint int_digits (acc : Z) (prev : bool) (s : string) : option Z :=
  match s with
  | EmptyString => if prev then Some acc else None
  | String c r =>
      if is_digit c then int_digits (10 * acc + digit_value c) true r
      else if Ascii.eqb c "_" then
             if prev then
               match r with
               | String d _ => if is_digit d then int_digits acc false r else None
               | EmptyString => None
               end
             else None
      else None
  end.

(** The white space that [int] skips at both ends of its argument: that
    of [str.isspace] without the separators U+001C to U+001F. *)
Definition int_space (c : ascii) : bool :=
  let n := N_of_ascii c in
  (((9 <=? n) && (n <=? 13)) || (n =? 32) || (n =? 133) || (n =? 160))%N.

Fixpoint lstrip_by (P : ascii -> bool) (s : string) : string :=
  match s with
  | EmptyString => EmptyString
  | String c r => if P c then lstrip_by P r else s
  end.

Fixpoint rstrip_by (P : ascii -> bool) (s : string) : string :=
  match s with
  | EmptyString => EmptyString
  | String c r =>
      match rstrip_by P r with
      | EmptyString => if P c then EmptyString else String c EmptyString
      | r' => String c r'
      end
  end.

(** The number of decimal digits in a text. *)
Fixpoint digit_count (s : string) : nat :=
  match s with
  | EmptyString => 0
  | String c r => if is_digit c then S (digit_count r) else digit_count r
  end.

(** [sys.get_int_max_str_digits()], at its default. *)
Definition int_max_str_digits : Z := 4300.

(** [int(s)] for a [str]: [None] is [ValueError].  White space at both
    ends is skipped, a sign may precede the digits, and a literal of more
    than [int_max_str_digits] digits is refused. *)
Definition int_of_str (s : string) : option Z :=
  let body := lstrip_by int_space (rstrip_by int_space s) in
  let digits := match body with
                | String "-" r => r
                | String "+" r => r
                | r => r
                end in
  if int_max_str_digits <? Z.of_nat (digit_count digits) then None
  else match body with
       | String "-" r => Z.opp <$> int_digits 0 false r
       | String "+" r => int_digits 0 false r
       | r => int_digits 0 false r
       end.

Definition quot : ascii := ascii_of_nat 34.

Definition escape_char (c : ascii) : string :=
  if Ascii.eqb c "&" then "&amp;"
  else if Ascii.eqb c "<" then "&lt;"
  else if Ascii.eqb c ">" then "&gt;"
  else if Ascii.eqb c quot then "&quot;"
  else if Ascii.eqb c "'" then "&#x27;"
  else String c EmptyString.

(** [html.escape(s)] (with [quote=True], the default). *)
Fixpoint html_escape (s : string) : string :=
  match s with
  | EmptyString => EmptyString
  | String c r => escape_char c ++ html_escape r
  end.

(** [x in l] for a list of strings. *)
Definition str_in (x : string) (l : list string) : bool :=
  existsb (String.eqb x) l.

End Py.

(* ===================================================================== *)
(** * Exceptions and the application state *)
(* ===================================================================== *)

(** The exception classes that the handlers can meet. *)
Inductive exn :=
| AttributeError            (* [.get] on a value that is not a dict *)
| TypeError                 (* [len] or [re.search] on a value that is not a str *)
| ValueError                (* [int] on text that is not an integer *)
| BadRequest                (* [request.get_json()] cannot produce a value *)
| DecodeError (msg : string)
| InvalidSignatureError
| InvalidAlgorithmError
| ImmatureSignatureError
| ExpiredSignatureError.

(** [isinstance(e, jwt.ExpiredSignatureError)] *)
Definition is_ExpiredSignatureError (e : exn) : bool :=
  match e with ExpiredSignatureError => true | _ => false end.

(** [isinstance(e, jwt.InvalidTokenError)]: the base class of every error
    that [jwt.decode] raises, the expired one included. *)
Definition is_InvalidTokenError (e : exn) : bool :=
  match e with
  | DecodeError _ | InvalidSignatureError | InvalidAlgorithmError
  | ImmatureSignatureError | ExpiredSignatureError => true
  | _ => false
  end.

Inductive outcome (A : Type) :=
| Return (a : A)
| Raise (e : exn).
Arguments Return {A} a.
Arguments Raise {A} e.

Module Task.
Record row := mk {
  title : string;
  description : string;
  status : string;
  user_id : Z;
  created_at : Z
}.
End Task.

Module User.
Record row := mk {
  email : string;
  password_hash : string;
  name : string;
  role : string;
  created_at : Z
}.
End User.

(** The two tables and their auto-increment counters. *)
Record database := mkdb {
  tasks : gmap Z Task.row;
  tasks_next_id : Z;
  users : gmap Z User.row;
  users_next_id : Z
}.

Inductive level := DEBUG | INFO | WARNING | ERROR.

(** One record of [current_app.logger]: level, message, and the exception
    interpolated at the end of the message when there is one. *)
Record log_record := mklog {
  log_level : level;
  log_message : string;
  log_exception : option exn
}.

Record app_state := mkst {
  db : database;
  logs : list log_record;     (* newest last *)
  utcnow : Z;                 (* datetime.utcnow(), in seconds *)
  salts_drawn : nat;          (* calls of bcrypt.gensalt so far *)
  ties : nat -> Z -> Z        (* the order that the database engine gives to
                                 rows of equal sort key, for each ordered
                                 SELECT to come: the rank of a row id *)
}.

(** [current_app.config], the part that the code reads. *)
Record Config := mkcfg {
  JWT_SECRET_KEY : string;
  JWT_EXPIRY_HOURS : Z
}.

(** Computations of a request: state passing with exceptions. *)
Definition M (A : Type) : Type := app_state -> outcome A * app_state.

Definition ret {A} (a : A) : M A := fun st => (Return a, st).

Definition bind {A B} (m : M A) (k : A -> M B) : M B :=
  fun st =>
    match m st with
    | (Return a, st') => k a st'
    | (Raise e, st') => (Raise e, st')
    end.

Definition raise {A} (e : exn) : M A := fun st => (Raise e, st).

(** [try: m  except Exception as e: h e] *)
Definition try_except {A} (m : M A) (h : exn -> M A) : M A :=
  fun st =>
    match m st with
    | (Return a, st') => (Return a, st')
    | (Raise e, st') => h e st'
    end.

Definition gets {A} (f : app_state -> A) : M A := fun st => (Return (f st), st).

Definition set_db (d : database) : M unit :=
  fun st => (Return tt, mkst d (logs st) (utcnow st) (salts_drawn st) (ties st)).

Definition logger (l : level) (msg : string) (e : option exn) : M unit :=
  fun st => (Return tt,
             mkst (db st) (logs st ++ [mklog l msg e]) (utcnow st) (salts_drawn st)
                  (ties st)).

(** The state after one ordered SELECT: the engine's next choice is up. *)
Definition after_select (st : app_state) : app_state :=
  mkst (db st) (logs st) (utcnow st) (salts_drawn st) (fun n => ties st (S n)).

(** The order that the engine gives to rows of equal sort key in the
    SELECT that is executed now.  An [ORDER BY] that does not order two
    rows leaves their order to the engine, which may choose otherwise in
    the next statement. *)
Definition engine_order : M (Z -> Z) :=
  fun st => (Return (ties st 0%nat), after_select st).

Declare Scope m_scope.
Delimit Scope m_scope with M.
Notation "x <- m ;; k" := (bind m (fun x => k))
  (at level 100, m at next level, right associativity) : m_scope.
Notation "m ;;; k" := (bind m (fun _ => k))
  (at level 100, right associativity) : m_scope.
Open Scope m_scope.

(* ===================================================================== *)
(** * The token library ([jwt.encode], [jwt.decode])

    The library is outside the repository.  Its compact serialization is
    kept as three segments joined by dots; a segment is rendered in base 16
    here (the library uses base64url of JSON text).  What the application
    relies on is kept: the signature is recomputed over the first two
    segments, the algorithm is checked against the allowed list, and the
    [iat] and [exp] claims are checked against the clock, without leeway
    (the [iat] check is the one of recent versions of the library).  The
    keyed hash is a parameter.  The server is the only signer, so the
    payload of a token is the claim set that [generate_token] builds; a
    text whose payload segment does not hold such a claim set is not
    decodable. *)
(* ===================================================================== *)

Module Jwt.

(** The claim set that [generate_token] builds. *)
Record claims := mk {
  user_id : Z;
  role : string;
  iat : Z;
  exp : Z
}.

Definition hex_digit (n : N) : ascii :=
  nth (N.to_nat n)
      (list_ascii_of_string "0123456789abcdef") "f"%char.

Definition hex_value (c : ascii) : option N :=
  let n := N_of_ascii c in
  if ((48 <=? n) && (n <=? 57))%N then Some (n - 48)%N
  else if ((97 <=? n) && (n <=? 102))%N then Some (n - 87)%N
  else None.

Fixpoint seg_encode (s : string) : string :=
  match s with
  | EmptyString => EmptyString
  | String c r =>
      let n := N_of_ascii c in
      String (hex_digit (n / 16)) (String (hex_digit (n mod 16)) (seg_encode r))
  end.

Fixpoint seg_decode (s : string) : option string :=
  match s with
  | EmptyString => Some EmptyString
  | String h (String l r) =>
      match hex_value h, hex_value l, seg_decode r with
      | Some a, Some b, Some t => Some (String (ascii_of_N (16 * a + b)) t)
      | _, _, _ => None
      end
  | String _ EmptyString => None
  end.

(** [s.split(c)] for a one-character separator. *)
Fixpoint split_on (c : ascii) (s : string) : list string :=
  match s with
  | EmptyString => [EmptyString]
  | String x r =>
      if Ascii.eqb x c then EmptyString :: split_on c r
      else match split_on c r with
           | w :: ws => String x w :: ws
           | [] => [String x EmptyString]
           end
  end.

Definition parse_int (s : string) : option Z :=
  Z.of_int <$> NilZero.int_of_string s.

Definition payload_segment (p : claims) : string :=
  Py.join "," [ seg_encode (Py.str_of_int (user_id p));
                seg_encode (role p);
                seg_encode (Py.str_of_int (iat p));
                seg_encode (Py.str_of_int (exp p)) ].

Definition parse_payload (s : string) : option claims :=
  match split_on "," s with
  | [a; b; c; d] =>
      u ← seg_decode a ≫= parse_int;
      r ← seg_decode b;
      i ← seg_decode c ≫= parse_int;
      e ← seg_decode d ≫= parse_int;
      Some (mk u r i e)
  | _ => None
  end.

Section Signed.

Variable HS256 : string -> string -> string.   (* key, message *)

(** [jwt.encode(payload, key, algorithm=algorithm)] *)
Definition encode (payload : claims) (key : string) (algorithm : string) : string :=
  let signing_input := seg_encode algorithm ++ "." ++ payload_segment payload in
  signing_input ++ "." ++ seg_encode (HS256 key signing_input).

(** [jwt.decode(token, key, algorithms=algorithms)] at clock value [now]. *)
Definition decode (token key : string) (algorithms : list string) (now : Z)
  : outcome claims :=
  match split_on "." token with
  | [h; p; s] =>
      match seg_decode h, seg_decode s with
      | None, _ => Raise (DecodeError "Invalid header padding")
      | _, None => Raise (DecodeError "Invalid crypto padding")
      | Some alg, Some sig =>
          if negb (Py.str_in alg algorithms) then Raise InvalidAlgorithmError
          else if negb (String.eqb sig (HS256 key (h ++ "." ++ p)))
          then Raise InvalidSignatureError
          else match parse_payload p with
               | None => Raise (DecodeError "Invalid payload string")
               | Some c =>
                   if now <? iat c then Raise ImmatureSignatureError
                   else if exp c <=? now then Raise ExpiredSignatureError
                   else Return c
               end
      end
  | _ => Raise (DecodeError "Not enough segments")
  end.

End Signed.

End Jwt.

(* ===================================================================== *)
(** * Requests and responses *)
(* ===================================================================== *)

(** A value inside a JSON request body.  A float, an array or a nested
    object is kept as what the handlers can observe of it: its [str()]
    text, its truth value, and its [len()] when it has one. *)
Inductive jval :=
| JNull
| JBool (b : bool)
| JInt (n : Z)
| JStr (s : string)
| JOpaque (text : string) (truth : bool) (length : option nat).

(** What [request.get_json()] does. *)
Inductive json_body :=
| BodyRaises                              (* not JSON: the call raises *)
| BodyObject (fields : gmap string jval)  (* a JSON object, a dict *)
| BodyOther (v : jval).                   (* any other JSON value *)

Record request := mkreq {
  authorization : option string;     (* request.headers.get('Authorization') *)
  json : json_body;                  (* request.get_json() *)
  args : gmap string string          (* request.args *)
}.

(** The dict that [token_required] passes to a handler. *)
Record current_user := mkuser {
  user_id : Z;
  role : string
}.

Record task_view := mkview {
  view_id : Z;
  view_title : string;
  view_description : string;
  view_status : string;
  view_user_id : Z;
  view_created_at : Z
}.

(** The [data] member of a response, one shape per handler. *)
Inductive response_data :=
| TaskCreated (task_id : Z)
| TaskPage (tasks : list task_view) (total page limit pages : Z)
| TaskDetail (t : task_view)
| TaskUpdated (id : Z) (title description status : string)
| UserRegistered (user_id : Z) (email : string).

(** [(jsonify(response), status_code)] *)
Record response := mkresp {
  status_code : Z;
  success : bool;
  message : option string;
  error : option string;
  data : option response_data
}.

Definition success_response (message : string) (data : option response_data)
  (status_code : Z) : response :=
  mkresp status_code true (Some message) None data.

Definition error_response (message : string) (status_code : Z) : response :=
  mkresp status_code false None (Some message) None.

(* ===================================================================== *)
(** * [utils/validators.py] *)
(* ===================================================================== *)

Module Validators.

(** [bool(v)] *)
Definition truthy (v : jval) : bool :=
  match v with
  | JNull => false
  | JBool b => b
  | JInt n => negb (n =? 0)
  | JStr s => negb (String.eqb s "")
  | JOpaque _ t _ => t
  end.

(** [str(v)] *)
Definition py_str (v : jval) : string :=
  match v with
  | JNull => "None"
  | JBool true => "True"
  | JBool false => "False"
  | JInt n => Py.str_of_int n
  | JStr s => s
  | JOpaque text _ _ => text
  end.

Definition sanitize_input (value : jval) : string :=
  match value with
  | JNull => ""
  | _ =>
      let value := match value with JStr s => s | _ => py_str value end in
      let value := Py.strip value in
      Py.html_escape value
  end.

Definition is_upper (c : ascii) : bool :=
  let n := N_of_ascii c in ((65 <=? n) && (n <=? 90))%N.
Definition is_lower (c : ascii) : bool :=
  let n := N_of_ascii c in ((97 <=? n) && (n <=? 122))%N.
Definition is_alpha (c : ascii) : bool := is_upper c || is_lower c.

Fixpoint all_chars (P : ascii -> bool) (s : string) : bool :=
  match s with
  | EmptyString => true
  | String c r => P c && all_chars P r
  end.

Fixpoint any_char (P : ascii -> bool) (s : string) : bool :=
  match s with
  | EmptyString => false
  | String c r => P c || any_char P r
  end.

(** [[a-zA-Z0-9._%+-]] *)
Definition local_char (c : ascii) : bool :=
  is_alpha c || Py.is_digit c
  || Ascii.eqb c "." || Ascii.eqb c "_" || Ascii.eqb c "%"
  || Ascii.eqb c "+" || Ascii.eqb c "-".

(** [[a-zA-Z0-9.-]] *)
Definition domain_char (c : ascii) : bool :=
  is_alpha c || Py.is_digit c || Ascii.eqb c "." || Ascii.eqb c "-".

(** The text before the first [c] and the text after it. *)
Fixpoint split_first (c : ascii) (s : string) : option (string * string) :=
  match s with
  | EmptyString => None
  | String x r =>
      if Ascii.eqb x c then Some (EmptyString, r)
      else match split_first c r with
           | Some (a, b) => Some (String x a, b)
           | None => None
           end
  end.

(** The text before the last [c] and the text after it. *)
Fixpoint split_last (c : ascii) (s : string) : option (string * string) :=
  match s with
  | EmptyString => None
  | String x r =>
      match split_last c r with
      | Some (a, b) => Some (String x a, b)
      | None => if Ascii.eqb x c then Some (EmptyString, r) else None
      end
  end.

(** A final line feed, which [$] lets pass, removed. *)
Fixpoint chomp (s : string) : string :=
  match s with
  | EmptyString => EmptyString
  | String c EmptyString => if Ascii.eqb c (ascii_of_nat 10) then EmptyString else s
  | String c r => String c (chomp r)
  end.

(** [re.match(r'^[a-zA-Z0-9._%+-]+@[a-zA-Z0-9.-]+\.[a-zA-Z]{2,}$', email)]:
    the local part runs to the first [@] (its class has no [@]) and the
    last label starts after the last dot (its class has no dot). *)
Definition email_pattern (email : string) : bool :=
  match split_first "@" (chomp email) with
  | None => false
  | Some (local, rest) =>
      match split_last "." rest with
      | None => false
      | Some (domain, tld) =>
          negb (String.eqb local "") && all_chars local_char local
          && negb (String.eqb domain "") && all_chars domain_char domain
          && (2 <=? Py.len tld) && all_chars is_alpha tld
      end
  end.

Definition validate_email (email : string) : bool :=
  if String.eqb email "" then false else email_pattern email.

(** [len(v)]: [None] is [TypeError]. *)
Definition py_len (v : jval) : option Z :=
  match v with
  | JStr s => Some (Py.len s)
  | JOpaque _ _ (Some n) => Some (Z.of_nat n)
  | _ => None
  end.

(** [re.search(pattern, v)] for a one-character class: a [str] is needed. *)
Definition re_search (P : ascii -> bool) (v : jval) : outcome bool :=
  match v with
  | JStr s => Return (any_char P s)
  | _ => Raise TypeError
  end.

Definition validate_password (password : jval) : outcome (bool * string) :=
  if negb (truthy password) then Return (false, "Password is required")
  else match py_len password with
  | None => Raise TypeError
  | Some n =>
  if n <? 8 then Return (false, "Password must be at least 8 characters long")
  else match re_search is_upper password with
  | Raise e => Raise e
  | Return false =>
      Return (false, "Password must contain at least one uppercase letter")
  | Return true =>
  match re_search is_lower password with
  | Raise e => Raise e
  | Return false =>
      Return (false, "Password must contain at least one lowercase letter")
  | Return true =>
  match re_search Py.is_digit password with
  | Raise e => Raise e
  | Return false => Return (false, "Password must contain at least one digit")
  | Return true => Return (true, "Password is valid")
  end end end end.

End Validators.

(* ===================================================================== *)
(** * [models/task_model.py] and [models/user_model.py] *)
(* ===================================================================== *)

(** [ORDER BY created_at DESC]: newest first.  The statement does not
    order the rows of one second; the engine lists them as it chooses, and
    [rank] is its choice for this statement: of two rows of one second, one
    of lower rank is not listed after the other. *)
Definition listed_before {A} (created_at : A -> Z) (rank : Z -> Z)
  (a b : Z * A) : bool :=
  (created_at b.2 <? created_at a.2)
  || ((created_at a.2 =? created_at b.2) && (rank a.1 <=? rank b.1)).

Fixpoint insert_row {A} (created_at : A -> Z) (rank : Z -> Z)
  (x : Z * A) (l : list (Z * A)) : list (Z * A) :=
  match l with
  | [] => [x]
  | y :: r =>
      if listed_before created_at rank x y then x :: l
      else y :: insert_row created_at rank x r
  end.

Definition order_by_created_at_desc {A} (created_at : A -> Z) (rank : Z -> Z)
  (l : list (Z * A)) : list (Z * A) :=
  foldr (insert_row created_at rank) [] l.

(** [SELECT ... FROM tasks WHERE P ORDER BY created_at DESC] *)
Definition select_tasks (rank : Z -> Z) (P : Z * Task.row -> bool) (d : database)
  : list (Z * Task.row) :=
  order_by_created_at_desc Task.created_at rank
    (List.filter P (map_to_list (tasks d))).

(** [LIMIT limit OFFSET offset] *)
Definition limit_offset {A} (limit offset : Z) (rows : list A) : list A :=
  take (Z.to_nat limit) (drop (Z.to_nat offset) rows).

(** [if status:] on an optional filter: [None] and [''] do not filter. *)
Definition filter_given (status : option string) : option string :=
  match status with
  | Some s => if String.eqb s "" then None else Some s
  | None => None
  end.

Module TaskModel.

Definition create (title description status : string) (user_id : Z) : M Z :=
  d <- gets db ;;
  now <- gets utcnow ;;
  let task_id := tasks_next_id d in
  set_db (mkdb (<[task_id := Task.mk title description status user_id now]> (tasks d))
               (task_id + 1) (users d) (users_next_id d)) ;;;
  ret task_id.

Definition find_by_id (task_id : Z) : M (option (Z * Task.row)) :=
  d <- gets db ;;
  ret ((fun r => (task_id, r)) <$> tasks d !! task_id).

Definition by_user (user_id : Z) (status : option string) (r : Z * Task.row) : bool :=
  match filter_given status with
  | Some s => (Task.user_id r.2 =? user_id) && String.eqb (Task.status r.2) s
  | None => Task.user_id r.2 =? user_id
  end.

Definition find_by_user (user_id : Z) (status : option string) (limit offset : Z)
  : M (list (Z * Task.row)) :=
  d <- gets db ;;
  rank <- engine_order ;;
  ret (limit_offset limit offset (select_tasks rank (by_user user_id status) d)).

(** [find_all] is called without its [user_id] filter. *)
Definition by_status (status : option string) (r : Z * Task.row) : bool :=
  match filter_given status with
  | Some s => String.eqb (Task.status r.2) s
  | None => true
  end.

Definition find_all (status : option string) (limit offset : Z)
  : M (list (Z * Task.row)) :=
  d <- gets db ;;
  rank <- engine_order ;;
  ret (limit_offset limit offset (select_tasks rank (by_status status) d)).

Definition count_by_user (user_id : Z) (status : option string) : M Z :=
  d <- gets db ;;
  ret (Z.of_nat (length (List.filter (by_user user_id status) (map_to_list (tasks d))))).

Definition count_all (status : option string) : M Z :=
  d <- gets db ;;
  ret (Z.of_nat (length (List.filter (by_status status) (map_to_list (tasks d))))).

(** [UPDATE tasks SET ... WHERE id = task_id]: a column is set when its
    argument is not [None]. *)
Definition set_columns (title description status : option string) (r : Task.row)
  : Task.row :=
  Task.mk (default (Task.title r) title)
          (default (Task.description r) description)
          (default (Task.status r) status)
          (Task.user_id r) (Task.created_at r).

Definition update (task_id : Z) (title description status : option string) : M bool :=
  match title, description, status with
  | None, None, None => ret false
  | _, _, _ =>
      d <- gets db ;;
      set_db (mkdb (alter (set_columns title description status) task_id (tasks d))
                   (tasks_next_id d) (users d) (users_next_id d)) ;;;
      ret true
  end.

Definition delete (task_id : Z) : M bool :=
  d <- gets db ;;
  set_db (mkdb (base.delete task_id (tasks d))
               (tasks_next_id d) (users d) (users_next_id d)) ;;;
  ret true.

End TaskModel.

Module UserModel.

Definition create (email password_hash name role : string) : M Z :=
  d <- gets db ;;
  now <- gets utcnow ;;
  let user_id := users_next_id d in
  set_db (mkdb (tasks d) (tasks_next_id d)
               (<[user_id := User.mk email password_hash name role now]> (users d))
               (user_id + 1)) ;;;
  ret user_id.

Definition find_by_email (email : string) : M (option (Z * User.row)) :=
  d <- gets db ;;
  ret (head (List.filter (fun r : Z * User.row => String.eqb (User.email r.2) email)
                         (map_to_list (users d)))).

End UserModel.

(* ===================================================================== *)
(** * [utils/password.py] *)
(* ===================================================================== *)

Section Password.

(** [bcrypt.hashpw(password, salt)].  The library is outside the
    repository and may refuse a password: its recent versions raise
    [ValueError] for one of more than 72 bytes, where earlier ones cut it
    short. *)
Variable bcrypt_hashpw : string -> string -> outcome string.
Variable gensalt : nat -> string.     (* the salt of the n-th call, rounds=12 *)

Definition hash_password (password : string) : M string :=
  n <- gets salts_drawn ;;
  (fun st => (Return tt, mkst (db st) (logs st) (utcnow st) (S n) (ties st))) ;;;
  match bcrypt_hashpw password (gensalt n) with
  | Return hashed => ret hashed
  | Raise e => raise e
  end.

End Password.

(* ===================================================================== *)
(** * [middleware/auth_middleware.py] *)
(* ===================================================================== *)

Section AuthMiddleware.

Variable HS256 : string -> string -> string.
Variable config : Config.
Variable req : request.            (* flask.request *)

Definition generate_token (user_id : Z) (role : string) : M string :=
  let secret_key := JWT_SECRET_KEY config in
  let expiry_hours := JWT_EXPIRY_HOURS config in
  iat <- gets utcnow ;;
  now <- gets utcnow ;;
  let payload := Jwt.mk user_id role iat (now + 3600 * expiry_hours) in
  let token := Jwt.encode HS256 payload secret_key "HS256" in
  ret token.

Definition decode_token (token : string) : M (option Jwt.claims) :=
  let secret_key := JWT_SECRET_KEY config in
  now <- gets utcnow ;;
  match Jwt.decode HS256 token secret_key ["HS256"] now with
  | Return payload => ret (Some payload)
  | Raise e =>
      if is_ExpiredSignatureError e then
        logger WARNING "Token expired" None ;;;
        ret None
      else if is_InvalidTokenError e then
        logger WARNING "Invalid token: " (Some e) ;;;
        ret None
      else raise e
  end.

(** The token that the [Authorization] header carries, if it has the form
    [Bearer <token>]. *)
Definition bearer_token (auth_header : option string) : option string :=
  match auth_header with
  | Some h =>
      if String.eqb h "" then None
      else match Py.split h with
           | [scheme; token] =>
               if String.eqb (Py.lower scheme) "bearer" then Some token else None
           | _ => None
           end
  | None => None
  end.

(** [not token] *)
Definition not_token (token : option string) : bool :=
  match token with
  | None => true
  | Some t => String.eqb t ""
  end.

(** [@token_required]: [f] is the handler with its route arguments. *)
Definition token_required (f : current_user -> M response) : M response :=
  let token := bearer_token (authorization req) in
  if not_token token then
    logger WARNING "Request without token" None ;;;
    ret (error_response "Authentication token is required" 401)
  else
    payload <- decode_token (default "" token) ;;
    match payload with
    | None => ret (error_response "Invalid or expired token" 401)
    | Some payload =>
        let current_user :=
          mkuser (Jwt.user_id payload) (Jwt.role payload) in
        f current_user
    end.

End AuthMiddleware.

(* ===================================================================== *)
(** * [routes/task_routes.py] and [routes/auth_routes.py] *)
(* ===================================================================== *)

Definition valid_statuses : list string :=
  ["pending"; "in_progress"; "completed"; "cancelled"].

Definition invalid_status_message : string :=
  "Invalid status. Must be one of: " ++ Py.join ", " valid_statuses.

Definition to_view (r : Z * Task.row) : task_view :=
  mkview r.1 (Task.title r.2) (Task.description r.2) (Task.status r.2)
         (Task.user_id r.2) (Task.created_at r.2).

Section Routes.

Variable req : request.            (* flask.request *)

Definition get_json : M json_body :=
  match json req with
  | BodyRaises => raise BadRequest
  | b => ret b
  end.

(** [not data] *)
Definition not_data (data : json_body) : bool :=
  match data with
  | BodyRaises => true
  | BodyObject fields => bool_decide (fields = ∅)
  | BodyOther v => negb (Validators.truthy v)
  end.

(** [data.get(key, dflt)] *)
Definition data_get (data : json_body) (key : string) (dflt : jval) : M jval :=
  match data with
  | BodyObject fields => ret (default dflt (fields !! key))
  | _ => raise AttributeError
  end.

(** [int(request.args.get(key, dflt))] *)
Definition int_arg (key : string) (dflt : Z) : M Z :=
  match args req !! key with
  | None => ret dflt
  | Some s =>
      match Py.int_of_str s with
      | Some n => ret n
      | None => raise ValueError
      end
  end.

Definition create_task (current_user : current_user) : M response :=
  try_except
    (data <- get_json ;;
     if not_data data then ret (error_response "Request body is required" 400)
     else
     title <- data_get data "title" (JStr "") ;;
     let title := Validators.sanitize_input title in
     description <- data_get data "description" (JStr "") ;;
     let description := Validators.sanitize_input description in
     status <- data_get data "status" (JStr "pending") ;;
     let status := Validators.sanitize_input status in
     if String.eqb title "" then ret (error_response "Task title is required" 400)
     else if 200 <? Py.len title then
       ret (error_response "Title must be less than 200 characters" 400)
     else if negb (Py.str_in status valid_statuses) then
       ret (error_response invalid_status_message 400)
     else
     task_id <- TaskModel.create title description status (user_id current_user) ;;
     logger INFO ("Task created: " ++ Py.str_of_int task_id ++ " by user "
                  ++ Py.str_of_int (user_id current_user)) None ;;;
     ret (success_response "Task created successfully"
                           (Some (TaskCreated task_id)) 201))
    (fun e =>
       logger ERROR "Create task error: " (Some e) ;;;
       ret (error_response "Failed to create task" 500)).

Definition get_tasks (current_user : current_user) : M response :=
  try_except
    (let show_all :=
       String.eqb (Py.lower (default "false" (args req !! "all"))) "true" in
     let status_filter := args req !! "status" in
     page <- int_arg "page" 1 ;;
     limit <- int_arg "limit" 10 ;;
     let page := if page <? 1 then 1 else page in
     let limit := if (limit <? 1) || (100 <? limit) then 10 else limit in
     let offset := (page - 1) * limit in
     listing <-
       (if show_all && String.eqb (role current_user) "admin" then
          tasks <- TaskModel.find_all status_filter limit offset ;;
          total <- TaskModel.count_all status_filter ;;
          ret (tasks, total)
        else
          tasks <- TaskModel.find_by_user (user_id current_user) status_filter
                                          limit offset ;;
          total <- TaskModel.count_by_user (user_id current_user) status_filter ;;
          ret (tasks, total)) ;;
     let tasks := listing.1 in
     let total := listing.2 in
     let task_list := List.map to_view tasks in
     ret (success_response "Tasks retrieved successfully"
            (Some (TaskPage task_list total page limit
                            ((total + limit - 1) / limit))) 200))
    (fun e =>
       logger ERROR "Get tasks error: " (Some e) ;;;
       ret (error_response "Failed to retrieve tasks" 500)).

Definition get_task (current_user : current_user) (task_id : Z) : M response :=
  try_except
    (task <- TaskModel.find_by_id task_id ;;
     match task with
     | None => ret (error_response "Task not found" 404)
     | Some task =>
         if negb (Task.user_id task.2 =? user_id current_user)
            && negb (String.eqb (role current_user) "admin")
         then ret (error_response "You do not have permission to view this task" 403)
         else ret (success_response "Task retrieved successfully"
                                    (Some (TaskDetail (to_view task))) 200)
     end)
    (fun e =>
       logger ERROR "Get task error: " (Some e) ;;;
       ret (error_response "Failed to retrieve task" 500)).

Definition update_task (current_user : current_user) (task_id : Z) : M response :=
  try_except
    (task <- TaskModel.find_by_id task_id ;;
     match task with
     | None => ret (error_response "Task not found" 404)
     | Some task =>
     if negb (Task.user_id task.2 =? user_id current_user) then
       ret (error_response "You do not have permission to update this task" 403)
     else
     data <- get_json ;;
     if not_data data then ret (error_response "Request body is required" 400)
     else
     title <- data_get data "title" (JStr (Task.title task.2)) ;;
     let title := Validators.sanitize_input title in
     description <- data_get data "description" (JStr (Task.description task.2)) ;;
     let description := Validators.sanitize_input description in
     status <- data_get data "status" (JStr (Task.status task.2)) ;;
     let status := Validators.sanitize_input status in
     if String.eqb title "" then ret (error_response "Task title cannot be empty" 400)
     else if 200 <? Py.len title then
       ret (error_response "Title must be less than 200 characters" 400)
     else if negb (Py.str_in status valid_statuses) then
       ret (error_response invalid_status_message 400)
     else
     TaskModel.update task_id (Some title) (Some description) (Some status) ;;;
     logger INFO ("Task updated: " ++ Py.str_of_int task_id ++ " by user "
                  ++ Py.str_of_int (user_id current_user)) None ;;;
     ret (success_response "Task updated successfully"
                           (Some (TaskUpdated task_id title description status)) 200)
     end)
    (fun e =>
       logger ERROR "Update task error: " (Some e) ;;;
       ret (error_response "Failed to update task" 500)).

Definition delete_task (current_user : current_user) (task_id : Z) : M response :=
  try_except
    (task <- TaskModel.find_by_id task_id ;;
     match task with
     | None => ret (error_response "Task not found" 404)
     | Some task =>
     if negb (Task.user_id task.2 =? user_id current_user)
        && negb (String.eqb (role current_user) "admin")
     then ret (error_response "You do not have permission to delete this task" 403)
     else
     TaskModel.delete task_id ;;;
     logger INFO ("Task deleted: " ++ Py.str_of_int task_id ++ " by user "
                  ++ Py.str_of_int (user_id current_user)) None ;;;
     ret (success_response "Task deleted successfully" None 200)
     end)
    (fun e =>
       logger ERROR "Delete task error: " (Some e) ;;;
       ret (error_response "Failed to delete task" 500)).

Variable bcrypt_hashpw : string -> string -> outcome string.
Variable gensalt : nat -> string.

Definition register : M response :=
  try_except
    (data <- get_json ;;
     if not_data data then
       logger WARNING "Registration attempt with empty body" None ;;;
       ret (error_response "Request body is required" 400)
     else
     email <- data_get data "email" (JStr "") ;;
     let email := Validators.sanitize_input email in
     password <- data_get data "password" (JStr "") ;;
     name <- data_get data "name" (JStr "") ;;
     let name := Validators.sanitize_input name in
     role <- data_get data "role" (JStr "user") ;;
     let role := Validators.sanitize_input role in
     if String.eqb email "" || negb (Validators.truthy password) || String.eqb name ""
     then ret (error_response "Email, password, and name are required" 400)
     else if negb (Validators.validate_email email) then
       ret (error_response "Invalid email format" 400)
     else
     match Validators.validate_password password with
     | Raise e => raise e
     | Return (false, password_msg) => ret (error_response password_msg 400)
     | Return (true, _) =>
     let role := if negb (Py.str_in role ["user"; "admin"]) then "user" else role in
     existing_user <- UserModel.find_by_email email ;;
     match existing_user with
     | Some _ =>
         logger WARNING ("Registration attempt with existing email: " ++ email) None ;;;
         ret (error_response "Email already registered" 409)
     | None =>
     password_hash <-
       match password with
       | JStr pw => hash_password bcrypt_hashpw gensalt pw
       | _ => raise AttributeError       (* password.encode *)
       end ;;
     user_id <- UserModel.create email password_hash name role ;;
     logger INFO ("New user registered: " ++ email ++ " (ID: "
                  ++ Py.str_of_int user_id ++ ")") None ;;;
     ret (success_response "User registered successfully"
                           (Some (UserRegistered user_id email)) 201)
     end end)
    (fun e =>
       logger ERROR "Registration error: " (Some e) ;;;
       ret (error_response "Registration failed" 500)).

End Routes.

(* ===================================================================== *)
(** * The rest of the application

    The functions beside the ones above: the remaining validators and
    response builders, the role decorators, the reading statements of
    the user model, the filtered task listing and the deletion of a user's
    tasks, password verification, and the handlers for login, the current
    user, the user list, logout and the two admin task routes. *)
(* ===================================================================== *)

(** ** [utils/validators.py], [utils/responses.py] *)

Definition validate_task_status (status : string) : bool :=
  let valid_statuses := ["pending"; "in_progress"; "completed"; "cancelled"] in
  Py.str_in status valid_statuses.

(** [validate_string_length(value, min_length, max_length)] on a [str];
    the defaults of the source are 1 and 255. *)
Definition validate_string_length (value : string) (min_length max_length : Z)
  : bool * string :=
  if String.eqb value "" then
    (false, "Value must be at least " ++ Py.str_of_int min_length ++ " characters")
  else if Py.len value <? min_length then
    (false, "Value must be at least " ++ Py.str_of_int min_length ++ " characters")
  else if max_length <? Py.len value then
    (false, "Value must not exceed " ++ Py.str_of_int max_length ++ " characters")
  else (true, "Valid").

Module Pagination.

(** The [pagination] member of a paginated response. *)
Record info := mk {
  page : Z;
  limit : Z;
  total_items : Z;
  total_pages : Z;
  has_next : bool;
  has_prev : bool
}.

(** [(jsonify(response), status_code)] of [paginated_response]. *)
Record body (D : Type) := mkbody {
  status_code : Z;
  success : bool;
  message : string;
  data : D;
  pagination : info
}.
Arguments mkbody {D}.
Arguments status_code {D}.
Arguments success {D}.
Arguments message {D}.
Arguments data {D}.
Arguments pagination {D}.

End Pagination.

Definition paginated_response {D : Type} (message : string) (data : D)
  (page limit total status_code : Z) : Pagination.body D :=
  let total_pages := if 0 <? limit then (total + limit - 1) / limit else 0 in
  Pagination.mkbody status_code true message data
    (Pagination.mk page limit total total_pages (page <? total_pages) (1 <? page)).

(** ** Responses that carry the other shapes of data *)

Record user_view := mkuview {
  uview_id : Z;
  uview_email : string;
  uview_name : string;
  uview_role : string;
  uview_created_at : Z
}.

(** The [data] member of the responses of login, of the user routes and of
    the admin task list. *)
Inductive reply_data :=
| LoggedIn (token : string) (id : Z) (email name role : string)
| UserDetail (u : user_view)
| UserList (users : list user_view) (total : Z)
| AllTasks (tasks : list task_view) (total : Z).

(** [(jsonify(response), status_code)] for these handlers. *)
Record reply := mkreply {
  reply_status : Z;
  reply_success : bool;
  reply_message : option string;
  reply_error : option string;
  reply_data_of : option reply_data
}.

(** [success_response] and [error_response] at this type. *)
Definition success_reply (message : string) (data : option reply_data)
  (status_code : Z) : reply :=
  mkreply status_code true (Some message) None data.

Definition error_reply (message : string) (status_code : Z) : reply :=
  mkreply status_code false None (Some message) None.

(** The response types that a decorator can answer with:
    [error_response] at that type. *)
Class Envelope (R : Type) := error_as : string -> Z -> R.
#[global] Instance response_envelope : Envelope response := error_response.
#[global] Instance reply_envelope : Envelope reply := error_reply.

Definition to_user_view (r : Z * User.row) : user_view :=
  mkuview r.1 (User.email r.2) (User.name r.2) (User.role r.2) (User.created_at r.2).

(** ** More statements of the models *)

Module UserTable.

Definition find_by_id (user_id : Z) : M (option (Z * User.row)) :=
  d <- gets db ;;
  ret ((fun r => (user_id, r)) <$> users d !! user_id).

Definition find_all : M (list (Z * User.row)) :=
  d <- gets db ;;
  rank <- engine_order ;;
  ret (order_by_created_at_desc User.created_at rank (map_to_list (users d))).

End UserTable.

Module TaskTable.

(** [TaskModel.find_all(status, user_id, limit, offset)] with its
    [user_id] filter: [if user_id:] skips [None] and 0. *)
Definition by_filters (status : option string) (user_id : option Z)
  (r : Z * Task.row) : bool :=
  TaskModel.by_status status r
  && match user_id with
     | Some u => if u =? 0 then true else Task.user_id r.2 =? u
     | None => true
     end.

Definition find_all (status : option string) (user_id : option Z)
  (limit offset : Z) : M (list (Z * Task.row)) :=
  d <- gets db ;;
  rank <- engine_order ;;
  ret (limit_offset limit offset (select_tasks rank (by_filters status user_id) d)).

(** [DELETE FROM tasks WHERE user_id = user_id] *)
Definition delete_by_user (user_id : Z) : M bool :=
  d <- gets db ;;
  set_db (mkdb (filter (fun kt : Z * Task.row => Task.user_id kt.2 <> user_id) (tasks d))
               (tasks_next_id d) (users d) (users_next_id d)) ;;;
  ret true.

End TaskTable.

(** ** [utils/password.py]: verification *)

Section VerifyPassword.

(** [bcrypt.checkpw(password, hash)]: it may raise on a hash that it
    cannot read. *)
Variable bcrypt_checkpw : string -> string -> outcome bool.

(** A password that is not a [str] has no [encode]: the [except] clause
    answers [False]. *)
Definition verify_password (password : jval) (password_hash : string) : bool :=
  match password with
  | JStr pw =>
      match bcrypt_checkpw pw password_hash with
      | Return b => b
      | Raise _ => false
      end
  | _ => false
  end.

End VerifyPassword.

(** ** [middleware/role_check.py] and the gate at any response type *)

Section Decorators.

Context {R : Type} `{Envelope R}.

Variable HS256 : string -> string -> string.
Variable config : Config.
Variable req : request.

(** [@token_required] on a handler whose response is of type [R]. *)
Definition token_required_as (f : current_user -> M R) : M R :=
  let token := bearer_token (authorization req) in
  if not_token token then
    logger WARNING "Request without token" None ;;;
    ret (error_as "Authentication token is required" 401)
  else
    payload <- decode_token HS256 config (default "" token) ;;
    match payload with
    | None => ret (error_as "Invalid or expired token" 401)
    | Some payload =>
        let current_user :=
          mkuser (Jwt.user_id payload) (Jwt.role payload) in
        f current_user
    end.

Definition admin_required (f : current_user -> M R) (current_user : current_user)
  : M R :=
  if negb (String.eqb (role current_user) "admin") then
    logger WARNING ("Non-admin user " ++ Py.str_of_int (user_id current_user)
                    ++ " attempted to access admin route") None ;;;
    ret (error_as "Admin privileges required for this action" 403)
  else f current_user.

(** [repr] of the tuple of allowed roles, for the log line. *)
Variable tuple_repr : list string -> string.

Definition role_required (allowed_roles : list string)
  (f : current_user -> M R) (current_user : current_user) : M R :=
  let user_role := role current_user in
  if negb (Py.str_in user_role allowed_roles) then
    logger WARNING ("User " ++ Py.str_of_int (user_id current_user)
                    ++ " with role " ++ user_role
                    ++ " denied access to route requiring "
                    ++ tuple_repr allowed_roles) None ;;;
    ret (error_as ("Required role: " ++ Py.join ", " allowed_roles) 403)
  else f current_user.

End Decorators.

(** ** The remaining handlers of [routes/auth_routes.py] and
       [routes/task_routes.py] *)

Section MoreRoutes.

Variable HS256 : string -> string -> string.
Variable bcrypt_checkpw : string -> string -> outcome bool.
Variable config : Config.
Variable req : request.

Definition login : M reply :=
  try_except
    (data <- get_json req ;;
     if not_data data then ret (error_reply "Request body is required" 400)
     else
     email <- data_get data "email" (JStr "") ;;
     let email := Validators.sanitize_input email in
     password <- data_get data "password" (JStr "") ;;
     if String.eqb email "" || negb (Validators.truthy password) then
       ret (error_reply "Email and password are required" 400)
     else
     user <- UserModel.find_by_email email ;;
     match user with
     | None =>
         logger WARNING ("Login attempt with unknown email: " ++ email) None ;;;
         ret (error_reply "Invalid email or password" 401)
     | Some user =>
     if negb (verify_password bcrypt_checkpw password (User.password_hash user.2)) then
       logger WARNING ("Failed login attempt for: " ++ email) None ;;;
       ret (error_reply "Invalid email or password" 401)
     else
     token <- generate_token HS256 config user.1 (User.role user.2) ;;
     logger INFO ("User logged in: " ++ email) None ;;;
     ret (success_reply "Login successful"
            (Some (LoggedIn token user.1 (User.email user.2) (User.name user.2)
                            (User.role user.2))) 200)
     end)
    (fun e =>
       logger ERROR "Login error: " (Some e) ;;;
       ret (error_reply "Login failed" 500)).

Definition get_current_user (current_user : current_user) : M reply :=
  try_except
    (user <- UserTable.find_by_id (user_id current_user) ;;
     match user with
     | None => ret (error_reply "User not found" 404)
     | Some user =>
         ret (success_reply "User retrieved successfully"
                            (Some (UserDetail (to_user_view user))) 200)
     end)
    (fun e =>
       logger ERROR "Get user error: " (Some e) ;;;
       ret (error_reply "Failed to retrieve user" 500)).

Definition get_all_users (current_user : current_user) : M reply :=
  try_except
    (users <- UserTable.find_all ;;
     let user_list := List.map to_user_view users in
     ret (success_reply "Users retrieved successfully"
            (Some (UserList user_list (Z.of_nat (length user_list)))) 200))
    (fun e =>
       logger ERROR "Get users error: " (Some e) ;;;
       ret (error_reply "Failed to retrieve users" 500)).

(** No [try] in this handler. *)
Definition logout (current_user : current_user) : M response :=
  logger INFO ("User logged out: " ++ Py.str_of_int (user_id current_user)) None ;;;
  ret (success_response "Logout successful. Please remove token from client."
                        None 200).

(** [user_id_filter]: absent or empty it stays falsy, otherwise [int] of it. *)
Definition user_id_arg : M (option Z) :=
  match args req !! "user_id" with
  | None => ret None
  | Some s =>
      if String.eqb s "" then ret None
      else match Py.int_of_str s with
           | Some n => ret (Some n)
           | None => raise ValueError
           end
  end.

Definition admin_get_all_tasks (current_user : current_user) : M reply :=
  try_except
    (let status_filter := args req !! "status" in
     user_id_filter <- user_id_arg ;;
     tasks <- TaskTable.find_all status_filter user_id_filter 100 0 ;;
     let task_list := List.map to_view tasks in
     ret (success_reply "All tasks retrieved successfully"
            (Some (AllTasks task_list (Z.of_nat (length task_list)))) 200))
    (fun e =>
       logger ERROR "Admin get tasks error: " (Some e) ;;;
       ret (error_reply "Failed to retrieve tasks" 500)).

Definition admin_delete_task (current_user : current_user) (task_id : Z)
  : M response :=
  try_except
    (task <- TaskModel.find_by_id task_id ;;
     match task with
     | None => ret (error_response "Task not found" 404)
     | Some task =>
         TaskModel.delete task_id ;;;
         logger INFO ("Task " ++ Py.str_of_int task_id ++ " deleted by admin "
                      ++ Py.str_of_int (user_id current_user)) None ;;;
         ret (success_response "Task deleted successfully by admin" None 200)
     end)
    (fun e =>
       logger ERROR "Admin delete task error: " (Some e) ;;;
       ret (error_response "Failed to delete task" 500)).

End MoreRoutes.

(* ===================================================================== *)
(** * Observations on a served request *)
(* ===================================================================== *)

(** The HTTP status of the response, when the handler returns one. *)
Definition status_of (r : outcome response * app_state) : option Z :=
  match r.1 with
  | Return resp => Some (status_code resp)
  | Raise _ => None
  end.

(** The store after the request. *)
Definition db_after (r : outcome response * app_state) : database := db r.2.

(** The primary keys in use are below the auto-increment counters. *)
Definition store_ok (d : database) : Prop :=
  (forall (k : Z) (t : Task.row), tasks d !! k = Some t -> k < tasks_next_id d)
  /\ (forall (k : Z) (u : User.row), users d !! k = Some u -> k < users_next_id d).

(** Newest first: no row is listed before a row that was created later. *)
Definition newest_first {A} (created_at : A -> Z) (l : list (Z * A)) : Prop :=
  StronglySorted (fun a b => created_at b.2 <= created_at a.2) l.

(** The place of a row id in a list of ids, counted from 0. *)
Fixpoint position_of (id : Z) (ids : list Z) : Z :=
  match ids with
  | [] => 0
  | x :: r => if x =? id then 0 else 1 + position_of id r
  end.

(** The least number of pages of [limit] rows that hold [total] rows. *)
Definition is_ceil_div (pages total limit : Z) : Prop :=
  (pages - 1) * limit < total <= pages * limit.

(** The alphabet of an encoded segment. *)
Definition is_hex (c : ascii) : bool :=
  match Jwt.hex_value c with Some _ => true | None => false end.

(** [x] is another character than [c]. *)
Definition differs (c x : ascii) : bool := negb (Ascii.eqb x c).

(** A keyed hash, a configuration, and a fresh store at clock value 1000,
    for the worked requests. *)
Definition demo_mac (key msg : string) : string := key ++ msg.
Definition demo_config : Config := mkcfg "secret" 24.
Definition empty_db : database := mkdb ∅ 1 ∅ 1.
(** An engine that lists the rows of one second by ascending id, and one
    that lists them by descending id. *)
Definition by_id_ascending : nat -> Z -> Z := fun _ id => id.
Definition by_id_descending : nat -> Z -> Z := fun _ id => - id.

Definition demo_state : app_state := mkst empty_db [] 1000 0 by_id_ascending.

(** A store with one task, owned by user 7. *)
Definition one_task_state : app_state :=
  mkst (mkdb {[1 := Task.mk "Buy milk" "" "pending" 7 900]} 2 ∅ 1) [] 1000 0
       by_id_ascending.

(** The token issued to user 7, an admin, in [demo_state]. *)
Definition demo_token : string :=
  Eval vm_compute in
    match (generate_token demo_mac demo_config 7 "admin" demo_state).1 with
    | Return t => t
    | Raise _ => ""
    end.

(** A request with a JSON object as its body. *)
Definition json_request (fields : list (string * jval)) : request :=
  mkreq None (BodyObject (list_to_map fields)) ∅.

(** A request without a body, with query parameters. *)
Definition query_request (params : list (string * string)) : request :=
  mkreq None BodyRaises (list_to_map params).

(** A request with an [Authorization] header. *)
Definition bearer_request (header : string) (fields : list (string * jval))
  (params : list (string * string)) : request :=
  mkreq (Some header) (BodyObject (list_to_map fields)) (list_to_map params).

(** The state after user 7 has created [n] tasks. *)
Fixpoint seed_tasks (n : nat) (st : app_state) : app_state :=
  match n with
  | O => st
  | S k => (create_task (json_request [("title", JStr "task")])
                        (mkuser 7 "user") (seed_tasks k st)).2
  end.

(** The number of tasks, the total and the pages of a task listing. *)
Definition page_summary (r : outcome response * app_state) : option (nat * Z * Z) :=
  match r.1 with
  | Return resp =>
      match data resp with
      | Some (TaskPage tasks total _ _ pages) => Some (length tasks, total, pages)
      | _ => None
      end
  | Raise _ => None
  end.

(** The HTTP status of a reply, when the handler returns one. *)
Definition reply_status_of (r : outcome reply * app_state) : option Z :=
  match r.1 with
  | Return resp => Some (reply_status resp)
  | Raise _ => None
  end.

(** None of the characters that [html.escape] replaces, the ampersand
    apart. *)
Definition no_markup (c : ascii) : bool :=
  negb (Ascii.eqb c "<" || Ascii.eqb c ">" || Ascii.eqb c Py.quot || Ascii.eqb c "'").

(** None of the characters that [html.escape] replaces. *)
Definition plain_char (c : ascii) : bool := no_markup c && negb (Ascii.eqb c "&").

(** What the handlers guarantee of a stored task. *)
Definition task_ok (t : Task.row) : Prop :=
  Task.title t <> ""
  /\ Py.len (Task.title t) <= 200
  /\ In (Task.status t) valid_statuses
  /\ Validators.all_chars no_markup (Task.title t) = true
  /\ Validators.all_chars no_markup (Task.description t) = true.

Definition tasks_ok (d : database) : Prop :=
  forall (k : Z) (t : Task.row), tasks d !! k = Some t -> task_ok t.

(** No two users have the same email. *)
Definition emails_unique (d : database) : Prop :=
  forall (k1 k2 : Z) (u1 u2 : User.row),
    users d !! k1 = Some u1 -> users d !! k2 = Some u2 ->
    User.email u1 = User.email u2 -> k1 = k2.

(** What [register] guarantees of a stored user. *)
Definition user_ok (u : User.row) : Prop :=
  In (User.role u) ["user"; "admin"]
  /\ Validators.validate_email (User.email u) = true
  /\ User.name u <> "".

Definition users_ok (d : database) : Prop :=
  forall (k : Z) (u : User.row), users d !! k = Some u -> user_ok u.

(** A password check for the worked requests: the hash of [demo_mac]
    starts with the password. *)
Definition demo_checkpw (password password_hash : string) : outcome bool :=
  Return (String.prefix password password_hash).

(** The pages 1, 2, ..., n. *)
Definition page_numbers (n : nat) : list Z := List.map (fun i => Z.of_nat i + 1) (seq 0 n).

(** A store with two users and three tasks. *)
Definition sample_state : app_state :=
  mkst (mkdb (list_to_map [(1, Task.mk "a" "" "pending" 7 10);
                           (2, Task.mk "b" "" "completed" 7 20);
                           (3, Task.mk "c" "" "pending" 8 30)]) 4
             (list_to_map [(7, User.mk "alice@example.com" "Passw0rdsalt" "Alice" "admin" 5);
                           (8, User.mk "bob@example.com" "Secret99salt" "Bob" "user" 6)]) 9)
       [] 1000 0 by_id_ascending.

(** The sanitized value of a field of the body, or of its default when the
    body does not have the field. *)
Definition field_or (fields : gmap string jval) (key dflt : string) : string :=
  Validators.sanitize_input (default (JStr dflt) (fields !! key)).

(** The role that [register] stores for a sanitized body role. *)
Definition stored_role (role : string) : string :=
  if negb (Py.str_in role ["user"; "admin"]) then "user" else role.

(** The store and the response of a registration that is accepted, with
    [password_hash] the hash that the library returned. *)
Definition registered (st : app_state) (fields : gmap string jval)
  (password_hash : string) : outcome response * app_state :=
  let email := field_or fields "email" "" in
  (Return (success_response "User registered successfully"
             (Some (UserRegistered (users_next_id (db st)) email)) 201),
   mkst (mkdb (tasks (db st)) (tasks_next_id (db st))
              (<[users_next_id (db st) :=
                   User.mk email password_hash
                           (field_or fields "name" "")
                           (stored_role (field_or fields "role" "user"))
                           (utcnow st)]> (users (db st)))
              (users_next_id (db st) + 1))
        (logs st ++ [mklog INFO
                       ("New user registered: " ++ email ++ " (ID: "
                        ++ Py.str_of_int (users_next_id (db st)) ++ ")") None])
        (utcnow st) (S (salts_drawn st)) (ties st)).

(** A password hash for the worked requests: the password followed by the
    salt; like the recent versions of the library it refuses a password of
    more than 72 characters. *)
Definition demo_hashpw (password salt : string) : outcome string :=
  if 72 <? Py.len password then Raise ValueError else Return (password ++ salt).

(** The tasks of a task list that is answered, and the task of a task
    detail that is answered. *)
Definition listed_tasks (r : outcome response * app_state) : list task_view :=
  match r.1 with
  | Return resp =>
      match data resp with
      | Some (TaskPage tasks _ _ _ _) => tasks
      | _ => []
      end
  | Raise _ => []
  end.

Definition shown_task (r : outcome response * app_state) : option task_view :=
  match r.1 with
  | Return resp =>
      match data resp with
      | Some (TaskDetail v) => Some v
      | _ => None
      end
  | Raise _ => None
  end.

(* ===================================================================== *)
(** * Properties *)
(* ===================================================================== *)

Arguments Py.str_in : simpl never.
Arguments Py.len : simpl never.
Arguments Py.str_of_int : simpl never.
Arguments Py.split : simpl never.
Arguments Py.lower : simpl never.
Arguments Validators.sanitize_input : simpl never.
Arguments Validators.truthy : simpl never.
Arguments Validators.validate_email : simpl never.
Arguments Validators.validate_password : simpl never.

Ltac run :=
  unfold status_of, db_after, try_except, bind, ret, gets, raise, set_db, logger,
    TaskModel.find_by_id, TaskModel.delete, TaskModel.update, TaskModel.create,
    get_json, data_get; simpl.

(** Case analysis on the next test of the handler. *)
Ltac case_if :=
  match goal with
  | |- context [if ?b then _ else _] => destruct b eqn:?; simpl
  end.

Section TaskAccess.

Variable req : request.
Variable st : app_state.
Variable cu : current_user.
Variable task_id : Z.

Lemma update_task_missing :
  tasks (db st) !! task_id = None ->
  update_task req cu task_id st = (Return (error_response "Task not found" 404), st).
Proof. intros H. unfold update_task. run. rewrite H. reflexivity. Qed.

Lemma delete_task_missing :
  tasks (db st) !! task_id = None ->
  delete_task cu task_id st = (Return (error_response "Task not found" 404), st).
Proof. intros H. unfold delete_task. run. rewrite H. reflexivity. Qed.

Lemma get_task_missing :
  tasks (db st) !! task_id = None ->
  get_task cu task_id st = (Return (error_response "Task not found" 404), st).
Proof. intros H. unfold get_task. run. rewrite H. reflexivity. Qed.

Lemma update_task_not_owner (t : Task.row) :
  tasks (db st) !! task_id = Some t ->
  Task.user_id t <> user_id cu ->
  update_task req cu task_id st
  = (Return (error_response "You do not have permission to update this task" 403), st).
Proof.
  intros H Hne. unfold update_task. run. rewrite H. simpl.
  destruct (Z.eqb_spec (Task.user_id t) (user_id cu)); [contradiction | reflexivity].
Qed.

Lemma delete_task_allowed (t : Task.row) :
  tasks (db st) !! task_id = Some t ->
  Task.user_id t = user_id cu \/ role cu = "admin" ->
  exists st',
    delete_task cu task_id st
    = (Return (success_response "Task deleted successfully" None 200), st')
    /\ tasks (db st') = base.delete task_id (tasks (db st)).
Proof.
  intros H Hok. unfold delete_task. run. rewrite H. simpl.
  assert (negb (Task.user_id t =? user_id cu) && negb (String.eqb (role cu) "admin")
          = false) as ->.
  { destruct Hok as [-> | ->].
    - rewrite Z.eqb_refl. reflexivity.
    - rewrite String.eqb_refl. apply andb_false_r. }
  eexists. split; reflexivity.
Qed.

Lemma delete_task_forbidden (t : Task.row) :
  tasks (db st) !! task_id = Some t ->
  Task.user_id t <> user_id cu ->
  role cu <> "admin" ->
  delete_task cu task_id st
  = (Return (error_response "You do not have permission to delete this task" 403), st).
Proof.
  intros H Hne Hr. unfold delete_task. run. rewrite H. simpl.
  destruct (Z.eqb_spec (Task.user_id t) (user_id cu)); [contradiction |].
  destruct (String.eqb_spec (role cu) "admin"); [contradiction | reflexivity].
Qed.

End TaskAccess.

(** C1. Ownership and role policy on task mutation: on a stored task,
    [PUT /tasks/<id>] answers 403 whenever the caller's user_id differs
    from the task's (whatever the caller's role, admin included) and the
    store is left as it was; [DELETE /tasks/<id>] answers 200 and removes
    the row when the caller is the owner or has role admin, and answers
    403, leaving the store as it was, when the caller is neither. *)
Theorem C1_ownership_policy :
  forall (req : request) (st : app_state) (cu : current_user)
         (task_id : Z) (t : Task.row),
    tasks (db st) !! task_id = Some t ->
    (Task.user_id t <> user_id cu ->
       status_of (update_task req cu task_id st) = Some 403
       /\ db_after (update_task req cu task_id st) = db st)
    /\ (Task.user_id t = user_id cu \/ role cu = "admin" ->
          status_of (delete_task cu task_id st) = Some 200
          /\ tasks (db_after (delete_task cu task_id st))
             = base.delete task_id (tasks (db st)))
    /\ (Task.user_id t <> user_id cu -> role cu <> "admin" ->
          status_of (delete_task cu task_id st) = Some 403
          /\ db_after (delete_task cu task_id st) = db st).
Proof.
  intros req st cu task_id t Hfound. repeat split.
  - rewrite (update_task_not_owner req st cu task_id t); auto.
  - rewrite (update_task_not_owner req st cu task_id t); auto.
  - destruct (delete_task_allowed st cu task_id t Hfound H) as (st' & -> & _).
    reflexivity.
  - destruct (delete_task_allowed st cu task_id t Hfound H) as (st' & -> & Hdb).
    exact Hdb.
  - rewrite (delete_task_forbidden st cu task_id t); auto.
  - rewrite (delete_task_forbidden st cu task_id t); auto.
Qed.

Lemma get_task_found_status (st : app_state) (cu : current_user) (task_id : Z)
  (t : Task.row) :
  tasks (db st) !! task_id = Some t ->
  status_of (get_task cu task_id st) = Some 200
  \/ status_of (get_task cu task_id st) = Some 403.
Proof.
  intros H. unfold get_task. run. rewrite H. simpl.
  destruct (negb _ && negb _); simpl; auto.
Qed.

Lemma delete_task_found_status (st : app_state) (cu : current_user) (task_id : Z)
  (t : Task.row) :
  tasks (db st) !! task_id = Some t ->
  status_of (delete_task cu task_id st) = Some 200
  \/ status_of (delete_task cu task_id st) = Some 403.
Proof.
  intros H. unfold delete_task. run. rewrite H. simpl.
  destruct (negb _ && negb _); simpl; auto.
Qed.

Lemma update_task_found_status (req : request) (st : app_state) (cu : current_user)
  (task_id : Z) (t : Task.row) :
  tasks (db st) !! task_id = Some t ->
  exists code, status_of (update_task req cu task_id st) = Some code
               /\ (code = 200 \/ code = 400 \/ code = 403 \/ code = 500).
Proof.
  intros H. unfold update_task. run. rewrite H. simpl.
  case_if; [eauto 6 |].
  destruct (json req) as [|fields|v]; simpl; [eauto 6 | |];
    repeat case_if; eauto 6.
Qed.

(** C10. Existence is disclosed before ownership: for GET, PUT and DELETE
    on [/tasks/<id>], whoever the authenticated caller is, the answer is
    404 exactly when no task has that id; a 403 is only ever given for a
    task that exists. *)
Theorem C10_not_found_iff_absent :
  forall (req : request) (st : app_state) (cu : current_user) (task_id : Z),
    (status_of (get_task cu task_id st) = Some 404
       <-> tasks (db st) !! task_id = None)
    /\ (status_of (update_task req cu task_id st) = Some 404
          <-> tasks (db st) !! task_id = None)
    /\ (status_of (delete_task cu task_id st) = Some 404
          <-> tasks (db st) !! task_id = None)
    /\ (status_of (get_task cu task_id st) = Some 403
        \/ status_of (update_task req cu task_id st) = Some 403
        \/ status_of (delete_task cu task_id st) = Some 403
        -> is_Some (tasks (db st) !! task_id)).
Proof.
  intros req st cu task_id.
  destruct (tasks (db st) !! task_id) as [t|] eqn:Hlk.
  - pose proof (get_task_found_status st cu task_id t Hlk) as Hg.
    pose proof (delete_task_found_status st cu task_id t Hlk) as Hd.
    destruct (update_task_found_status req st cu task_id t Hlk) as (code & Hu & Hc).
    repeat split; intros; try discriminate; eauto.
    + destruct Hg as [Hg|Hg]; congruence.
    + rewrite Hu in *. destruct Hc as [?|[?|[?|?]]]; congruence.
    + destruct Hd as [Hd|Hd]; congruence.
  - rewrite (get_task_missing st cu task_id Hlk),
            (update_task_missing req st cu task_id Hlk),
            (delete_task_missing st cu task_id Hlk).
    repeat split; intros; try reflexivity.
    unfold status_of in *. simpl in *.
    destruct H as [H|[H|H]]; discriminate.
Qed.

(* --------------------------------------------------------------------- *)
(** ** The token codec *)
(* --------------------------------------------------------------------- *)

Section Codec.

Import Validators Jwt.

Lemma all_chars_app (P : ascii -> bool) (a b : string) :
  all_chars P (a ++ b) = all_chars P a && all_chars P b.
Proof.
  induction a as [|c a IH]; simpl; [reflexivity |].
  rewrite IH. apply andb_assoc.
Qed.

Lemma all_chars_impl (P Q : ascii -> bool) (s : string) :
  (forall c, P c = true -> Q c = true) ->
  all_chars P s = true -> all_chars Q s = true.
Proof.
  intros HPQ. induction s as [|c s IH]; simpl; [reflexivity |].
  intros [Hc Hs]%andb_prop. rewrite (HPQ c Hc), (IH Hs). reflexivity.
Qed.

Lemma hex_char_roundtrip (c : ascii) :
  let n := N_of_ascii c in
  hex_value (hex_digit (n / 16)) = Some (n / 16)%N
  /\ hex_value (hex_digit (n mod 16)) = Some (n mod 16)%N
  /\ ascii_of_N (16 * (n / 16) + n mod 16) = c.
Proof.
  destruct c as [[] [] [] [] [] [] [] []]; vm_compute; repeat split.
Qed.

Lemma hex_digit_is_hex (c : ascii) :
  is_hex (hex_digit (N_of_ascii c / 16)) = true
  /\ is_hex (hex_digit (N_of_ascii c mod 16)) = true.
Proof.
  destruct (hex_char_roundtrip c) as (H1 & H2 & _).
  unfold is_hex. rewrite H1, H2. split; reflexivity.
Qed.

Lemma seg_roundtrip (s : string) : seg_decode (seg_encode s) = Some s.
Proof.
  induction s as [|c s IH]; [reflexivity |].
  destruct (hex_char_roundtrip c) as (H1 & H2 & H3).
  cbn [seg_encode seg_decode]. rewrite H1, H2, IH, H3. reflexivity.
Qed.

Lemma seg_encode_hex (s : string) : all_chars is_hex (seg_encode s) = true.
Proof.
  induction s as [|c s IH]; [reflexivity |].
  destruct (hex_digit_is_hex c) as [H1 H2].
  cbn [seg_encode all_chars]. rewrite H1, H2, IH. reflexivity.
Qed.

Lemma is_hex_differs (c x : ascii) :
  is_hex c = false -> is_hex x = true -> differs c x = true.
Proof.
  intros Hc Hx. unfold differs.
  destruct (Ascii.eqb_spec x c) as [->|]; [congruence | reflexivity].
Qed.

Lemma seg_encode_free (c : ascii) (s : string) :
  is_hex c = false -> all_chars (differs c) (seg_encode s) = true.
Proof.
  intros Hc. apply (all_chars_impl is_hex); [| apply seg_encode_hex].
  intros x. apply is_hex_differs, Hc.
Qed.

Lemma split_on_free (c : ascii) (s : string) :
  all_chars (differs c) s = true -> split_on c s = [s].
Proof.
  induction s as [|x s IH]; simpl; [reflexivity |].
  unfold differs at 1. intros [Hx Hs]%andb_prop.
  apply negb_true_iff in Hx. rewrite Hx, (IH Hs). reflexivity.
Qed.

Lemma split_on_app (c : ascii) (a b : string) :
  all_chars (differs c) a = true ->
  split_on c (a ++ String c b) = a :: split_on c b.
Proof.
  induction a as [|x a IH]; simpl.
  - intros _. rewrite Ascii.eqb_refl. reflexivity.
  - unfold differs at 1. intros [Hx Ha]%andb_prop.
    apply negb_true_iff in Hx. rewrite Hx, (IH Ha). reflexivity.
Qed.

Lemma parse_int_str (n : Z) : parse_int (Py.str_of_int n) = Some n.
Proof.
  unfold parse_int, Py.str_of_int.
  rewrite NilZero.isi.
  - simpl. rewrite DecimalZ.of_to. reflexivity.
  - destruct n; simpl; try discriminate.
    intros [= H]. revert H. apply Unsigned.to_uint_nonnil.
  - destruct n; simpl; try discriminate.
    intros [= H]. revert H. apply Unsigned.to_uint_nonnil.
Qed.

Lemma append_sep (c : ascii) (s : string) : String c "" ++ s = String c s.
Proof. reflexivity. Qed.

Lemma append_cons (c : ascii) (a b : string) : String c a ++ b = String c (a ++ b).
Proof. reflexivity. Qed.

Lemma append_assoc (a b c : string) : (a ++ b) ++ c = a ++ (b ++ c).
Proof.
  induction a as [|x a IH]; [reflexivity |].
  rewrite !append_cons, IH. reflexivity.
Qed.

Lemma payload_roundtrip (p : claims) : parse_payload (payload_segment p) = Some p.
Proof.
  unfold parse_payload, payload_segment. cbn [Py.join]. rewrite !append_sep.
  assert (Hc : is_hex "," = false) by reflexivity.
  rewrite !split_on_app by (apply seg_encode_free, Hc).
  rewrite split_on_free by (apply seg_encode_free, Hc).
  rewrite !seg_roundtrip. simpl. rewrite !parse_int_str. simpl.
  destruct p; reflexivity.
Qed.

Lemma payload_segment_free (c : ascii) (p : claims) :
  is_hex c = false -> differs c "," = true ->
  all_chars (differs c) (payload_segment p) = true.
Proof.
  intros Hc Hcomma. unfold payload_segment. cbn [Py.join]. rewrite !append_sep.
  repeat (rewrite ?all_chars_app; cbn [all_chars]).
  rewrite !seg_encode_free by exact Hc. rewrite Hcomma. reflexivity.
Qed.

Variable HS256 : string -> string -> string.

(** Decoding a token that [encode] made, with the key it was made with:
    the signature agrees, and the clock decides. *)
Lemma decode_encode (p : claims) (key : string) (now : Z) :
  decode HS256 (encode HS256 p key "HS256") key ["HS256"] now
  = if now <? iat p then Raise ImmatureSignatureError
    else if exp p <=? now then Raise ExpiredSignatureError
    else Return p.
Proof.
  unfold decode, encode.
  assert (Hd : is_hex "." = false) by reflexivity.
  rewrite !append_sep, append_assoc, append_cons.
  rewrite split_on_app by (apply seg_encode_free, Hd).
  rewrite split_on_app by (apply payload_segment_free; [exact Hd | reflexivity]).
  rewrite split_on_free by (apply seg_encode_free, Hd).
  rewrite !seg_roundtrip.
  change (Py.str_in "HS256" ["HS256"]) with true. cbn [negb].
  rewrite String.eqb_refl. cbn [negb].
  rewrite payload_roundtrip. reflexivity.
Qed.

(** A token made with another key, whose keyed hash differs, is turned
    down for its signature, whatever the clock. *)
Lemma decode_other_key (p : claims) (key key' : string) (now : Z) :
  HS256 key' (seg_encode "HS256" ++ "." ++ payload_segment p)
  <> HS256 key (seg_encode "HS256" ++ "." ++ payload_segment p) ->
  decode HS256 (encode HS256 p key' "HS256") key ["HS256"] now
  = Raise InvalidSignatureError.
Proof.
  intros Hmac. unfold decode, encode.
  assert (Hd : is_hex "." = false) by reflexivity.
  rewrite !append_sep, append_assoc, append_cons.
  rewrite split_on_app by (apply seg_encode_free, Hd).
  rewrite split_on_app by (apply payload_segment_free; [exact Hd | reflexivity]).
  rewrite split_on_free by (apply seg_encode_free, Hd).
  rewrite !seg_roundtrip.
  change (Py.str_in "HS256" ["HS256"]) with true. cbn [negb].
  match goal with
  | |- context [String.eqb ?a ?b] => destruct (String.eqb_spec a b) as [He|He]
  end; [exfalso; apply Hmac; exact He | reflexivity].
Qed.

End Codec.

(* --------------------------------------------------------------------- *)
(** ** The token service *)
(* --------------------------------------------------------------------- *)

Section TokenService.

Variable HS256 : string -> string -> string.
Variable config : Config.

Lemma generate_token_eq (u : Z) (r : string) (st : app_state) :
  generate_token HS256 config u r st
  = (Return (Jwt.encode HS256
               (Jwt.mk u r (utcnow st) (utcnow st + 3600 * JWT_EXPIRY_HOURS config))
               (JWT_SECRET_KEY config) "HS256"), st).
Proof. reflexivity. Qed.

(** Every error of [jwt.decode] is an [InvalidTokenError]. *)
Lemma decode_raises_invalid (token key : string) (now : Z) (e : exn) :
  Jwt.decode HS256 token key ["HS256"] now = Raise e ->
  is_InvalidTokenError e = true.
Proof.
  unfold Jwt.decode. intros H.
  repeat match type of H with
         | match ?x with _ => _ end = _ => destruct x
         | (if ?b then _ else _) = _ => destruct b
         end;
    inversion H; reflexivity.
Qed.

Lemma decode_token_ok (token : string) (st : app_state) (p : Jwt.claims) :
  Jwt.decode HS256 token (JWT_SECRET_KEY config) ["HS256"] (utcnow st) = Return p ->
  decode_token HS256 config token st = (Return (Some p), st).
Proof. intros H. unfold decode_token. run. rewrite H. reflexivity. Qed.

Lemma decode_token_raise (token : string) (st : app_state) (e : exn) :
  Jwt.decode HS256 token (JWT_SECRET_KEY config) ["HS256"] (utcnow st) = Raise e ->
  decode_token HS256 config token st
  = (Return None,
     mkst (db st)
          (logs st ++ [if is_ExpiredSignatureError e
                       then mklog WARNING "Token expired" None
                       else mklog WARNING "Invalid token: " (Some e)])
          (utcnow st) (salts_drawn st) (ties st)).
Proof.
  intros H. pose proof (decode_raises_invalid _ _ _ _ H) as Hinv.
  unfold decode_token. run. rewrite H.
  destruct (is_ExpiredSignatureError e); [reflexivity |].
  rewrite Hinv. reflexivity.
Qed.

(** [decode_token] returns: a claim set or [None], it never raises. *)
Lemma decode_token_returns (token : string) (st : app_state) :
  exists (r : option Jwt.claims) (st' : app_state),
    decode_token HS256 config token st = (Return r, st').
Proof.
  destruct (Jwt.decode HS256 token (JWT_SECRET_KEY config) ["HS256"] (utcnow st))
    as [p|e] eqn:H.
  - rewrite (decode_token_ok _ _ _ H). eauto.
  - rewrite (decode_token_raise _ _ _ H). eauto.
Qed.

End TokenService.

(** C2. Token round trip: for every user_id [u] and role [r], a token
    issued for [(u, r)] is issued without failure; verified at a later
    time that is before its expiry (issue time plus the configured hours)
    it yields a claim set with [user_id = u] and [role = r]; verified at
    or after its expiry, the library reports the expired signature, and
    verification fails: [decode_token] logs ['Token expired'] and returns
    [None]. *)
Theorem C2_token_roundtrip :
  forall (HS256 : string -> string -> string) (config : Config)
         (u : Z) (r : string) (st0 st1 : app_state),
    utcnow st0 <= utcnow st1 ->
    exists token,
      generate_token HS256 config u r st0 = (Return token, st0)
      /\ (utcnow st1 < utcnow st0 + 3600 * JWT_EXPIRY_HOURS config ->
          exists payload,
            decode_token HS256 config token st1 = (Return (Some payload), st1)
            /\ Jwt.user_id payload = u /\ Jwt.role payload = r)
      /\ (utcnow st0 + 3600 * JWT_EXPIRY_HOURS config <= utcnow st1 ->
          Jwt.decode HS256 token (JWT_SECRET_KEY config) ["HS256"] (utcnow st1)
          = Raise ExpiredSignatureError
          /\ (decode_token HS256 config token st1).1 = Return None
          /\ logs (decode_token HS256 config token st1).2
             = (logs st1 ++ [mklog WARNING "Token expired" None])%list).
Proof.
  intros HS256 config u r st0 st1 Hlater.
  eexists. split; [apply generate_token_eq |].
  pose proof (decode_encode HS256
                (Jwt.mk u r (utcnow st0) (utcnow st0 + 3600 * JWT_EXPIRY_HOURS config))
                (JWT_SECRET_KEY config) (utcnow st1)) as Hdec.
  cbn [Jwt.iat Jwt.exp] in Hdec.
  destruct (Z.ltb_spec (utcnow st1) (utcnow st0)); [lia |].
  split.
  - intros Hbefore.
    destruct (Z.leb_spec (utcnow st0 + 3600 * JWT_EXPIRY_HOURS config) (utcnow st1));
      [lia |].
    eexists. split; [apply decode_token_ok, Hdec |]. split; reflexivity.
  - intros Hafter.
    destruct (Z.leb_spec (utcnow st0 + 3600 * JWT_EXPIRY_HOURS config) (utcnow st1));
      [| lia].
    split; [exact Hdec |].
    rewrite (decode_token_raise _ _ _ _ _ Hdec). split; reflexivity.
Qed.

Lemma C2_token_roundtrip_witness :
  exists token payload,
    generate_token demo_mac demo_config 7 "admin" demo_state
    = (Return token, demo_state)
    /\ decode_token demo_mac demo_config token (mkst empty_db [] 2000 0 by_id_ascending)
       = (Return (Some payload), mkst empty_db [] 2000 0 by_id_ascending)
    /\ Jwt.user_id payload = 7 /\ Jwt.role payload = "admin".
Proof.
  destruct (C2_token_roundtrip demo_mac demo_config 7 "admin" demo_state
              (mkst empty_db [] 2000 0 by_id_ascending)) as (token & Hgen & Hok & _).
  - simpl. lia.
  - destruct Hok as (payload & Hdec & Hu & Hr).
    + simpl. lia.
    + exists token, payload. auto.
Defined.

(** C3 (as stated, refuted). No expired token and malformed or wrongly
    signed token get different results from [decode_token]: the value
    returned to the caller is the same. *)
Lemma C3_counterexample :
  ~ exists (HS256 : string -> string -> string) (config : Config) (st : app_state)
           (expired malformed : string) (e : exn),
      Jwt.decode HS256 expired (JWT_SECRET_KEY config) ["HS256"] (utcnow st)
      = Raise ExpiredSignatureError
      /\ Jwt.decode HS256 malformed (JWT_SECRET_KEY config) ["HS256"] (utcnow st)
         = Raise e
      /\ e <> ExpiredSignatureError
      /\ (decode_token HS256 config expired st).1
         <> (decode_token HS256 config malformed st).1.
Proof.
  intros (HS256 & config & st & expired & malformed & e & He & Hm & _ & Hne).
  apply Hne.
  rewrite (decode_token_raise _ _ _ _ _ He), (decode_token_raise _ _ _ _ _ Hm).
  reflexivity.
Qed.

(** C3 (amended). Whatever error the library raises on a token, expired
    signature or any other invalid-token error, [decode_token] returns the
    same value, [None], and leaves the store alone; the two outcomes are
    told apart only by the warning it logs: ['Token expired'] for an
    expired token, ['Invalid token: <error>'] otherwise. *)
Theorem C3_expired_and_invalid_return_none :
  forall (HS256 : string -> string -> string) (config : Config) (st : app_state)
         (token : string) (e : exn),
    Jwt.decode HS256 token (JWT_SECRET_KEY config) ["HS256"] (utcnow st) = Raise e ->
    (decode_token HS256 config token st).1 = Return None
    /\ db (decode_token HS256 config token st).2 = db st
    /\ logs (decode_token HS256 config token st).2
       = (logs st ++ [if is_ExpiredSignatureError e
                      then mklog WARNING "Token expired" None
                      else mklog WARNING "Invalid token: " (Some e)])%list
    /\ mklog WARNING "Token expired" None <> mklog WARNING "Invalid token: " (Some e).
Proof.
  intros HS256 config st token e H.
  rewrite (decode_token_raise _ _ _ _ _ H). repeat split. discriminate.
Qed.

Lemma C3_expired_and_invalid_return_none_witness :
  (decode_token demo_mac demo_config "abc" demo_state).1 = Return None
  /\ logs (decode_token demo_mac demo_config "abc" demo_state).2
     = [mklog WARNING "Invalid token: " (Some (DecodeError "Not enough segments"))].
Proof.
  destruct (C3_expired_and_invalid_return_none demo_mac demo_config demo_state "abc"
              (DecodeError "Not enough segments")) as (Hv & _ & Hl & _).
  - reflexivity.
  - split; [exact Hv | exact Hl].
Defined.

(* --------------------------------------------------------------------- *)
(** ** The bearer gate *)
(* --------------------------------------------------------------------- *)

Lemma cons_word_nonempty (w : string) (ws : list string) :
  Forall (fun x => x <> "") ws -> Forall (fun x => x <> "") (Py.cons_word w ws).
Proof.
  intros H. destruct w; simpl; [exact H |].
  constructor; [discriminate | exact H].
Qed.

Lemma words_nonempty (s : string) : Forall (fun x => x <> "") (Py.words s).2.
Proof.
  induction s as [|c s IH]; simpl; [constructor |].
  destruct (Py.words s) as [w ws]. simpl in IH.
  destruct (Py.isspace c); simpl; [apply cons_word_nonempty, IH | exact IH].
Qed.

(** The parts that [split()] returns are not empty. *)
Lemma split_nonempty (s : string) : Forall (fun x => x <> "") (Py.split s).
Proof.
  unfold Py.split. pose proof (words_nonempty s) as H.
  destruct (Py.words s) as [w ws]. apply cons_word_nonempty, H.
Qed.

Lemma bearer_token_split (s : string) :
  bearer_token (Some s)
  = match Py.split s with
    | [scheme; token] =>
        if String.eqb (Py.lower scheme) "bearer" then Some token else None
    | _ => None
    end.
Proof. destruct s; reflexivity. Qed.

Section Gate.

Variable HS256 : string -> string -> string.
Variable config : Config.
Variable req : request.
Variable st : app_state.

Lemma gate_no_bearer (f : current_user -> M response) :
  bearer_token (authorization req) = None ->
  status_of (token_required HS256 config req f st) = Some 401.
Proof. intros H. unfold token_required. rewrite H. reflexivity. Qed.

Lemma gate_bearer (f : current_user -> M response) (s scheme token : string) :
  authorization req = Some s ->
  Py.split s = [scheme; token] ->
  Py.lower scheme = "bearer" ->
  token_required HS256 config req f st
  = match decode_token HS256 config token st with
    | (Return (Some payload), st') =>
        f (mkuser (Jwt.user_id payload) (Jwt.role payload)) st'
    | (Return None, st') =>
        (Return (error_response "Invalid or expired token" 401), st')
    | (Raise e, st') => (Raise e, st')
    end.
Proof.
  intros Hh Hs Hb. unfold token_required.
  rewrite Hh, bearer_token_split, Hs, Hb. simpl.
  assert (token <> "") as Hne.
  { pose proof (split_nonempty s) as Hall. rewrite Hs in Hall.
    inversion Hall as [|? ? _ Hall']. inversion Hall'. assumption. }
  destruct (String.eqb_spec token ""); [contradiction |].
  unfold bind. destruct (decode_token HS256 config token st) as [[[p|]|e] st'];
    reflexivity.
Qed.

End Gate.

(** C8. Bearer-header authentication.  The gate turns a request down with
    401, whatever handler it protects, exactly when the [Authorization]
    header is absent, or does not consist of exactly two parts separated
    by white space, or its first part is not [bearer] up to letter case,
    or its second part fails token verification.  When the header is well
    formed and its token verifies, the handler runs with the token's
    user_id and role as the current user. *)
Theorem C8_bearer_gate :
  forall (HS256 : string -> string -> string) (config : Config)
         (req : request) (st : app_state),
    ((forall f : current_user -> M response,
         status_of (token_required HS256 config req f st) = Some 401)
     <-> (authorization req = None
          \/ exists s, authorization req = Some s
               /\ (length (Py.split s) <> 2%nat
                   \/ exists scheme token,
                        Py.split s = [scheme; token]
                        /\ (Py.lower scheme <> "bearer"
                            \/ (decode_token HS256 config token st).1 = Return None))))
    /\ (forall (s scheme token : string) (payload : Jwt.claims),
          authorization req = Some s ->
          Py.split s = [scheme; token] ->
          Py.lower scheme = "bearer" ->
          (decode_token HS256 config token st).1 = Return (Some payload) ->
          forall f : current_user -> M response,
            token_required HS256 config req f st
            = f (mkuser (Jwt.user_id payload) (Jwt.role payload)) st).
Proof.
  intros HS256 config req st.
  assert (Hrun : forall (s scheme token : string) (payload : Jwt.claims),
             authorization req = Some s ->
             Py.split s = [scheme; token] ->
             Py.lower scheme = "bearer" ->
             (decode_token HS256 config token st).1 = Return (Some payload) ->
             forall f : current_user -> M response,
               token_required HS256 config req f st
               = f (mkuser (Jwt.user_id payload) (Jwt.role payload)) st).
  { intros s scheme token payload Hh Hs Hb Hd f.
    rewrite (gate_bearer HS256 config req st f s scheme token Hh Hs Hb).
    destruct (Jwt.decode HS256 token (JWT_SECRET_KEY config) ["HS256"] (utcnow st))
      as [p|e] eqn:Hj.
    - rewrite (decode_token_ok _ _ _ _ _ Hj) in *. simpl in Hd.
      injection Hd as ->. reflexivity.
    - rewrite (decode_token_raise _ _ _ _ _ Hj) in Hd. discriminate. }
  split; [| exact Hrun].
  split.
  - intros Hrej.
    destruct (authorization req) as [s|] eqn:Hh; [right; exists s; split; [reflexivity|] | left; reflexivity].
    destruct (Py.split s) as [|scheme [|token [|x l]]] eqn:Hs;
      try (left; simpl; lia).
    right. exists scheme, token. split; [reflexivity |].
    destruct (String.eqb_spec (Py.lower scheme) "bearer") as [Hb|Hb]; [| left; exact Hb].
    right.
    destruct (decode_token_returns HS256 config token st) as ([p|] & st' & Hd);
      [| rewrite Hd; reflexivity].
    exfalso.
    specialize (Hrej (fun _ => ret (success_response "" None 200))).
    rewrite (Hrun s scheme token p eq_refl Hs Hb) in Hrej by (rewrite Hd; reflexivity).
    discriminate Hrej.
  - intros Hbad f.
    destruct Hbad as [Hh | (s & Hh & Hbad)].
    + apply gate_no_bearer. rewrite Hh. reflexivity.
    + destruct Hbad as [Hlen | (scheme & token & Hs & Hbad)].
      * apply gate_no_bearer. rewrite Hh, bearer_token_split.
        destruct (Py.split s) as [|a [|b [|c l]]]; try reflexivity.
        simpl in Hlen. lia.
      * destruct Hbad as [Hb | Hd].
        -- apply gate_no_bearer. rewrite Hh, bearer_token_split, Hs.
           destruct (String.eqb_spec (Py.lower scheme) "bearer");
             [contradiction | reflexivity].
        -- destruct (String.eqb_spec (Py.lower scheme) "bearer") as [Hb|Hb].
           ++ rewrite (gate_bearer HS256 config req st f s scheme token Hh Hs Hb).
              destruct (decode_token HS256 config token st) as [[[p|]|e] st'];
                simpl in Hd; try discriminate. reflexivity.
           ++ apply gate_no_bearer. rewrite Hh, bearer_token_split, Hs.
              destruct (String.eqb_spec (Py.lower scheme) "bearer");
                [contradiction | reflexivity].
Qed.

(* --------------------------------------------------------------------- *)
(** ** Creating and updating tasks *)
(* --------------------------------------------------------------------- *)

Lemma store_ok_empty : store_ok empty_db.
Proof. split; intros k x H; simpl in H; rewrite lookup_empty in H; discriminate H. Qed.

(** The id that the next insert takes is not in use. *)
Lemma next_task_id_fresh (d : database) :
  store_ok d -> tasks d !! tasks_next_id d = None.
Proof.
  intros [Ht _]. destruct (tasks d !! tasks_next_id d) as [t|] eqn:H; [| reflexivity].
  apply Ht in H. lia.
Qed.

Lemma str_in_In (x : string) (l : list string) : Py.str_in x l = true <-> In x l.
Proof.
  unfold Py.str_in. rewrite existsb_exists. split.
  - intros (y & Hy & Heq). apply String.eqb_eq in Heq. subst. exact Hy.
  - intros H. exists x. split; [exact H | apply String.eqb_refl].
Qed.

Lemma str_in_not_In (x : string) (l : list string) :
  Py.str_in x l = false <-> ~ In x l.
Proof.
  rewrite <- str_in_In. destruct (Py.str_in x l); split; intros; congruence.
Qed.

Lemma sanitize_absent_title (fields : gmap string jval) :
  fields = ∅ ->
  Validators.sanitize_input (default (JStr "") (fields !! "title")) = "".
Proof. intros ->. reflexivity. Qed.

Section CreateTask.

Variable req : request.
Variable cu : current_user.
Variable st : app_state.
Variable fields : gmap string jval.
Hypothesis Hbody : json req = BodyObject fields.

Local Abbreviation title :=
  (Validators.sanitize_input (default (JStr "") (fields !! "title"))).
Local Abbreviation description :=
  (Validators.sanitize_input (default (JStr "") (fields !! "description"))).
Local Abbreviation status :=
  (Validators.sanitize_input (default (JStr "pending") (fields !! "status"))).

Lemma create_task_accepts :
  title <> "" -> Py.len title <= 200 -> In status valid_statuses ->
  create_task req cu st
  = (Return (success_response "Task created successfully"
               (Some (TaskCreated (tasks_next_id (db st)))) 201),
     mkst (mkdb (<[tasks_next_id (db st) :=
                    Task.mk title description status (user_id cu) (utcnow st)]>
                   (tasks (db st)))
                (tasks_next_id (db st) + 1) (users (db st)) (users_next_id (db st)))
          (logs st ++ [mklog INFO
                         ("Task created: " ++ Py.str_of_int (tasks_next_id (db st))
                          ++ " by user " ++ Py.str_of_int (user_id cu)) None])
          (utcnow st) (salts_drawn st) (ties st)).
Proof.
  intros Ht Hlen Hs. unfold create_task. run. rewrite Hbody. simpl.
  destruct (bool_decide (fields = ∅)) eqn:He.
  { apply bool_decide_eq_true in He. exfalso. apply Ht.
    apply sanitize_absent_title, He. }
  simpl.
  destruct (String.eqb_spec title ""); [contradiction |].
  destruct (Z.ltb_spec 200 (Py.len title)); [lia |].
  apply str_in_In in Hs. rewrite Hs. reflexivity.
Qed.

Lemma create_task_invalid_status :
  title <> "" -> Py.len title <= 200 -> ~ In status valid_statuses ->
  create_task req cu st = (Return (error_response invalid_status_message 400), st).
Proof.
  intros Ht Hlen Hs. unfold create_task. run. rewrite Hbody. simpl.
  destruct (bool_decide (fields = ∅)) eqn:He.
  { apply bool_decide_eq_true in He. exfalso. apply Ht.
    apply sanitize_absent_title, He. }
  simpl.
  destruct (String.eqb_spec title ""); [contradiction |].
  destruct (Z.ltb_spec 200 (Py.len title)); [lia |].
  apply str_in_not_In in Hs. rewrite Hs. reflexivity.
Qed.

Lemma create_task_rejects :
  title = "" \/ 200 < Py.len title \/ ~ In status valid_statuses ->
  status_of (create_task req cu st) = Some 400
  /\ db_after (create_task req cu st) = db st.
Proof.
  intros Hbad. unfold create_task. run. rewrite Hbody. simpl.
  destruct (bool_decide (fields = ∅)); [split; reflexivity |].
  simpl.
  destruct (String.eqb_spec title ""); [split; reflexivity |].
  destruct (Z.ltb_spec 200 (Py.len title)); [split; reflexivity |].
  destruct Hbad as [? | [? | Hs]]; [contradiction | lia |].
  apply str_in_not_In in Hs. rewrite Hs. split; reflexivity.
Qed.

End CreateTask.

Section UpdateTask.

Variable req : request.
Variable cu : current_user.
Variable st : app_state.
Variable task_id : Z.
Variable t : Task.row.
Variable fields : gmap string jval.
Hypothesis Hfound : tasks (db st) !! task_id = Some t.
Hypothesis Howner : Task.user_id t = user_id cu.
Hypothesis Hbody : json req = BodyObject fields.

Local Abbreviation title :=
  (Validators.sanitize_input (default (JStr (Task.title t)) (fields !! "title"))).
Local Abbreviation description :=
  (Validators.sanitize_input (default (JStr (Task.description t)) (fields !! "description"))).
Local Abbreviation status :=
  (Validators.sanitize_input (default (JStr (Task.status t)) (fields !! "status"))).

(** What an accepted update stores: every column is written, a field that
    the body omits with the sanitized form of its stored value. *)
Lemma update_task_accepts :
  fields <> ∅ -> title <> "" -> Py.len title <= 200 -> In status valid_statuses ->
  (update_task req cu task_id st).1
  = Return (success_response "Task updated successfully"
              (Some (TaskUpdated task_id title description status)) 200)
  /\ tasks (db_after (update_task req cu task_id st))
     = <[task_id := Task.mk title description status
                            (Task.user_id t) (Task.created_at t)]> (tasks (db st)).
Proof.
  intros Hne Ht Hlen Hs. unfold update_task. run. rewrite Hfound. simpl.
  replace (Task.user_id t =? user_id cu) with true
    by (symmetry; apply Z.eqb_eq, Howner).
  simpl. rewrite Hbody. simpl.
  destruct (bool_decide (fields = ∅)) eqn:He.
  { apply bool_decide_eq_true in He. contradiction. }
  simpl.
  destruct (String.eqb_spec title ""); [contradiction |].
  destruct (Z.ltb_spec 200 (Py.len title)); [lia |].
  apply str_in_In in Hs. rewrite Hs. simpl. split; [reflexivity |].
  apply map_eq. intros k. rewrite lookup_alter, lookup_insert.
  destruct (decide (task_id = k)) as [<-|]; [| reflexivity].
  rewrite Hfound. reflexivity.
Qed.

Lemma update_task_rejects :
  fields = ∅ \/ title = "" \/ 200 < Py.len title \/ ~ In status valid_statuses ->
  status_of (update_task req cu task_id st) = Some 400
  /\ update_task req cu task_id st = ((update_task req cu task_id st).1, st).
Proof.
  intros Hbad. unfold update_task. run. rewrite Hfound. simpl.
  replace (Task.user_id t =? user_id cu) with true
    by (symmetry; apply Z.eqb_eq, Howner).
  simpl. rewrite Hbody. simpl.
  destruct (bool_decide (fields = ∅)) eqn:He; [split; reflexivity |].
  apply bool_decide_eq_false in He.
  simpl.
  destruct (String.eqb_spec title ""); [split; reflexivity |].
  destruct (Z.ltb_spec 200 (Py.len title)); [split; reflexivity |].
  destruct Hbad as [? | [? | [? | Hs]]]; [contradiction | contradiction | lia |].
  apply str_in_not_In in Hs. rewrite Hs. split; reflexivity.
Qed.

End UpdateTask.

(** An update that does not answer 200 leaves the store as it was. *)
Lemma update_task_store (req : request) (cu : current_user) (st : app_state)
  (task_id : Z) :
  status_of (update_task req cu task_id st) <> Some 200 ->
  db_after (update_task req cu task_id st) = db st.
Proof.
  unfold update_task. run.
  destruct (tasks (db st) !! task_id) as [t|]; simpl; [| reflexivity].
  case_if; [reflexivity |].
  destruct (json req) as [|fields|v]; simpl; [reflexivity | |];
    repeat case_if; try reflexivity.
  intros H. contradiction H. reflexivity.
Qed.

(** C4 (the code at the failing input). The owner creates a task titled
    ["Tom & Jerry"], stored as ["Tom &amp; Jerry"], and then sends a PUT
    whose body only has a status.  The answer is 200, and the stored
    title, which the body omits, is no longer what it was: the stored
    value went through [sanitize_input] again. *)
Lemma C4_omitted_title_changes :
  let owner := mkuser 7 "user" in
  let st1 := (create_task (json_request [("title", JStr "Tom & Jerry")])
                          owner demo_state).2 in
  let r := update_task (json_request [("status", JStr "completed")]) owner 1 st1 in
  Task.title <$> tasks (db st1) !! 1 = Some "Tom &amp; Jerry"
  /\ Task.user_id <$> tasks (db st1) !! 1 = Some 7
  /\ status_of r = Some 200
  /\ Task.title <$> tasks (db_after r) !! 1 = Some "Tom &amp;amp; Jerry".
Proof. vm_compute. repeat split. Qed.

(** C5 (as stated, refuted). A title of 41 ampersands is not empty after
    trimming and has at most 200 characters, and the status is omitted,
    yet the answer is 400; and the status [" pending"], which is not one
    of the four values, is answered with 201. *)
Lemma C5_counterexample :
  let title := "&&&&&&&&&&&&&&&&&&&&&&&&&&&&&&&&&&&&&&&&&" in
  let cu := mkuser 7 "user" in
  (Py.strip title <> "" /\ Py.len (Py.strip title) = 41
   /\ status_of (create_task (json_request [("title", JStr title)]) cu demo_state)
      = Some 400)
  /\ (~ In " pending" valid_statuses
      /\ status_of (create_task (json_request [("title", JStr "t");
                                               ("status", JStr " pending")])
                                cu demo_state)
         = Some 201).
Proof.
  vm_compute. repeat split; try discriminate.
  intros [H|[H|[H|[H|[]]]]]; discriminate H.
Qed.

(** C5 (amended). For an authenticated POST /tasks whose body is a JSON
    object, let the title and the status be the body's values after
    [sanitize_input] (trimmed and HTML-escaped; a missing title is empty, a
    missing status is [pending]).  If the title is not empty and has at
    most 200 characters and the status is one of the four values, the
    answer is 201 with the id of the new row, which holds the sanitized
    fields and the caller as owner (the id is the auto-increment counter,
    not in use before).  If the title is empty or longer than
    200 characters, or the status is not one of the four values, the
    answer is 400 and the store is unchanged; when the title passes and
    the status does not, the error message lists the four values. *)
Theorem C5_create_validation :
  forall (req : request) (cu : current_user) (st : app_state)
         (fields : gmap string jval),
    json req = BodyObject fields ->
    let title := Validators.sanitize_input (default (JStr "") (fields !! "title")) in
    let description :=
      Validators.sanitize_input (default (JStr "") (fields !! "description")) in
    let status :=
      Validators.sanitize_input (default (JStr "pending") (fields !! "status")) in
    (title <> "" -> Py.len title <= 200 -> In status valid_statuses ->
       (create_task req cu st).1
       = Return (success_response "Task created successfully"
                   (Some (TaskCreated (tasks_next_id (db st)))) 201)
       /\ tasks (db_after (create_task req cu st))
          = <[tasks_next_id (db st) :=
                Task.mk title description status (user_id cu) (utcnow st)]>
              (tasks (db st))
       /\ (store_ok (db st) -> tasks (db st) !! tasks_next_id (db st) = None))
    /\ (title = "" \/ 200 < Py.len title \/ ~ In status valid_statuses ->
          status_of (create_task req cu st) = Some 400
          /\ db_after (create_task req cu st) = db st)
    /\ (title <> "" -> Py.len title <= 200 -> ~ In status valid_statuses ->
          (create_task req cu st).1
          = Return (error_response
                      "Invalid status. Must be one of: pending, in_progress, completed, cancelled"
                      400)).
Proof.
  intros req cu st fields Hbody title description status.
  pose proof (create_task_accepts req cu st fields Hbody) as Hok.
  pose proof (create_task_rejects req cu st fields Hbody) as Hrej.
  pose proof (create_task_invalid_status req cu st fields Hbody) as Hmsg.
  cbv zeta in Hok, Hrej, Hmsg. fold title description status in Hok, Hrej, Hmsg.
  split; [| split].
  - intros Ht Hlen Hs. rewrite (Hok Ht Hlen Hs).
    split; [reflexivity |]. split; [reflexivity | apply next_task_id_fresh].
  - exact Hrej.
  - intros Ht Hlen Hs. rewrite (Hmsg Ht Hlen Hs). reflexivity.
Qed.

Lemma C5_create_validation_witness :
  (create_task (json_request [("title", JStr " Buy milk ")]) (mkuser 7 "user")
               demo_state).1
  = Return (success_response "Task created successfully" (Some (TaskCreated 1)) 201).
Proof.
  destruct (C5_create_validation (json_request [("title", JStr " Buy milk ")])
              (mkuser 7 "user") demo_state
              (list_to_map [("title", JStr " Buy milk ")]) eq_refl)
    as (Hok & _ & _).
  apply Hok.
  - vm_compute. discriminate.
  - vm_compute. discriminate.
  - vm_compute. left. reflexivity.
Defined.

(** C6 (as stated, refuted). The status [" pending"] is not one of the
    four values, yet a create request with it is answered 201 and a row is
    stored; and an update request with status ["bogus"] from a caller who
    does not own the task is answered 403, not 400. *)
Lemma C6_counterexample :
  let owner := mkuser 7 "user" in
  let r := create_task (json_request [("title", JStr "t"); ("status", JStr " pending")])
                       owner demo_state in
  ~ In " pending" valid_statuses
  /\ status_of r = Some 201
  /\ Task.status <$> tasks (db_after r) !! 1 = Some "pending"
  /\ status_of (update_task (json_request [("status", JStr "bogus")])
                            (mkuser 8 "admin") 1 r.2)
     = Some 403.
Proof.
  vm_compute. repeat split.
  intros [H|[H|[H|[H|[]]]]]; discriminate H.
Qed.

(** C6 (amended). Status enum closure with atomicity: when the body is a
    JSON object whose status value, after [sanitize_input] (trimmed and
    HTML-escaped), is not one of the four values, a create request by an
    authenticated caller is answered 400 and inserts no row; an update
    request leaves the store as it was whoever sends it, and is answered
    400 when the task exists and the caller owns it. *)
Theorem C6_invalid_status_rejected :
  forall (req : request) (cu : current_user) (st : app_state)
         (fields : gmap string jval) (v : jval),
    json req = BodyObject fields ->
    fields !! "status" = Some v ->
    ~ In (Validators.sanitize_input v) valid_statuses ->
    (status_of (create_task req cu st) = Some 400
     /\ db_after (create_task req cu st) = db st)
    /\ (forall task_id : Z,
          db_after (update_task req cu task_id st) = db st
          /\ (forall t : Task.row,
                tasks (db st) !! task_id = Some t ->
                Task.user_id t = user_id cu ->
                status_of (update_task req cu task_id st) = Some 400)).
Proof.
  intros req cu st fields v Hbody Hv Hbad. split.
  - apply (create_task_rejects req cu st fields Hbody).
    right. right. rewrite Hv. exact Hbad.
  - intros task_id.
    assert (Hup : forall t : Task.row,
               tasks (db st) !! task_id = Some t ->
               Task.user_id t = user_id cu ->
               status_of (update_task req cu task_id st) = Some 400).
    { intros t Hfound Howner.
      apply (update_task_rejects req cu st task_id t fields Hfound Howner Hbody).
      right. right. right. rewrite Hv. exact Hbad. }
    split; [| exact Hup].
    apply update_task_store.
    destruct (tasks (db st) !! task_id) as [t|] eqn:Hfound.
    + destruct (Z.eq_dec (Task.user_id t) (user_id cu)) as [Howner|Hother].
      * rewrite (Hup t eq_refl Howner). discriminate.
      * rewrite (update_task_not_owner req st cu task_id t Hfound Hother).
        discriminate.
    + rewrite (update_task_missing req st cu task_id Hfound). discriminate.
Qed.

Lemma C6_invalid_status_rejected_witness :
  status_of (create_task (json_request [("title", JStr "t"); ("status", JStr "bogus")])
                         (mkuser 7 "user") demo_state) = Some 400
  /\ db_after (create_task (json_request [("title", JStr "t"); ("status", JStr "bogus")])
                           (mkuser 7 "user") demo_state) = db demo_state.
Proof.
  destruct (C6_invalid_status_rejected
              (json_request [("title", JStr "t"); ("status", JStr "bogus")])
              (mkuser 7 "user") demo_state
              (list_to_map [("title", JStr "t"); ("status", JStr "bogus")])
              (JStr "bogus") eq_refl) as (Hcreate & _).
  - vm_compute. reflexivity.
  - vm_compute. intros [H|[H|[H|[H|[]]]]]; discriminate H.
  - exact Hcreate.
Defined.

(* --------------------------------------------------------------------- *)
(** ** Registration *)
(* --------------------------------------------------------------------- *)

Lemma validate_password_truthy (password : jval) (msg : string) :
  Validators.validate_password password = Return (true, msg) ->
  Validators.truthy password = true.
Proof.
  unfold Validators.validate_password.
  destruct (Validators.truthy password); [reflexivity | discriminate].
Qed.

Lemma validate_email_nonempty (email : string) :
  Validators.validate_email email = true -> email <> "".
Proof. intros H ->. discriminate H. Qed.

(** C9 (as stated, refuted in its second half). The role [" admin"] is
    outside [{user, admin}], yet it is not replaced by [user]: the account
    is stored with role [admin]. *)
Lemma C9_counterexample :
  let r := register (json_request [("email", JStr "eve@example.com");
                                   ("password", JStr "Passw0rd");
                                   ("name", JStr "Eve");
                                   ("role", JStr " admin")])
                    demo_hashpw (fun _ => "salt") demo_state in
  ~ In " admin" ["user"; "admin"]
  /\ status_of r = Some 201
  /\ User.role <$> users (db_after r) !! 1 = Some "admin".
Proof.
  vm_compute. repeat split.
  intros [H|[H|[]]]; discriminate H.
Qed.

(** C9 (amended). Privilege escalation at registration: [register] is not
    behind the bearer gate, and for a body that passes the email, password
    and name checks with an email not yet registered, whose password the
    hashing library accepts, the answer is 201 and the stored role is the
    sanitized (trimmed, HTML-escaped) body role when that is [user] or
    [admin], and [user] otherwise.  So a body role equal to ["admin"]
    stores an admin, and a role whose sanitized form is outside
    [{user, admin}] is replaced by [user] without a 400.  When the hashing
    library refuses the password (bcrypt 5 does for more than 72 bytes) the
    answer is 500 and nothing is stored. *)
Theorem C9_register_role :
  forall (req : request) (bcrypt_hashpw : string -> string -> outcome string)
         (gensalt : nat -> string) (st : app_state)
         (fields : gmap string jval) (pw : string),
    json req = BodyObject fields ->
    fields !! "password" = Some (JStr pw) ->
    let email := Validators.sanitize_input (default (JStr "") (fields !! "email")) in
    let name := Validators.sanitize_input (default (JStr "") (fields !! "name")) in
    let role := Validators.sanitize_input (default (JStr "user") (fields !! "role")) in
    Validators.validate_email email = true ->
    Validators.validate_password (JStr pw) = Return (true, "Password is valid") ->
    name <> "" ->
    (UserModel.find_by_email email st).1 = Return None ->
    let r := register req bcrypt_hashpw gensalt st in
    let stored := if Py.str_in role ["user"; "admin"] then role else "user" in
    match bcrypt_hashpw pw (gensalt (salts_drawn st)) with
    | Return password_hash =>
        r.1 = Return (success_response "User registered successfully"
                        (Some (UserRegistered (users_next_id (db st)) email)) 201)
        /\ users (db_after r) !! users_next_id (db st)
           = Some (User.mk email password_hash name stored (utcnow st))
    | Raise _ =>
        r.1 = Return (error_response "Registration failed" 500)
        /\ db_after r = db st
    end
    /\ (fields !! "role" = Some (JStr "admin") -> stored = "admin")
    /\ (~ In role ["user"; "admin"] -> stored = "user").
Proof.
  intros req bcrypt_hashpw gensalt st fields pw Hbody Hpw email name role
         Hemail Hpass Hname Hfree r stored.
  split; [| split].
  - subst r. unfold register. run. rewrite Hbody. simpl.
    destruct (bool_decide (fields = ∅)) eqn:He.
    { apply bool_decide_eq_true in He. rewrite He in Hpw. discriminate Hpw. }
    simpl. rewrite Hpw. simpl. fold email name role.
    destruct (String.eqb_spec email "") as [He'|_].
    { exfalso. revert He'. apply validate_email_nonempty, Hemail. }
    rewrite (validate_password_truthy _ _ Hpass).
    destruct (String.eqb_spec name ""); [contradiction |].
    simpl. rewrite Hemail. simpl. rewrite Hpass.
    unfold UserModel.find_by_email, UserModel.create, hash_password in *.
    run. simpl in Hfree. injection Hfree as ->. simpl.
    destruct (bcrypt_hashpw pw (gensalt (salts_drawn st))) as [password_hash|e];
      simpl; [| split; reflexivity].
    split; [reflexivity |]. rewrite lookup_insert_eq. unfold stored.
    destruct (Py.str_in role ["user"; "admin"]); reflexivity.
  - intros Hadmin. unfold stored, role. rewrite Hadmin. reflexivity.
  - intros Hout. apply str_in_not_In in Hout. unfold stored. rewrite Hout.
    reflexivity.
Qed.

Lemma C9_register_role_witness :
  let r := register (json_request [("email", JStr "alice@example.com");
                                   ("password", JStr "Passw0rd");
                                   ("name", JStr "Alice");
                                   ("role", JStr "admin")])
                    demo_hashpw (fun _ => "salt") demo_state in
  r.1 = Return (success_response "User registered successfully"
                  (Some (UserRegistered 1 "alice@example.com")) 201)
  /\ User.role <$> users (db_after r) !! 1 = Some "admin".
Proof.
  destruct (C9_register_role
              (json_request [("email", JStr "alice@example.com");
                             ("password", JStr "Passw0rd");
                             ("name", JStr "Alice");
                             ("role", JStr "admin")])
              demo_hashpw (fun _ => "salt") demo_state
              (list_to_map [("email", JStr "alice@example.com");
                            ("password", JStr "Passw0rd");
                            ("name", JStr "Alice");
                            ("role", JStr "admin")])
              "Passw0rd" eq_refl) as ([Hresp Hrow] & _).
  - vm_compute. reflexivity.
  - vm_compute. reflexivity.
  - vm_compute. reflexivity.
  - vm_compute. discriminate.
  - vm_compute. reflexivity.
  - split; [exact Hresp |]. exact (f_equal (fmap User.role) Hrow).
Defined.

(* --------------------------------------------------------------------- *)
(** ** Listing tasks *)
(* --------------------------------------------------------------------- *)

Section OrderBy.

Context {A : Type}.
Variable created_at : A -> Z.
Variable rank : Z -> Z.

Lemma insert_row_length (x : Z * A) (l : list (Z * A)) :
  length (insert_row created_at rank x l) = S (length l).
Proof.
  induction l as [|y l IH]; simpl; [reflexivity |].
  destruct (listed_before created_at rank x y); simpl;
    [reflexivity | rewrite IH; reflexivity].
Qed.

Lemma order_by_length (l : list (Z * A)) :
  length (order_by_created_at_desc created_at rank l) = length l.
Proof.
  induction l as [|x l IH]; simpl; [reflexivity |].
  rewrite insert_row_length, IH. reflexivity.
Qed.

Lemma insert_row_perm (x : Z * A) (l : list (Z * A)) :
  insert_row created_at rank x l ≡ₚ x :: l.
Proof.
  induction l as [|y l IH]; simpl; [reflexivity |].
  destruct (listed_before created_at rank x y); [reflexivity |].
  rewrite IH. apply Permutation_swap.
Qed.

(** [ORDER BY] returns the rows it is given, each once. *)
Lemma order_by_perm (l : list (Z * A)) :
  order_by_created_at_desc created_at rank l ≡ₚ l.
Proof.
  induction l as [|x l IH]; simpl; [reflexivity |].
  rewrite insert_row_perm, IH. reflexivity.
Qed.

Lemma listed_before_total (a b : Z * A) :
  listed_before created_at rank a b = false ->
  listed_before created_at rank b a = true.
Proof.
  unfold listed_before. intros H.
  apply orb_false_elim in H as [H1 H2].
  apply Z.ltb_ge in H1.
  destruct (Z.ltb_spec (created_at a.2) (created_at b.2)); [reflexivity |].
  assert (created_at a.2 = created_at b.2) as Heq by lia.
  rewrite Heq, Z.eqb_refl in *. simpl in *.
  apply Z.leb_gt in H2. apply Z.leb_le. lia.
Qed.

Lemma listed_before_trans (a b c : Z * A) :
  listed_before created_at rank a b = true ->
  listed_before created_at rank b c = true ->
  listed_before created_at rank a c = true.
Proof.
  unfold listed_before. intros H1 H2.
  apply orb_prop in H1. apply orb_prop in H2.
  rewrite ?andb_true_iff, ?Z.ltb_lt, ?Z.eqb_eq, ?Z.leb_le in H1, H2.
  apply orb_true_iff. rewrite andb_true_iff, Z.ltb_lt, Z.eqb_eq, Z.leb_le.
  lia.
Qed.

Lemma listed_before_newer (a b : Z * A) :
  listed_before created_at rank a b = true -> created_at b.2 <= created_at a.2.
Proof.
  unfold listed_before. intros H. apply orb_prop in H.
  rewrite andb_true_iff, Z.ltb_lt, Z.eqb_eq in H. lia.
Qed.

Lemma insert_row_sorted (x : Z * A) (l : list (Z * A)) :
  StronglySorted (fun a b => listed_before created_at rank a b = true) l ->
  StronglySorted (fun a b => listed_before created_at rank a b = true)
                 (insert_row created_at rank x l).
Proof.
  induction l as [|y l IH]; simpl; intros Hs.
  - constructor; constructor.
  - destruct (listed_before created_at rank x y) eqn:Hxy.
    + constructor; [exact Hs |]. constructor; [exact Hxy |].
      apply StronglySorted_inv in Hs as [_ Hy].
      eapply Forall_impl; [exact Hy |].
      intros z Hz. simpl in Hz. eapply listed_before_trans; eassumption.
    + apply StronglySorted_inv in Hs as [Hl Hy].
      constructor; [apply IH, Hl |].
      rewrite insert_row_perm. constructor; [| exact Hy].
      apply listed_before_total, Hxy.
Qed.

Lemma order_by_listed_before (l : list (Z * A)) :
  StronglySorted (fun a b => listed_before created_at rank a b = true)
                 (order_by_created_at_desc created_at rank l).
Proof.
  induction l as [|x l IH]; simpl; [constructor |].
  apply insert_row_sorted, IH.
Qed.

(** [ORDER BY created_at DESC] lists no row before a newer one, whatever
    the engine does with the rows of one second. *)
Lemma order_by_sorted (l : list (Z * A)) :
  newest_first created_at (order_by_created_at_desc created_at rank l).
Proof.
  unfold newest_first.
  pose proof (order_by_listed_before l) as Hs.
  induction Hs as [|a k Hk IH Ha]; constructor; [exact IH |].
  eapply Forall_impl; [exact Ha |]. intros b. apply listed_before_newer.
Qed.

End OrderBy.

(** A list has one arrangement that is sorted by an order which is
    antisymmetric on its members. *)
Lemma sorted_perm_unique {A} (R : A -> A -> Prop) (l1 l2 : list A) :
  (forall a b : A, a ∈ l1 -> b ∈ l1 -> R a b -> R b a -> a = b) ->
  StronglySorted R l1 -> StronglySorted R l2 -> l1 ≡ₚ l2 -> l1 = l2.
Proof.
  revert l2. induction l1 as [|a l1 IH]; intros l2 Hanti Hs1 Hs2 Hperm.
  - apply Permutation_nil in Hperm. symmetry. exact Hperm.
  - destruct l2 as [|b l2].
    { symmetry in Hperm. apply Permutation_nil in Hperm. discriminate Hperm. }
    apply StronglySorted_inv in Hs1 as [Hs1 Ha].
    apply StronglySorted_inv in Hs2 as [Hs2 Hb].
    rewrite Forall_forall in Ha. rewrite Forall_forall in Hb.
    assert (Hab : a = b).
    { assert (Ha2 : a ∈ b :: l2) by (rewrite <- Hperm; left).
      assert (Hb1 : b ∈ a :: l1) by (rewrite Hperm; left).
      apply elem_of_cons in Ha2 as [Heq | Ha2]; [exact Heq |].
      pose proof Hb1 as Hb1'.
      apply elem_of_cons in Hb1 as [Heq | Hb1]; [symmetry; exact Heq |].
      apply Hanti; [left | exact Hb1' | apply Ha, Hb1 | apply Hb, Ha2]. }
    subst b. f_equal. apply Permutation_cons_inv in Hperm.
    apply IH; try assumption.
    intros x y Hx Hy. apply Hanti; right; assumption.
Qed.

Lemma position_of_nonneg (id : Z) (ids : list Z) : 0 <= position_of id ids.
Proof. induction ids as [|x r IH]; simpl; [lia |]. destruct (x =? id); lia. Qed.

Lemma position_of_app (id : Z) (xs ys : list Z) :
  id ∉ xs ->
  position_of id (xs ++ ys) = Z.of_nat (length xs) + position_of id ys.
Proof.
  induction xs as [|x xs IH]; intros Hid; [reflexivity |].
  apply not_elem_of_cons in Hid as [Hne Hid]. cbn [app position_of length].
  destruct (Z.eqb_spec x id); [congruence |]. rewrite (IH Hid). lia.
Qed.

Lemma nodup_keys_same {A} (l : list (Z * A)) (k : Z) (x y : A) :
  NoDup (l.*1) -> (k, x) ∈ l -> (k, y) ∈ l -> x = y.
Proof.
  induction l as [|a l IH]; intros Hnd Hx Hy; [inversion Hx |].
  rewrite fmap_cons in Hnd. apply NoDup_cons in Hnd as [Ha Hnd].
  assert (Hin : forall z : A, (k, z) ∈ l -> k ∈ l.*1).
  { intros z Hz. apply list_elem_of_fmap. exists (k, z). split; [reflexivity | exact Hz]. }
  apply elem_of_cons in Hx as [Hx | Hx]; apply elem_of_cons in Hy as [Hy | Hy].
  - congruence.
  - exfalso. apply Ha. rewrite <- Hx. apply (Hin y Hy).
  - exfalso. apply Ha. rewrite <- Hy. apply (Hin x Hx).
  - apply IH; assumption.
Qed.

Lemma position_of_lookup (ids : list Z) (i : nat) (id : Z) :
  NoDup ids -> ids !! i = Some id -> position_of id ids = Z.of_nat i.
Proof.
  revert i. induction ids as [|x r IH]; intros i Hnd Hi; [discriminate Hi |].
  apply NoDup_cons in Hnd as [Hx Hnd]. destruct i as [|i]; cbn [position_of].
  - injection Hi as ->. rewrite Z.eqb_refl. reflexivity.
  - cbn in Hi. destruct (Z.eqb_spec x id) as [-> | _].
    + exfalso. apply Hx. eapply list_elem_of_lookup_2. exact Hi.
    + rewrite (IH i Hnd Hi). lia.
Qed.

(** The model leaves the engine every order that the statement allows: a
    listing of the rows, each once, in which no row comes before a newer
    one, is the result of [ORDER BY created_at DESC] for the engine that
    ranks the rows by their place in that listing. *)
Lemma order_by_complete {A} (created_at : A -> Z) (l l' : list (Z * A)) :
  NoDup (l.*1) -> l' ≡ₚ l -> newest_first created_at l' ->
  order_by_created_at_desc created_at (fun id => position_of id (l'.*1)) l = l'.
Proof.
  intros Hnodup Hperm Hnewest.
  set (rank := fun id => position_of id (l'.*1)).
  assert (Hnodup' : NoDup (l'.*1)) by (rewrite Hperm; exact Hnodup).
  assert (Hsorted : forall pre suf : list (Z * A),
             l' = (pre ++ suf)%list -> newest_first created_at suf ->
             StronglySorted (fun a b => listed_before created_at rank a b = true) suf).
  { intros pre suf. revert pre. induction suf as [|a suf IH]; intros pre Hl Hs;
      [constructor |].
    apply StronglySorted_inv in Hs as [Hs Ha].
    constructor.
    - apply (IH (pre ++ [a])%list); [| exact Hs].
      rewrite Hl, <- app_assoc. reflexivity.
    - rewrite Forall_forall in Ha. apply Forall_forall. intros b Hb.
      specialize (Ha b Hb). cbn beta in Ha.
      rewrite Hl, fmap_app, fmap_cons in Hnodup'.
      apply NoDup_app in Hnodup' as (_ & Hdisj & Hnd).
      apply NoDup_cons in Hnd as [Hnotin _].
      assert (Hb1 : b.1 ∈ suf.*1).
      { apply list_elem_of_fmap. exists b. split; [reflexivity | exact Hb]. }
      assert (Hne : a.1 <> b.1) by (intros Heq; apply Hnotin; rewrite Heq; exact Hb1).
      assert (Ha_pre : a.1 ∉ pre.*1) by (intros Hin; apply (Hdisj _ Hin); left).
      assert (Hb_pre : b.1 ∉ pre.*1)
        by (intros Hin; apply (Hdisj _ Hin); right; exact Hb1).
      unfold listed_before, rank. rewrite Hl, fmap_app, fmap_cons.
      rewrite !position_of_app by assumption. cbn [position_of].
      rewrite Z.eqb_refl. destruct (Z.eqb_spec a.1 b.1); [contradiction |].
      pose proof (position_of_nonneg b.1 (suf.*1)).
      destruct (Z.ltb_spec (created_at b.2) (created_at a.2)); [reflexivity |].
      replace (created_at a.2 =? created_at b.2) with true
        by (symmetry; apply Z.eqb_eq; lia).
      simpl. apply Z.leb_le. lia. }
  symmetry.
  apply (sorted_perm_unique (fun a b => listed_before created_at rank a b = true)).
  - intros a b Ha Hb Hab Hba.
    assert (Hpos : rank a.1 = rank b.1 /\ created_at a.2 = created_at b.2).
    { unfold listed_before in Hab, Hba.
      apply orb_prop in Hab. apply orb_prop in Hba.
      rewrite andb_true_iff, Z.ltb_lt, Z.eqb_eq, Z.leb_le in Hab, Hba. lia. }
    destruct Hpos as [Hpos _].
    assert (Hkey : a.1 = b.1).
    { assert (Ha1 : a.1 ∈ l'.*1)
        by (apply list_elem_of_fmap; exists a; split; [reflexivity | exact Ha]).
      assert (Hb1 : b.1 ∈ l'.*1)
        by (apply list_elem_of_fmap; exists b; split; [reflexivity | exact Hb]).
      apply list_elem_of_lookup in Ha1 as [i Hi].
      apply list_elem_of_lookup in Hb1 as [j Hj].
      unfold rank in Hpos.
      rewrite (position_of_lookup _ _ _ Hnodup' Hi) in Hpos.
      rewrite (position_of_lookup _ _ _ Hnodup' Hj) in Hpos.
      apply Nat2Z.inj in Hpos. subst j. congruence. }
    destruct a as [ka xa], b as [kb xb]. cbn [fst] in Hkey. subst kb.
    f_equal. exact (nodup_keys_same l' ka xa xb Hnodup' Ha Hb).
  - apply (Hsorted [] l' eq_refl Hnewest).
  - apply order_by_listed_before.
  - rewrite order_by_perm. exact Hperm.
Qed.

Lemma select_tasks_length (rank : Z -> Z) (P : Z * Task.row -> bool) (d : database) :
  length (select_tasks rank P d) = length (List.filter P (map_to_list (tasks d))).
Proof. apply order_by_length. Qed.

Lemma select_tasks_perm (rank : Z -> Z) (P : Z * Task.row -> bool) (d : database) :
  select_tasks rank P d ≡ₚ List.filter P (map_to_list (tasks d)).
Proof. apply order_by_perm. Qed.

(** The listing holds exactly the stored rows that satisfy the condition. *)
Lemma select_tasks_spec (rank : Z -> Z) (P : Z * Task.row -> bool) (d : database)
  (r : Z * Task.row) :
  r ∈ select_tasks rank P d <-> tasks d !! r.1 = Some r.2 /\ P r = true.
Proof.
  rewrite select_tasks_perm.
  rewrite list_elem_of_In, filter_In, <- list_elem_of_In.
  destruct r as [k t]. rewrite elem_of_map_to_list. reflexivity.
Qed.

Lemma limit_offset_length {A} (limit offset : Z) (rows : list A) :
  0 <= limit -> 0 <= offset ->
  Z.of_nat (length (limit_offset limit offset rows))
  = Z.min limit (Z.max 0 (Z.of_nat (length rows) - offset)).
Proof.
  intros Hl Ho. unfold limit_offset. rewrite length_take, length_drop. lia.
Qed.

Lemma pages_is_ceil_div (total limit : Z) :
  0 < limit -> is_ceil_div ((total + limit - 1) / limit) total limit.
Proof.
  intros Hl. unfold is_ceil_div.
  pose proof (Z.div_mod (total + limit - 1) limit ltac:(lia)) as Hdm.
  pose proof (Z.mod_pos_bound (total + limit - 1) limit Hl) as Hb.
  nia.
Qed.

Lemma ceil_div_unique (p q total limit : Z) :
  0 < limit -> is_ceil_div p total limit -> is_ceil_div q total limit -> p = q.
Proof. unfold is_ceil_div. intros Hl Hp Hq. nia. Qed.

(** C7 (as stated, refuted). User 7 has two tasks, one of them completed.
    [GET /tasks?status=completed&limit=1&page=1] reports one page, while
    two tasks at one per page make two pages. *)
Lemma C7_counterexample :
  let st := mkst (mkdb (list_to_map [(1, Task.mk "a" "" "pending" 7 10);
                                     (2, Task.mk "b" "" "completed" 7 20)])
                       3 ∅ 1) [] 1000 0 by_id_ascending in
  let req := query_request [("status", "completed"); ("limit", "1"); ("page", "1")] in
  length (List.filter (fun r : Z * Task.row => Task.user_id r.2 =? 7)
                      (map_to_list (tasks (db st)))) = 2%nat
  /\ (get_tasks req (mkuser 7 "user") st).1
     = Return (success_response "Tasks retrieved successfully"
                 (Some (TaskPage [mkview 2 "b" "" "completed" 7 20] 1 1 1 1)) 200)
  /\ ~ is_ceil_div 1 2 1.
Proof.
  vm_compute. repeat split. intros [_ H]. apply H. reflexivity.
Qed.

(** C7 (amended). Pagination arithmetic: for a GET /tasks request whose
    [page] and [limit] arguments [int] reads as [P >= 1] and [L] with
    1 <= L <= 100, the offset [(P - 1) * L] being one that the engine takes
    (below 2^63), let [T] be the number of tasks that the request selects:
    the caller's tasks, or all tasks when the caller is an admin and passes
    [all=true], narrowed to the given status when a status filter is
    passed.  The answer is 200, the reported total is [T], the reported
    pages is ceil(T / L), and the returned tasks are the window of at most
    [L] rows at offset [(P - 1) * L] of a listing of the selected tasks,
    each once, newest first (the engine chooses the order of tasks of one
    second).  Without [all=true] and without status filter the selected
    tasks are the tasks of the caller; with 25 of them, limit 10 and page
    3, five tasks are returned and pages is 3. *)
Theorem C7_pagination :
  forall (req : request) (cu : current_user) (st : app_state) (L P : Z),
    int_arg req "page" 1 st = (Return P, st) ->
    int_arg req "limit" 10 st = (Return L, st) ->
    1 <= L <= 100 -> 1 <= P -> (P - 1) * L < 2 ^ 63 ->
    let status_filter := args req !! "status" in
    let admin_all :=
      String.eqb (Py.lower (default "false" (args req !! "all"))) "true"
      && String.eqb (role cu) "admin" in
    let selected :=
      if admin_all then TaskModel.by_status status_filter
      else TaskModel.by_user (user_id cu) status_filter in
    let T := Z.of_nat (length (List.filter selected (map_to_list (tasks (db st))))) in
    exists (listing rows : list (Z * Task.row)) (pages : Z),
      get_tasks req cu st
      = (Return (success_response "Tasks retrieved successfully"
                   (Some (TaskPage (List.map to_view rows) T P L pages)) 200),
         after_select st)
      /\ is_ceil_div pages T L
      /\ listing ≡ₚ List.filter selected (map_to_list (tasks (db st)))
      /\ newest_first Task.created_at listing
      /\ rows = take (Z.to_nat L) (drop (Z.to_nat ((P - 1) * L)) listing)
      /\ Z.of_nat (length rows) = Z.min L (Z.max 0 (T - (P - 1) * L))
      /\ (admin_all = false -> filter_given status_filter = None ->
          forall r : Z * Task.row, selected r = (Task.user_id r.2 =? user_id cu))
      /\ (T = 25 -> L = 10 -> P = 3 -> length rows = 5%nat /\ pages = 3).
Proof.
  intros req cu st L P Hpage Hlimit HL HP _ status_filter admin_all selected T.
  set (listing := select_tasks (ties st 0%nat) selected (db st)).
  exists listing, (limit_offset L ((P - 1) * L) listing), ((T + L - 1) / L).
  assert (Hlen : Z.of_nat (length (limit_offset L ((P - 1) * L) listing))
                 = Z.min L (Z.max 0 (T - (P - 1) * L))).
  { rewrite limit_offset_length by nia. unfold listing.
    rewrite select_tasks_length. reflexivity. }
  split; [| split; [apply pages_is_ceil_div; lia
         | split; [apply select_tasks_perm
         | split; [apply order_by_sorted
         | split; [reflexivity | split; [exact Hlen | split]]]]]].
  - unfold get_tasks, try_except, bind. rewrite Hpage, Hlimit.
    destruct (Z.ltb_spec P 1); [lia |].
    destruct (Z.ltb_spec L 1); [lia |].
    destruct (Z.ltb_spec 100 L); [lia |].
    cbn [orb]. fold status_filter. fold admin_all.
    unfold listing, T, selected. destruct admin_all; reflexivity.
  - intros Hadm Hnone r. unfold selected. rewrite Hadm.
    unfold TaskModel.by_user. rewrite Hnone. reflexivity.
  - intros HT -> ->. rewrite HT in Hlen. split; [lia |].
    rewrite HT. reflexivity.
Qed.

Lemma C7_pagination_witness :
  let st := mkst (mkdb (list_to_map [(1, Task.mk "a" "" "pending" 7 10);
                                     (2, Task.mk "b" "" "completed" 7 20);
                                     (3, Task.mk "c" "" "pending" 8 30)])
                       4 ∅ 1) [] 1000 0 by_id_ascending in
  exists listing rows pages,
    get_tasks (query_request [("limit", "1"); ("page", "2")]) (mkuser 7 "user") st
    = (Return (success_response "Tasks retrieved successfully"
                 (Some (TaskPage (List.map to_view rows) 2 2 1 pages)) 200),
       after_select st)
    /\ is_ceil_div pages 2 1
    /\ newest_first Task.created_at listing
    /\ rows = take 1 (drop 1 listing)
    /\ length rows = 1%nat.
Proof.
  intros st.
  destruct (C7_pagination (query_request [("limit", "1"); ("page", "2")])
              (mkuser 7 "user") st 1 2)
    as (listing & rows & pages & Hrun & Hceil & _ & Hsorted & Hrows & Hlen & _).
  - vm_compute. reflexivity.
  - vm_compute. reflexivity.
  - lia.
  - lia.
  - lia.
  - exists listing, rows, pages. split; [exact Hrun |]. split; [exact Hceil |].
    split; [exact Hsorted |]. split; [exact Hrows |].
    apply Nat2Z.inj. rewrite Hlen. vm_compute. reflexivity.
Defined.

(* --------------------------------------------------------------------- *)
(** ** From issuing a token to passing the gate *)
(* --------------------------------------------------------------------- *)

Lemma words_spaceless (s : string) :
  Validators.all_chars (fun c => negb (Py.isspace c)) s = true ->
  Py.words s = (s, []).
Proof.
  induction s as [|c s IH]; simpl; [reflexivity |].
  intros [Hc Hs]%andb_prop. rewrite (IH Hs).
  apply negb_true_iff in Hc. rewrite Hc. reflexivity.
Qed.

Lemma split_bearer_token (t : string) :
  t <> "" ->
  Validators.all_chars (fun c => negb (Py.isspace c)) t = true ->
  Py.split ("Bearer " ++ t) = ["Bearer"; t].
Proof.
  intros Hne Ht. unfold Py.split. rewrite !append_cons.
  cbn [Py.words]. change ("" ++ t) with t. rewrite (words_spaceless t Ht).
  destruct t; [contradiction | reflexivity].
Qed.

Lemma token_char_not_space (c : ascii) :
  is_hex c = true \/ c = "."%char \/ c = ","%char -> negb (Py.isspace c) = true.
Proof.
  intros [H | [-> | ->]]; [| reflexivity | reflexivity].
  revert H. destruct c as [[] [] [] [] [] [] [] []]; vm_compute; congruence.
Qed.

Lemma encode_spaceless (HS256 : string -> string -> string) (p : Jwt.claims)
  (key : string) :
  Validators.all_chars (fun c => negb (Py.isspace c))
                       (Jwt.encode HS256 p key "HS256") = true
  /\ Jwt.encode HS256 p key "HS256" <> "".
Proof.
  split; [| discriminate].
  apply (all_chars_impl (fun c => is_hex c || Ascii.eqb c "." || Ascii.eqb c ",")).
  { intros c [[H|H]%orb_prop|H]%orb_prop; apply token_char_not_space; auto.
    - right. left. apply Ascii.eqb_eq, H.
    - right. right. apply Ascii.eqb_eq, H. }
  assert (Hseg : forall s,
             Validators.all_chars
               (fun c => is_hex c || Ascii.eqb c "." || Ascii.eqb c ",")
               (Jwt.seg_encode s) = true).
  { intros s. apply (all_chars_impl is_hex); [| apply seg_encode_hex].
    intros c ->. reflexivity. }
  unfold Jwt.encode, Jwt.payload_segment. cbn [Py.join].
  repeat (rewrite ?all_chars_app, ?append_sep; cbn [Validators.all_chars]).
  rewrite !Hseg. reflexivity.
Qed.

(** A token issued for [(u, r)], sent as [Bearer <token>] before it
    expires, lets the handler run as [(u, r)]. *)
Lemma issued_token_passes_gate :
  forall (HS256 : string -> string -> string) (config : Config)
         (u : Z) (r : string) (st0 st1 : app_state) (token : string)
         (req : request) (f : current_user -> M response),
    generate_token HS256 config u r st0 = (Return token, st0) ->
    authorization req = Some ("Bearer " ++ token) ->
    utcnow st0 <= utcnow st1 < utcnow st0 + 3600 * JWT_EXPIRY_HOURS config ->
    token_required HS256 config req f st1 = f (mkuser u r) st1.
Proof.
  intros HS256 config u r st0 st1 token req f Hgen Hh [Hlo Hhi].
  rewrite generate_token_eq in Hgen. injection Hgen as <-.
  destruct (encode_spaceless HS256
              (Jwt.mk u r (utcnow st0) (utcnow st0 + 3600 * JWT_EXPIRY_HOURS config))
              (JWT_SECRET_KEY config)) as [Hsp Hne].
  rewrite (gate_bearer HS256 config req st1 f _ "Bearer" _ Hh
             (split_bearer_token _ Hne Hsp) eq_refl).
  rewrite (decode_token_ok HS256 config _ st1
             (Jwt.mk u r (utcnow st0) (utcnow st0 + 3600 * JWT_EXPIRY_HOURS config))).
  - reflexivity.
  - rewrite decode_encode. cbn [Jwt.iat Jwt.exp].
    destruct (Z.ltb_spec (utcnow st1) (utcnow st0)); [lia |].
    destruct (Z.leb_spec (utcnow st0 + 3600 * JWT_EXPIRY_HOURS config) (utcnow st1));
      [lia | reflexivity].
Qed.

(* --------------------------------------------------------------------- *)
(** ** Worked requests *)
(* --------------------------------------------------------------------- *)

Lemma C1_ownership_policy_witness :
  status_of (update_task (json_request [("title", JStr "x")]) (mkuser 8 "admin") 1
                         one_task_state) = Some 403
  /\ status_of (delete_task (mkuser 8 "admin") 1 one_task_state) = Some 200
  /\ status_of (delete_task (mkuser 7 "user") 1 one_task_state) = Some 200
  /\ status_of (delete_task (mkuser 9 "user") 1 one_task_state) = Some 403.
Proof.
  destruct (C1_ownership_policy (json_request [("title", JStr "x")]) one_task_state
              (mkuser 8 "admin") 1 (Task.mk "Buy milk" "" "pending" 7 900) eq_refl)
    as (Hput & Hadmin & _).
  destruct (C1_ownership_policy (json_request []) one_task_state
              (mkuser 7 "user") 1 (Task.mk "Buy milk" "" "pending" 7 900) eq_refl)
    as (_ & Howner & _).
  destruct (C1_ownership_policy (json_request []) one_task_state
              (mkuser 9 "user") 1 (Task.mk "Buy milk" "" "pending" 7 900) eq_refl)
    as (_ & _ & Hother).
  split; [apply Hput; simpl; lia |].
  split; [apply Hadmin; right; reflexivity |].
  split; [apply Howner; left; reflexivity |].
  apply Hother; simpl; [lia | discriminate].
Defined.

Lemma C8_bearer_gate_witness :
  status_of (token_required demo_mac demo_config
               (bearer_request "Bearer abc" [] []) (fun cu => get_task cu 1)
               one_task_state) = Some 401
  /\ token_required demo_mac demo_config
       (bearer_request ("bearer " ++ demo_token) [] []) (fun cu => get_task cu 1)
       one_task_state
     = get_task (mkuser 7 "admin") 1 one_task_state.
Proof.
  destruct (C8_bearer_gate demo_mac demo_config
              (bearer_request "Bearer abc" [] []) one_task_state) as [[_ Hrej] _].
  destruct (C8_bearer_gate demo_mac demo_config
              (bearer_request ("bearer " ++ demo_token) [] []) one_task_state)
    as [_ Hrun].
  split.
  - apply Hrej. right. exists "Bearer abc". split; [reflexivity |].
    right. exists "Bearer", "abc". split; [vm_compute; reflexivity |].
    right. vm_compute. reflexivity.
  - apply (Hrun ("bearer " ++ demo_token) "bearer" demo_token
                (Jwt.mk 7 "admin" 1000 87400)); vm_compute; reflexivity.
Defined.

Lemma C10_not_found_iff_absent_witness :
  status_of (get_task (mkuser 7 "user") 5 one_task_state) = Some 404
  /\ status_of (delete_task (mkuser 8 "admin") 5 one_task_state) = Some 404.
Proof.
  destruct (C10_not_found_iff_absent (json_request []) one_task_state
              (mkuser 7 "user") 5) as ((_ & Hget) & _).
  destruct (C10_not_found_iff_absent (json_request []) one_task_state
              (mkuser 8 "admin") 5) as (_ & _ & (_ & Hdel) & _).
  split; [apply Hget | apply Hdel]; vm_compute; reflexivity.
Defined.

(** With 25 tasks of the caller, [limit=10] and [page=3] return five tasks
    and report three pages. *)
Example pagination_25_10_3 :
  page_summary (get_tasks (query_request [("limit", "10"); ("page", "3")])
                          (mkuser 7 "user") (seed_tasks 25 demo_state))
  = Some (5%nat, 25, 3).
Proof. vm_compute. reflexivity. Qed.

(** Out-of-range paging parameters fall back: [page=0] is page 1 and
    [limit=1000] is 10; text that is not an integer is answered 500. *)
Example pagination_fallbacks :
  page_summary (get_tasks (query_request [("limit", "1000"); ("page", "0")])
                          (mkuser 7 "user") (seed_tasks 25 demo_state))
  = Some (10%nat, 25, 3)
  /\ status_of (get_tasks (query_request [("page", "two")]) (mkuser 7 "user")
                          demo_state) = Some 500.
Proof. vm_compute. split; reflexivity. Qed.

(** The scenario of the specification: with a token, [POST /tasks] of
    ["Buy milk"] is answered 201 with a task id, and [GET /tasks] then
    lists one task titled ["Buy milk"] with status [pending]. *)
Example buy_milk_scenario :
  let header := "Bearer " ++ demo_token in
  let posted :=
    token_required demo_mac demo_config
      (bearer_request header [("title", JStr "Buy milk")] [])
      (create_task (bearer_request header [("title", JStr "Buy milk")] []))
      demo_state in
  let listed :=
    token_required demo_mac demo_config (bearer_request header [] [])
      (get_tasks (bearer_request header [] [])) posted.2 in
  posted.1 = Return (success_response "Task created successfully"
                       (Some (TaskCreated 1)) 201)
  /\ listed.1 = Return (success_response "Tasks retrieved successfully"
                          (Some (TaskPage [mkview 1 "Buy milk" "" "pending" 7 1000]
                                          1 1 10 1)) 200).
Proof. vm_compute. split; reflexivity. Qed.

Example split_examples :
  Py.split "  Bearer   abc.def " = ["Bearer"; "abc.def"]
  /\ Py.split "" = [] /\ Py.split "Bearer" = ["Bearer"]
  /\ Py.split "Bearer a b" = ["Bearer"; "a"; "b"].
Proof. vm_compute. repeat split. Qed.

Example int_examples :
  Py.int_of_str " -1_0 " = Some (-10) /\ Py.int_of_str "1__0" = None
  /\ Py.int_of_str "" = None /\ Py.int_of_str "007" = Some 7
  /\ Py.int_of_str "+3" = Some 3 /\ Py.int_of_str "3.0" = None.
Proof. vm_compute. repeat split. Qed.

(** [int] does not skip the separators U+001C to U+001F, which [strip]
    removes, and refuses a literal of more than 4300 digits: the task list
    answers 500 to such a page. *)
Example int_limits :
  Py.int_of_str (String (ascii_of_nat 28) "2") = None
  /\ Py.strip (String (ascii_of_nat 28) "2") = "2"
  /\ Py.int_of_str (String (ascii_of_nat 160) " 2") = Some 2
  /\ (exists n : Z,
        Py.int_of_str (string_of_list_ascii (repeat "1"%char 4300)) = Some n)
  /\ Py.int_of_str (string_of_list_ascii (repeat "1"%char 4301)) = None
  /\ status_of (get_tasks (query_request
                             [("page", string_of_list_ascii (repeat "1"%char 4301))])
                          (mkuser 7 "user") one_task_state) = Some 500
  /\ status_of (get_tasks (query_request [("page", String (ascii_of_nat 28) "2")])
                          (mkuser 7 "user") one_task_state) = Some 500.
Proof.
  split; [vm_compute; reflexivity |]. split; [vm_compute; reflexivity |].
  split; [vm_compute; reflexivity |].
  split; [eexists; vm_compute; reflexivity |].
  split; [vm_compute; reflexivity |]. split; vm_compute; reflexivity.
Qed.

(** The engine's choice shows in a listing of tasks of one second, and only
    there. *)
Example engine_order_examples :
  let rows := [(1, Task.mk "a" "" "pending" 7 10); (2, Task.mk "b" "" "pending" 7 10);
               (3, Task.mk "c" "" "pending" 7 20)] in
  (order_by_created_at_desc Task.created_at (by_id_ascending 0%nat) rows).*1 = [3; 1; 2]
  /\ (order_by_created_at_desc Task.created_at (by_id_descending 0%nat) rows).*1
     = [3; 2; 1].
Proof. vm_compute. split; reflexivity. Qed.

(** A password that the hashing library refuses: 500, and nothing stored. *)
Example long_password_example :
  let pw := "Passw0rd" ++ string_of_list_ascii (repeat "x"%char 65) in
  let r := register (json_request [("email", JStr "eve@example.com");
                                   ("password", JStr pw); ("name", JStr "Eve")])
                    demo_hashpw (fun _ => "salt") demo_state in
  Py.len pw = 73
  /\ Validators.validate_password (JStr pw) = Return (true, "Password is valid")
  /\ r.1 = Return (error_response "Registration failed" 500)
  /\ db_after r = db demo_state.
Proof. vm_compute. repeat split. Qed.

Example sanitize_examples :
  Validators.sanitize_input (JStr "  a<b & 'c'  ") = "a&lt;b &amp; &#x27;c&#x27;"
  /\ Validators.sanitize_input JNull = ""
  /\ Validators.sanitize_input (JInt (-42)) = "-42"
  /\ Validators.sanitize_input (JBool true) = "True".
Proof. vm_compute. repeat split. Qed.

Example validate_email_examples :
  Validators.validate_email "alice@example.com" = true
  /\ Validators.validate_email "a@b.c" = false
  /\ Validators.validate_email "a@@b.com" = false
  /\ Validators.validate_email "a b@c.de" = false
  /\ Validators.validate_email "" = false.
Proof. vm_compute. repeat split. Qed.

Example validate_password_examples :
  Validators.validate_password (JStr "Passw0rd") = Return (true, "Password is valid")
  /\ Validators.validate_password (JStr "password1")
     = Return (false, "Password must contain at least one uppercase letter")
  /\ Validators.validate_password (JStr "Pw0")
     = Return (false, "Password must be at least 8 characters long")
  /\ Validators.validate_password (JInt 12345678) = Raise TypeError.
Proof. vm_compute. repeat split. Qed.

(* --------------------------------------------------------------------- *)
(** ** The store invariant *)
(* --------------------------------------------------------------------- *)

Lemma store_ok_insert_task (d : database) (t : Task.row) :
  store_ok d ->
  store_ok (mkdb (<[tasks_next_id d := t]> (tasks d)) (tasks_next_id d + 1)
                 (users d) (users_next_id d)).
Proof.
  intros [Ht Hu]. split; simpl; [| exact Hu].
  intros k x. rewrite lookup_insert. case_decide.
  - intros _. lia.
  - intros Hk. apply Ht in Hk. lia.
Qed.

Lemma store_ok_alter_task (d : database) (f : Task.row -> Task.row) (task_id : Z) :
  store_ok d ->
  store_ok (mkdb (alter f task_id (tasks d)) (tasks_next_id d)
                 (users d) (users_next_id d)).
Proof.
  intros [Ht Hu]. split; simpl; [| exact Hu].
  intros k x. rewrite lookup_alter. case_decide; [subst k |]; [| apply Ht].
  destruct (tasks d !! task_id) as [y|] eqn:Hk; simpl.
  - intros _. apply (Ht task_id y Hk).
  - discriminate.
Qed.

Lemma store_ok_delete_task (d : database) (task_id : Z) :
  store_ok d ->
  store_ok (mkdb (base.delete task_id (tasks d)) (tasks_next_id d)
                 (users d) (users_next_id d)).
Proof.
  intros [Ht Hu]. split; simpl; [| exact Hu].
  intros k x. rewrite lookup_delete. case_decide; [discriminate | apply Ht].
Qed.

Lemma store_ok_insert_user (d : database) (u : User.row) :
  store_ok d ->
  store_ok (mkdb (tasks d) (tasks_next_id d)
                 (<[users_next_id d := u]> (users d)) (users_next_id d + 1)).
Proof.
  intros [Ht Hu]. split; simpl; [exact Ht |].
  intros k x. rewrite lookup_insert. case_decide.
  - intros _. lia.
  - intros Hk. apply Hu in Hk. lia.
Qed.

Lemma store_ok_same (d : database) :
  store_ok d ->
  store_ok (mkdb (tasks d) (tasks_next_id d) (users d) (users_next_id d)).
Proof. destruct d. auto. Qed.

(** Every task handler keeps the invariant, whatever the request. *)
Theorem task_handlers_keep_store_ok :
  forall (req : request) (cu : current_user) (task_id : Z) (st : app_state),
    store_ok (db st) ->
    store_ok (db_after (create_task req cu st))
    /\ store_ok (db_after (get_tasks req cu st))
    /\ store_ok (db_after (get_task cu task_id st))
    /\ store_ok (db_after (update_task req cu task_id st))
    /\ store_ok (db_after (delete_task cu task_id st)).
Proof.
  intros req cu task_id st Hok. split; [| split; [| split; [| split]]].
  - unfold create_task. run.
    destruct (json req) as [|fields|v]; simpl; [assumption | |];
      repeat case_if; try assumption.
    apply store_ok_insert_task, Hok.
  - unfold get_tasks, try_except, bind, int_arg, db_after.
    destruct (args req !! "page") as [sp|]; [destruct (Py.int_of_str sp) |];
      (destruct (args req !! "limit") as [sl|]; [destruct (Py.int_of_str sl) |]);
      simpl; try assumption;
      destruct (String.eqb (Py.lower (default "false" (args req !! "all"))) "true"
                && String.eqb (role cu) "admin"); unfold ret; simpl; assumption.
  - unfold get_task. run.
    destruct (tasks (db st) !! task_id); simpl; [case_if |]; assumption.
  - unfold update_task. run.
    destruct (tasks (db st) !! task_id); simpl; [| assumption].
    case_if; [assumption |].
    destruct (json req) as [|fields|v]; simpl; [assumption | |];
      repeat case_if; try assumption.
    apply store_ok_alter_task, Hok.
  - unfold delete_task. run.
    destruct (tasks (db st) !! task_id); simpl; [| assumption].
    case_if; [assumption |].
    apply store_ok_delete_task, Hok.
Qed.

(** An expired token and a text that is no token at all: the same result. *)
Example expired_and_malformed_same_result :
  let late := mkst empty_db [] 90000 0 by_id_ascending in
  Jwt.decode demo_mac demo_token "secret" ["HS256"] 90000 = Raise ExpiredSignatureError
  /\ Jwt.decode demo_mac "abc" "secret" ["HS256"] 90000
     = Raise (DecodeError "Not enough segments")
  /\ (decode_token demo_mac demo_config demo_token late).1 = Return None
  /\ (decode_token demo_mac demo_config "abc" late).1 = Return None.
Proof. vm_compute. repeat split. Qed.

(* ===================================================================== *)
(** * Properties of the rest of the application *)
(* ===================================================================== *)

Arguments Py.join : simpl never.

Ltac run_more :=
  unfold reply_status_of, status_of, db_after, try_except, bind, ret, gets, raise,
    set_db, logger, TaskModel.find_by_id, TaskModel.delete, TaskModel.update,
    TaskModel.create, UserTable.find_by_id, get_json, data_get; simpl.

(* --------------------------------------------------------------------- *)
(** ** The decorators *)
(* --------------------------------------------------------------------- *)

Lemma bearer_token_nonempty (h : option string) (t : string) :
  bearer_token h = Some t -> t <> "".
Proof.
  destruct h as [s|]; [| discriminate]. rewrite bearer_token_split.
  pose proof (split_nonempty s) as Hall.
  destruct (Py.split s) as [|a [|b [|c l]]]; try discriminate.
  destruct (String.eqb (Py.lower a) "bearer"); [| discriminate].
  intros [= <-]. inversion Hall as [|? ? _ Hall']. inversion Hall'. assumption.
Qed.

Section GateAs.

Context {R : Type} `{Envelope R}.
Variable HS256 : string -> string -> string.
Variable config : Config.
Variable req : request.
Variable st : app_state.

Lemma gate_as_no_bearer (f : current_user -> M R) :
  bearer_token (authorization req) = None ->
  token_required_as HS256 config req f st
  = (Return (error_as "Authentication token is required" 401),
     mkst (db st) (logs st ++ [mklog WARNING "Request without token" None])
          (utcnow st) (salts_drawn st) (ties st)).
Proof. intros Hb. unfold token_required_as. rewrite Hb. reflexivity. Qed.

Lemma gate_as_bearer (f : current_user -> M R) (token : string) :
  bearer_token (authorization req) = Some token ->
  token_required_as HS256 config req f st
  = match decode_token HS256 config token st with
    | (Return (Some payload), st') =>
        f (mkuser (Jwt.user_id payload) (Jwt.role payload)) st'
    | (Return None, st') =>
        (Return (error_as "Invalid or expired token" 401), st')
    | (Raise e, st') => (Raise e, st')
    end.
Proof.
  intros Hb. pose proof (bearer_token_nonempty _ _ Hb) as Hne.
  unfold token_required_as. rewrite Hb. simpl.
  destruct (String.eqb_spec token ""); [contradiction |].
  unfold bind. destruct (decode_token HS256 config token st) as [[[p|]|e] st'];
    reflexivity.
Qed.

Lemma gate_as_valid (f : current_user -> M R) (token : string) (payload : Jwt.claims) :
  bearer_token (authorization req) = Some token ->
  Jwt.decode HS256 token (JWT_SECRET_KEY config) ["HS256"] (utcnow st) = Return payload ->
  token_required_as HS256 config req f st
  = f (mkuser (Jwt.user_id payload) (Jwt.role payload)) st.
Proof.
  intros Hb Hd. rewrite (gate_as_bearer f token Hb).
  rewrite (decode_token_ok HS256 config token st payload Hd). reflexivity.
Qed.

Lemma gate_as_invalid (f : current_user -> M R) (token : string) (e : exn) :
  bearer_token (authorization req) = Some token ->
  Jwt.decode HS256 token (JWT_SECRET_KEY config) ["HS256"] (utcnow st) = Raise e ->
  (token_required_as HS256 config req f st).1
  = Return (error_as "Invalid or expired token" 401)
  /\ db (token_required_as HS256 config req f st).2 = db st.
Proof.
  intros Hb Hd. rewrite (gate_as_bearer f token Hb).
  rewrite (decode_token_raise HS256 config token st e Hd). split; reflexivity.
Qed.

End GateAs.

(** The gate at the response type of the task handlers is the gate of
    the task routes. *)
Lemma token_required_as_response (HS256 : string -> string -> string)
  (config : Config) (req : request) (f : current_user -> M response) :
  token_required_as HS256 config req f = token_required HS256 config req f.
Proof. reflexivity. Qed.

Lemma admin_required_admin {R : Type} `{Envelope R} (f : current_user -> M R)
  (cu : current_user) (st : app_state) :
  role cu = "admin" -> admin_required f cu st = f cu st.
Proof. intros Hr. unfold admin_required. rewrite Hr. reflexivity. Qed.

Lemma admin_required_other {R : Type} `{Envelope R} (f : current_user -> M R)
  (cu : current_user) (st : app_state) :
  role cu <> "admin" ->
  (admin_required f cu st).1
  = Return (error_as "Admin privileges required for this action" 403)
  /\ db (admin_required f cu st).2 = db st.
Proof.
  intros Hr. unfold admin_required.
  destruct (String.eqb_spec (role cu) "admin"); [contradiction |].
  split; reflexivity.
Qed.

(** X1. Authenticate, then authorize: on a route decorated with
    [@token_required] and [@admin_required], a request without a bearer
    token, or whose token does not verify, is answered 401; a request
    whose token verifies with another role than [admin] is answered 403
    with the admin message; in all three cases the handler is not run and
    the store is untouched.  A token that verifies with role [admin] runs
    the handler as the token's user. *)
Theorem admin_route_authenticates_then_authorizes :
  forall (R : Type) (E : Envelope R) (HS256 : string -> string -> string)
         (config : Config) (req : request) (st : app_state)
         (f : current_user -> M R),
    let route := token_required_as HS256 config req (admin_required f) in
    (bearer_token (authorization req) = None ->
       (route st).1 = Return (error_as "Authentication token is required" 401)
       /\ db (route st).2 = db st)
    /\ (forall (token : string) (e : exn),
          bearer_token (authorization req) = Some token ->
          Jwt.decode HS256 token (JWT_SECRET_KEY config) ["HS256"] (utcnow st)
          = Raise e ->
          (route st).1 = Return (error_as "Invalid or expired token" 401)
          /\ db (route st).2 = db st)
    /\ (forall (token : string) (payload : Jwt.claims),
          bearer_token (authorization req) = Some token ->
          Jwt.decode HS256 token (JWT_SECRET_KEY config) ["HS256"] (utcnow st)
          = Return payload ->
          (Jwt.role payload <> "admin" ->
             (route st).1
             = Return (error_as "Admin privileges required for this action" 403)
             /\ db (route st).2 = db st)
          /\ (Jwt.role payload = "admin" ->
                route st = f (mkuser (Jwt.user_id payload) "admin") st)).
Proof.
  intros R E HS256 config req st f route. subst route. split; [| split].
  - intros Hb. rewrite (gate_as_no_bearer HS256 config req st _ Hb).
    split; reflexivity.
  - intros token e Hb Hd. apply (gate_as_invalid HS256 config req st _ token e Hb Hd).
  - intros token payload Hb Hd.
    rewrite (gate_as_valid HS256 config req st _ token payload Hb Hd). split.
    + intros Hr. apply admin_required_other. exact Hr.
    + intros Hr. rewrite admin_required_admin by exact Hr.
      rewrite Hr. reflexivity.
Qed.

Lemma admin_route_authenticates_then_authorizes_witness :
  let route f req :=
    token_required_as demo_mac demo_config req (admin_required f) in
  (route (fun cu => admin_delete_task cu 1) (bearer_request "Token abc" [] [])
         one_task_state).1
  = Return (error_response "Authentication token is required" 401)
  /\ (route (fun cu => admin_delete_task cu 1)
            (bearer_request ("Bearer " ++ demo_token) [] []) one_task_state)
     = admin_delete_task (mkuser 7 "admin") 1 one_task_state.
Proof.
  intros route. subst route. cbv beta.
  destruct (admin_route_authenticates_then_authorizes response response_envelope
              demo_mac demo_config (bearer_request "Token abc" [] []) one_task_state
              (fun cu => admin_delete_task cu 1)) as (Hno & _ & _).
  destruct (admin_route_authenticates_then_authorizes response response_envelope
              demo_mac demo_config (bearer_request ("Bearer " ++ demo_token) [] [])
              one_task_state (fun cu => admin_delete_task cu 1)) as (_ & _ & Hok).
  split.
  - apply Hno. vm_compute. reflexivity.
  - destruct (Hok demo_token (Jwt.mk 7 "admin" 1000 87400)) as (_ & Hrun).
    + vm_compute. reflexivity.
    + vm_compute. reflexivity.
    + apply Hrun. reflexivity.
Defined.

(** X2. [role_required] with a list of roles runs the handler exactly for the callers
    whose role is one of the roles; every other caller is answered 403
    with a message that names the required roles, joined by commas, and
    the store is untouched.  With no roles at all it turns everyone down;
    with the single role [admin] it lets in the callers that
    [admin_required] lets in. *)
Theorem role_required_admits_listed_roles :
  forall (R : Type) (E : Envelope R) (tuple_repr : list string -> string)
         (allowed_roles : list string) (f : current_user -> M R)
         (cu : current_user) (st : app_state),
    (In (role cu) allowed_roles ->
       role_required tuple_repr allowed_roles f cu st = f cu st)
    /\ (~ In (role cu) allowed_roles ->
          (role_required tuple_repr allowed_roles f cu st).1
          = Return (error_as ("Required role: " ++ Py.join ", " allowed_roles) 403)
          /\ db (role_required tuple_repr allowed_roles f cu st).2 = db st)
    /\ (role_required tuple_repr [] f cu st).1
       = Return (error_as "Required role: " 403)
    /\ (role cu = "admin" ->
          role_required tuple_repr ["admin"] f cu st = admin_required f cu st).
Proof.
  intros R E tuple_repr allowed_roles f cu st. split; [| split; [| split]].
  - intros Hin. apply str_in_In in Hin. unfold role_required. rewrite Hin.
    reflexivity.
  - intros Hout. apply str_in_not_In in Hout. unfold role_required. rewrite Hout.
    split; reflexivity.
  - reflexivity.
  - intros Hr. rewrite admin_required_admin by exact Hr.
    unfold role_required. rewrite Hr. reflexivity.
Qed.

Lemma role_required_admits_listed_roles_witness :
  role_required (fun _ => "") ["admin"; "manager"] logout (mkuser 3 "manager")
                demo_state
  = logout (mkuser 3 "manager") demo_state
  /\ (role_required (fun _ => "") ["admin"; "manager"] logout (mkuser 3 "user")
                    demo_state).1
     = Return (error_response "Required role: admin, manager" 403).
Proof.
  destruct (role_required_admits_listed_roles response response_envelope
              (fun _ => "") ["admin"; "manager"] logout (mkuser 3 "manager")
              demo_state) as (Hin & _).
  destruct (role_required_admits_listed_roles response response_envelope
              (fun _ => "") ["admin"; "manager"] logout (mkuser 3 "user")
              demo_state) as (_ & Hout & _).
  split.
  - apply Hin. simpl. auto.
  - apply Hout. simpl. intros [Hx | [Hx | []]]; discriminate Hx.
Defined.

(* --------------------------------------------------------------------- *)
(** ** Deleting tasks *)
(* --------------------------------------------------------------------- *)

Lemma admin_delete_task_found (cu : current_user) (task_id : Z) (st : app_state)
  (t : Task.row) :
  tasks (db st) !! task_id = Some t ->
  admin_delete_task cu task_id st
  = (Return (success_response "Task deleted successfully by admin" None 200),
     mkst (mkdb (base.delete task_id (tasks (db st))) (tasks_next_id (db st))
                (users (db st)) (users_next_id (db st)))
          (logs st ++ [mklog INFO
                         ("Task " ++ Py.str_of_int task_id ++ " deleted by admin "
                          ++ Py.str_of_int (user_id cu)) None])
          (utcnow st) (salts_drawn st) (ties st)).
Proof. intros Hf. unfold admin_delete_task. run_more. rewrite Hf. reflexivity. Qed.

Lemma admin_delete_task_missing (cu : current_user) (task_id : Z) (st : app_state) :
  tasks (db st) !! task_id = None ->
  admin_delete_task cu task_id st
  = (Return (error_response "Task not found" 404), st).
Proof. intros Hf. unfold admin_delete_task. run_more. rewrite Hf. reflexivity. Qed.

(** X3. The admin delete route, [@admin_required] on [admin_delete_task]:
    a caller who is not an admin is answered 403 and nothing is deleted,
    also when the task is the caller's own; an admin deletes any stored
    task, whoever owns it (200, the row is gone, every other row is as it
    was), and is answered 404, with the store unchanged, when no task has
    that id. *)
Theorem admin_delete_route_policy :
  forall (cu : current_user) (task_id : Z) (st : app_state),
    let route := admin_required (fun c => admin_delete_task c task_id) cu in
    (role cu <> "admin" ->
       status_of (route st) = Some 403 /\ db_after (route st) = db st)
    /\ (role cu = "admin" ->
          (forall t : Task.row,
              tasks (db st) !! task_id = Some t ->
              status_of (route st) = Some 200
              /\ tasks (db_after (route st)) !! task_id = None
              /\ (forall k : Z, k <> task_id ->
                    tasks (db_after (route st)) !! k = tasks (db st) !! k)
              /\ users (db_after (route st)) = users (db st))
          /\ (tasks (db st) !! task_id = None ->
                status_of (route st) = Some 404 /\ db_after (route st) = db st)).
Proof.
  intros cu task_id st route. subst route. split.
  - intros Hr.
    destruct (admin_required_other (fun c => admin_delete_task c task_id) cu st Hr)
      as [H1 H2].
    unfold status_of, db_after. rewrite H1. split; [reflexivity | exact H2].
  - intros Hr. rewrite admin_required_admin by exact Hr. split.
    + intros t Hf. rewrite (admin_delete_task_found cu task_id st t Hf).
      unfold status_of, db_after. cbn [fst snd db tasks users status_code
                                          success_response].
      split; [reflexivity |]. split; [apply lookup_delete_eq |].
      split; [| reflexivity].
      intros k Hk. apply lookup_delete_ne. congruence.
    + intros Hf. rewrite (admin_delete_task_missing cu task_id st Hf).
      split; reflexivity.
Qed.

Lemma admin_delete_route_policy_witness :
  status_of (admin_required (fun c => admin_delete_task c 1) (mkuser 7 "user")
                            one_task_state) = Some 403
  /\ status_of (admin_required (fun c => admin_delete_task c 1) (mkuser 8 "admin")
                               one_task_state) = Some 200
  /\ status_of (admin_required (fun c => admin_delete_task c 5) (mkuser 8 "admin")
                               one_task_state) = Some 404.
Proof.
  destruct (admin_delete_route_policy (mkuser 7 "user") 1 one_task_state)
    as (Hno & _).
  destruct (admin_delete_route_policy (mkuser 8 "admin") 1 one_task_state)
    as (_ & Hadm).
  destruct (admin_delete_route_policy (mkuser 8 "admin") 5 one_task_state)
    as (_ & Hadm').
  split; [apply Hno; discriminate |].
  split.
  - destruct (Hadm eq_refl) as (Hfound & _).
    apply (Hfound (Task.mk "Buy milk" "" "pending" 7 900)). reflexivity.
  - destruct (Hadm' eq_refl) as (_ & Hmiss). apply Hmiss. reflexivity.
Defined.

Lemma delete_task_cases (cu : current_user) (task_id : Z) (st : app_state) :
  (status_of (delete_task cu task_id st) = Some 200
   /\ is_Some (tasks (db st) !! task_id)
   /\ db_after (delete_task cu task_id st)
      = mkdb (base.delete task_id (tasks (db st))) (tasks_next_id (db st))
             (users (db st)) (users_next_id (db st)))
  \/ (status_of (delete_task cu task_id st) <> Some 200
      /\ db_after (delete_task cu task_id st) = db st).
Proof.
  unfold delete_task. run.
  destruct (tasks (db st) !! task_id) as [t|]; simpl.
  - case_if.
    + right. split; [discriminate | reflexivity].
    + left. split; [reflexivity |]. split; [eauto | reflexivity].
  - right. split; [discriminate | reflexivity].
Qed.

(** X4. Once [DELETE /tasks/<id>] has answered 200 the task is gone for
    everybody: reading, updating and deleting that id are answered 404 for
    every caller, admin included, and every other task is as it was. *)
Theorem deleted_task_is_gone :
  forall (cu : current_user) (task_id : Z) (st : app_state),
    status_of (delete_task cu task_id st) = Some 200 ->
    let st' := (delete_task cu task_id st).2 in
    (forall (req : request) (cu' : current_user),
        status_of (get_task cu' task_id st') = Some 404
        /\ status_of (update_task req cu' task_id st') = Some 404
        /\ status_of (delete_task cu' task_id st') = Some 404
        /\ status_of (admin_delete_task cu' task_id st') = Some 404)
    /\ (forall k : Z, k <> task_id -> tasks (db st') !! k = tasks (db st) !! k).
Proof.
  intros cu task_id st H200 st'.
  destruct (delete_task_cases cu task_id st) as [(_ & _ & Hdb) | (Hne & _)];
    [| contradiction].
  unfold db_after in Hdb. fold st' in Hdb.
  assert (Hgone : tasks (db st') !! task_id = None).
  { rewrite Hdb. apply lookup_delete_eq. }
  split.
  - intros req cu'.
    rewrite (get_task_missing st' cu' task_id Hgone),
            (update_task_missing req st' cu' task_id Hgone),
            (delete_task_missing st' cu' task_id Hgone),
            (admin_delete_task_missing cu' task_id st' Hgone).
    repeat split.
  - intros k Hk. rewrite Hdb. apply lookup_delete_ne. congruence.
Qed.

Lemma deleted_task_is_gone_witness :
  status_of (get_task (mkuser 8 "admin") 1
               (delete_task (mkuser 7 "user") 1 one_task_state).2) = Some 404.
Proof.
  destruct (deleted_task_is_gone (mkuser 7 "user") 1 one_task_state) as (Hgone & _).
  - vm_compute. reflexivity.
  - destruct (Hgone (json_request []) (mkuser 8 "admin")) as (Hget & _).
    exact Hget.
Defined.

(* --------------------------------------------------------------------- *)
(** ** What [sanitize_input] returns *)
(* --------------------------------------------------------------------- *)

Lemma escape_char_no_markup (c : ascii) :
  Validators.all_chars no_markup (Py.escape_char c) = true.
Proof. destruct c as [[] [] [] [] [] [] [] []]; vm_compute; reflexivity. Qed.

Lemma html_escape_no_markup (s : string) :
  Validators.all_chars no_markup (Py.html_escape s) = true.
Proof.
  induction s as [|c s IH]; [reflexivity |].
  cbn [Py.html_escape]. rewrite all_chars_app, escape_char_no_markup, IH.
  reflexivity.
Qed.

Lemma escape_char_plain (c : ascii) :
  plain_char c = true -> Py.escape_char c = String c "".
Proof. destruct c as [[] [] [] [] [] [] [] []]; vm_compute; congruence. Qed.

Lemma html_escape_plain (s : string) :
  Validators.all_chars plain_char s = true -> Py.html_escape s = s.
Proof.
  induction s as [|c s IH]; [reflexivity |].
  cbn [Validators.all_chars Py.html_escape]. intros [Hc Hs]%andb_prop.
  rewrite (escape_char_plain c Hc), (IH Hs). reflexivity.
Qed.

Lemma string_length_app (a b : string) :
  String.length (a ++ b) = (String.length a + String.length b)%nat.
Proof.
  induction a as [|c a IH]; [reflexivity |].
  rewrite append_cons. simpl. rewrite IH. reflexivity.
Qed.

Lemma escape_char_length (c : ascii) : (1 <= String.length (Py.escape_char c))%nat.
Proof. destruct c as [[] [] [] [] [] [] [] []]; vm_compute; lia. Qed.

Lemma html_escape_length (s : string) :
  (String.length s <= String.length (Py.html_escape s))%nat.
Proof.
  induction s as [|c s IH]; [reflexivity |].
  cbn [Py.html_escape]. rewrite string_length_app.
  pose proof (escape_char_length c). simpl. lia.
Qed.

Lemma lstrip_length (s : string) : (String.length (Py.lstrip s) <= String.length s)%nat.
Proof.
  induction s as [|c s IH]; simpl; [lia |].
  destruct (Py.isspace c); simpl; lia.
Qed.

Lemma lstrip_fixed_head (c : ascii) (r : string) :
  Py.lstrip (String c r) = String c r -> Py.isspace c = false.
Proof.
  simpl. destruct (Py.isspace c); [| reflexivity].
  intros Heq. pose proof (lstrip_length r) as Hl. rewrite Heq in Hl.
  simpl in Hl. lia.
Qed.

Lemma lstrip_idem (s : string) : Py.lstrip (Py.lstrip s) = Py.lstrip s.
Proof.
  induction s as [|c s IH]; simpl; [reflexivity |].
  destruct (Py.isspace c) eqn:Hc; [exact IH |].
  simpl. rewrite Hc. reflexivity.
Qed.

(** [rstrip s = s] for [s = c :: r]: either [r] is empty and [c] is not
    white space, or [r] is not empty and is itself fixed. *)
Lemma rstrip_fixed_cons (c : ascii) (r : string) :
  Py.rstrip (String c r) = String c r ->
  (r = "" /\ Py.isspace c = false) \/ (r <> "" /\ Py.rstrip r = r).
Proof.
  simpl. destruct (Py.rstrip r) as [|x r'] eqn:Hr.
  - destruct (Py.isspace c); [discriminate |].
    intros [= <-]. left. split; reflexivity.
  - intros [= <-]. right. split; [discriminate | reflexivity].
Qed.

Lemma rstrip_idem (s : string) : Py.rstrip (Py.rstrip s) = Py.rstrip s.
Proof.
  induction s as [|c s IH]; [reflexivity |].
  cbn [Py.rstrip]. destruct (Py.rstrip s) as [|x r'] eqn:Hr.
  - destruct (Py.isspace c) eqn:Hc; [reflexivity |].
    cbn [Py.rstrip]. rewrite Hc. reflexivity.
  - cbn [Py.rstrip] in *. rewrite IH. reflexivity.
Qed.

Lemma rstrip_fixed_lstrip (s : string) :
  Py.rstrip s = s -> Py.rstrip (Py.lstrip s) = Py.lstrip s.
Proof.
  induction s as [|c s IH]; [reflexivity |].
  intros Hfix. cbn [Py.lstrip]. destruct (Py.isspace c) eqn:Hc; [| exact Hfix].
  destruct (rstrip_fixed_cons c s Hfix) as [[-> Hc'] | [_ Hs]].
  - congruence.
  - apply IH, Hs.
Qed.

Lemma rstrip_app_fixed (a b : string) :
  b <> "" -> Py.rstrip b = b -> Py.rstrip (a ++ b) = a ++ b.
Proof.
  intros Hne Hb. induction a as [|c a IH]; [exact Hb |].
  rewrite append_cons. cbn [Py.rstrip]. rewrite IH.
  destruct (a ++ b) as [|x r] eqn:Hab; [| reflexivity].
  destruct a; [| discriminate Hab]. simpl in Hab. contradiction.
Qed.

Lemma escape_char_ends (c : ascii) :
  Py.isspace c = false ->
  Py.rstrip (Py.escape_char c) = Py.escape_char c
  /\ match Py.escape_char c with
     | String x _ => Py.isspace x
     | EmptyString => true
     end = false.
Proof.
  destruct c as [[] [] [] [] [] [] [] []]; vm_compute; intros H;
    first [discriminate H | split; reflexivity].
Qed.

Lemma append_empty (s : string) : s ++ "" = s.
Proof.
  induction s as [|y t IHt]; [reflexivity |].
  rewrite append_cons, IHt. reflexivity.
Qed.

Lemma html_escape_nonempty (s : string) : s <> "" -> Py.html_escape s <> "".
Proof.
  intros Hne Heq. pose proof (html_escape_length s) as Hl. rewrite Heq in Hl.
  destruct s; [contradiction | simpl in Hl; lia].
Qed.

Lemma rstrip_html_escape (s : string) :
  Py.rstrip s = s -> Py.rstrip (Py.html_escape s) = Py.html_escape s.
Proof.
  induction s as [|c s IH]; [reflexivity |].
  intros Hfix. cbn [Py.html_escape].
  destruct (rstrip_fixed_cons c s Hfix) as [[-> Hc] | [Hne Hs]].
  - cbn [Py.html_escape]. rewrite append_empty.
    apply (escape_char_ends c Hc).
  - apply rstrip_app_fixed; [apply html_escape_nonempty, Hne | apply IH, Hs].
Qed.

Lemma lstrip_html_escape (s : string) :
  Py.lstrip s = s -> Py.lstrip (Py.html_escape s) = Py.html_escape s.
Proof.
  destruct s as [|c s]; [reflexivity |].
  intros Hfix. pose proof (lstrip_fixed_head c s Hfix) as Hc.
  cbn [Py.html_escape].
  destruct (escape_char_ends c Hc) as (_ & Hsp).
  destruct (Py.escape_char c) as [|x r]; [discriminate Hsp |].
  rewrite append_cons. cbn [Py.lstrip]. rewrite Hsp. reflexivity.
Qed.

Lemma strip_ends (s : string) :
  Py.lstrip (Py.strip s) = Py.strip s /\ Py.rstrip (Py.strip s) = Py.strip s.
Proof.
  unfold Py.strip. split; [apply lstrip_idem |].
  apply rstrip_fixed_lstrip, rstrip_idem.
Qed.

Lemma strip_fixed (s : string) :
  Py.lstrip s = s -> Py.rstrip s = s -> Py.strip s = s.
Proof. intros Hl Hr. unfold Py.strip. rewrite Hr. exact Hl. Qed.

Lemma sanitize_input_escapes (v : jval) :
  exists s, Validators.sanitize_input v = Py.html_escape (Py.strip s).
Proof.
  destruct v as [|b|n|s|text truth len]; unfold Validators.sanitize_input.
  - exists "". reflexivity.
  - eexists. reflexivity.
  - eexists. reflexivity.
  - eexists. reflexivity.
  - eexists. reflexivity.
Qed.

(** X5. Whatever value it is given, [sanitize_input] returns a text that
    holds none of the characters [<], [>], double quote and single quote,
    and that neither starts nor ends with white space: sanitizing strips,
    and stripping the result changes nothing. *)
Theorem sanitize_input_output :
  forall v : jval,
    Validators.all_chars no_markup (Validators.sanitize_input v) = true
    /\ Py.strip (Validators.sanitize_input v) = Validators.sanitize_input v.
Proof.
  intros v. destruct (sanitize_input_escapes v) as [s ->].
  split; [apply html_escape_no_markup |].
  destruct (strip_ends s) as [Hl Hr].
  apply strip_fixed; [apply lstrip_html_escape, Hl | apply rstrip_html_escape, Hr].
Qed.

(** On a text that is already trimmed and holds none of the five
    characters that [html.escape] replaces, [sanitize_input] is the
    identity. *)
Lemma sanitize_input_fixed (s : string) :
  Validators.all_chars plain_char s = true ->
  Py.strip s = s ->
  Validators.sanitize_input (JStr s) = s.
Proof.
  intros Hplain Hstrip. unfold Validators.sanitize_input.
  rewrite Hstrip. apply html_escape_plain, Hplain.
Qed.

Lemma sanitize_input_no_markup (v : jval) :
  Validators.all_chars no_markup (Validators.sanitize_input v) = true.
Proof.
  destruct (sanitize_input_escapes v) as [s ->]. apply html_escape_no_markup.
Qed.

(* --------------------------------------------------------------------- *)
(** ** What the task handlers store *)
(* --------------------------------------------------------------------- *)

Lemma create_task_cases (req : request) (cu : current_user) (st : app_state) :
  (exists fields : gmap string jval,
      json req = BodyObject fields
      /\ field_or fields "title" "" <> ""
      /\ Py.len (field_or fields "title" "") <= 200
      /\ In (field_or fields "status" "pending") valid_statuses
      /\ (create_task req cu st).1
         = Return (success_response "Task created successfully"
                     (Some (TaskCreated (tasks_next_id (db st)))) 201)
      /\ db_after (create_task req cu st)
         = mkdb (<[tasks_next_id (db st) :=
                     Task.mk (field_or fields "title" "")
                             (field_or fields "description" "")
                             (field_or fields "status" "pending")
                             (user_id cu) (utcnow st)]> (tasks (db st)))
                (tasks_next_id (db st) + 1) (users (db st)) (users_next_id (db st)))
  \/ (status_of (create_task req cu st) <> Some 201
      /\ db_after (create_task req cu st) = db st).
Proof.
  destruct (json req) as [|fields|v] eqn:Hbody.
  - right. unfold create_task. run. rewrite Hbody. simpl.
    split; [discriminate | reflexivity].
  - destruct (String.eqb_spec (field_or fields "title" "") "") as [Ht|Ht].
    { right. destruct (create_task_rejects req cu st fields Hbody) as [H1 H2];
        [left; exact Ht |]. rewrite H1. split; [discriminate | exact H2]. }
    destruct (Z.le_gt_cases (Py.len (field_or fields "title" "")) 200) as [Hl|Hl].
    2:{ right. destruct (create_task_rejects req cu st fields Hbody) as [H1 H2];
          [right; left; unfold field_or in Hl; lia |].
        rewrite H1. split; [discriminate | exact H2]. }
    destruct (in_dec string_dec (field_or fields "status" "pending") valid_statuses)
      as [Hs|Hs].
    2:{ right. destruct (create_task_rejects req cu st fields Hbody) as [H1 H2];
          [right; right; exact Hs |].
        rewrite H1. split; [discriminate | exact H2]. }
    left. exists fields. split; [reflexivity |]. repeat (split; [assumption |]).
    rewrite (create_task_accepts req cu st fields Hbody Ht Hl Hs).
    split; reflexivity.
  - right. unfold create_task. run. rewrite Hbody. simpl.
    case_if; split; first [discriminate | reflexivity].
Qed.

Lemma update_task_cases (req : request) (cu : current_user) (task_id : Z)
  (st : app_state) :
  (exists (t : Task.row) (fields : gmap string jval),
      tasks (db st) !! task_id = Some t
      /\ Task.user_id t = user_id cu
      /\ json req = BodyObject fields
      /\ fields <> ∅
      /\ field_or fields "title" (Task.title t) <> ""
      /\ Py.len (field_or fields "title" (Task.title t)) <= 200
      /\ In (field_or fields "status" (Task.status t)) valid_statuses
      /\ status_of (update_task req cu task_id st) = Some 200
      /\ db_after (update_task req cu task_id st)
         = mkdb (<[task_id :=
                     Task.mk (field_or fields "title" (Task.title t))
                             (field_or fields "description" (Task.description t))
                             (field_or fields "status" (Task.status t))
                             (Task.user_id t) (Task.created_at t)]> (tasks (db st)))
                (tasks_next_id (db st)) (users (db st)) (users_next_id (db st)))
  \/ (status_of (update_task req cu task_id st) <> Some 200
      /\ db_after (update_task req cu task_id st) = db st).
Proof.
  destruct (tasks (db st) !! task_id) as [t|] eqn:Hfound.
  2:{ right. rewrite (update_task_missing req st cu task_id Hfound).
      split; [discriminate | reflexivity]. }
  destruct (Z.eq_dec (Task.user_id t) (user_id cu)) as [Howner|Hother].
  2:{ right. rewrite (update_task_not_owner req st cu task_id t Hfound Hother).
      split; [discriminate | reflexivity]. }
  destruct (json req) as [|fields|v] eqn:Hbody.
  - right. split; [| apply update_task_store];
      unfold update_task; run; rewrite Hfound; simpl;
      replace (Task.user_id t =? user_id cu) with true
        by (symmetry; apply Z.eqb_eq, Howner);
      simpl; rewrite Hbody; simpl; discriminate.
  - assert (Hrej : fields = ∅ \/ field_or fields "title" (Task.title t) = ""
                   \/ 200 < Py.len (field_or fields "title" (Task.title t))
                   \/ ~ In (field_or fields "status" (Task.status t)) valid_statuses ->
                   status_of (update_task req cu task_id st) <> Some 200
                   /\ db_after (update_task req cu task_id st) = db st).
    { intros Hbad.
      destruct (update_task_rejects req cu st task_id t fields Hfound Howner Hbody Hbad)
        as [H1 H2].
      split; [rewrite H1; discriminate |].
      apply update_task_store. rewrite H1. discriminate. }
    destruct (decide (fields = ∅)) as [He|He]; [right; apply Hrej; auto |].
    destruct (String.eqb_spec (field_or fields "title" (Task.title t)) "") as [Ht|Ht];
      [right; apply Hrej; auto |].
    destruct (Z.le_gt_cases (Py.len (field_or fields "title" (Task.title t))) 200)
      as [Hl|Hl]; [| right; apply Hrej; right; right; left; lia].
    destruct (in_dec string_dec (field_or fields "status" (Task.status t))
                     valid_statuses) as [Hs|Hs]; [| right; apply Hrej; auto].
    left. exists t, fields. split; [reflexivity |]. split; [assumption |].
    split; [reflexivity |]. repeat (split; [assumption |]).
    unfold update_task. run. rewrite Hfound. simpl.
    replace (Task.user_id t =? user_id cu) with true
      by (symmetry; apply Z.eqb_eq, Howner).
    simpl. rewrite Hbody. simpl.
    destruct (bool_decide (fields = ∅)) eqn:Hbd.
    { apply bool_decide_eq_true in Hbd. contradiction. }
    simpl. unfold field_or in *.
    destruct (String.eqb_spec
                (Validators.sanitize_input (default (JStr (Task.title t))
                                                    (fields !! "title"))) "");
      [contradiction |].
    destruct (Z.ltb_spec 200 (Py.len (Validators.sanitize_input
                                        (default (JStr (Task.title t))
                                                 (fields !! "title"))))); [lia |].
    apply str_in_In in Hs. rewrite Hs. simpl. split; [reflexivity |].
    f_equal. apply map_eq. intros k. rewrite lookup_alter, lookup_insert.
    destruct (decide (task_id = k)) as [<-|]; [| reflexivity].
    rewrite Hfound. reflexivity.
  - right. split; [| apply update_task_store];
      unfold update_task; run; rewrite Hfound; simpl;
      replace (Task.user_id t =? user_id cu) with true
        by (symmetry; apply Z.eqb_eq, Howner);
      simpl; rewrite Hbody; simpl; case_if; discriminate.
Qed.

Lemma get_task_found (cu : current_user) (task_id : Z) (st : app_state)
  (t : Task.row) :
  tasks (db st) !! task_id = Some t ->
  get_task cu task_id st
  = if negb (Task.user_id t =? user_id cu) && negb (String.eqb (role cu) "admin")
    then (Return (error_response "You do not have permission to view this task" 403),
          st)
    else (Return (success_response "Task retrieved successfully"
                    (Some (TaskDetail (to_view (task_id, t)))) 200), st).
Proof.
  intros Hf. unfold get_task. run. rewrite Hf. simpl.
  destruct (negb _ && negb _); reflexivity.
Qed.

Lemma field_or_task_ok (fields : gmap string jval) (dt dd ds : string)
  (u c : Z) :
  field_or fields "title" dt <> "" ->
  Py.len (field_or fields "title" dt) <= 200 ->
  In (field_or fields "status" ds) valid_statuses ->
  task_ok (Task.mk (field_or fields "title" dt) (field_or fields "description" dd)
                   (field_or fields "status" ds) u c).
Proof.
  intros Ht Hl Hs. unfold task_ok. cbn [Task.title Task.status Task.description].
  repeat (split; [assumption |]).
  split; apply sanitize_input_no_markup.
Qed.

(** X6. A task that [POST /tasks] has answered 201 for can be read back:
    the stored row is owned by the caller, its title has 1 to 200
    characters, its status is one of the four values, and title and
    description hold no raw markup character; [GET /tasks/<id>] with the
    returned id answers 200 with that row to its creator and to an admin,
    and 403 to anybody else. *)
Theorem created_task_is_readable :
  forall (req : request) (cu : current_user) (st : app_state),
    status_of (create_task req cu st) = Some 201 ->
    let st' := (create_task req cu st).2 in
    exists (id : Z) (t : Task.row),
      (create_task req cu st).1
      = Return (success_response "Task created successfully"
                  (Some (TaskCreated id)) 201)
      /\ tasks (db st') !! id = Some t
      /\ Task.user_id t = user_id cu
      /\ task_ok t
      /\ (forall reader : current_user,
            (user_id reader = user_id cu \/ role reader = "admin" ->
               get_task reader id st'
               = (Return (success_response "Task retrieved successfully"
                            (Some (TaskDetail (to_view (id, t)))) 200), st'))
            /\ (user_id reader <> user_id cu -> role reader <> "admin" ->
                  status_of (get_task reader id st') = Some 403)).
Proof.
  intros req cu st H201 st'.
  destruct (create_task_cases req cu st)
    as [(fields & _ & Ht & Hl & Hs & Hresp & Hdb) | (Hne & _)]; [| contradiction].
  unfold db_after in Hdb. fold st' in Hdb.
  eexists _, _. split; [exact Hresp |].
  assert (Hrow : tasks (db st') !! tasks_next_id (db st)
                 = Some (Task.mk (field_or fields "title" "")
                                 (field_or fields "description" "")
                                 (field_or fields "status" "pending")
                                 (user_id cu) (utcnow st))).
  { rewrite Hdb. apply lookup_insert_eq. }
  split; [exact Hrow |]. split; [reflexivity |].
  split; [apply field_or_task_ok; assumption |].
  intros reader. rewrite (get_task_found reader _ st' _ Hrow).
  cbn [Task.user_id]. split.
  - intros [Hu | Hr].
    + rewrite Hu, Z.eqb_refl. reflexivity.
    + rewrite Hr, String.eqb_refl, andb_false_r. reflexivity.
  - intros Hu Hr.
    destruct (Z.eqb_spec (user_id cu) (user_id reader)); [congruence |].
    destruct (String.eqb_spec (role reader) "admin"); [contradiction |].
    reflexivity.
Qed.

Lemma created_task_is_readable_witness :
  exists (id : Z) (t : Task.row),
    tasks (db (create_task (json_request [("title", JStr "Buy <b>milk</b>")])
                           (mkuser 7 "user") demo_state).2) !! id = Some t
    /\ Task.user_id t = 7
    /\ task_ok t.
Proof.
  destruct (created_task_is_readable (json_request [("title", JStr "Buy <b>milk</b>")])
              (mkuser 7 "user") demo_state)
    as (id & t & _ & Hrow & Hown & Hok & _).
  - vm_compute. reflexivity.
  - exists id, t. auto.
Defined.

Lemma tasks_ok_insert (d : database) (k : Z) (t : Task.row) (n1 n2 : Z)
  (us : gmap Z User.row) :
  tasks_ok d -> task_ok t ->
  tasks_ok (mkdb (<[k := t]> (tasks d)) n1 us n2).
Proof.
  intros Hd Ht j x. cbn [tasks]. rewrite lookup_insert. case_decide.
  - intros [= <-]. exact Ht.
  - apply Hd.
Qed.

Lemma tasks_ok_delete (d : database) (k : Z) (n1 n2 : Z) (us : gmap Z User.row) :
  tasks_ok d -> tasks_ok (mkdb (base.delete k (tasks d)) n1 us n2).
Proof.
  intros Hd j x. cbn [tasks]. rewrite lookup_delete. case_decide; [discriminate |].
  apply Hd.
Qed.

Lemma get_tasks_store (req : request) (cu : current_user) (st : app_state) :
  db_after (get_tasks req cu st) = db st.
Proof.
  unfold get_tasks, try_except, bind, int_arg, db_after.
  destruct (args req !! "page") as [sp|]; [destruct (Py.int_of_str sp) |];
    (destruct (args req !! "limit") as [sl|]; [destruct (Py.int_of_str sl) |]);
    simpl; try reflexivity;
    destruct (String.eqb (Py.lower (default "false" (args req !! "all"))) "true"
              && String.eqb (role cu) "admin"); reflexivity.
Qed.

Lemma get_task_store (cu : current_user) (task_id : Z) (st : app_state) :
  db_after (get_task cu task_id st) = db st.
Proof.
  unfold get_task. run.
  destruct (tasks (db st) !! task_id); simpl; [case_if |]; reflexivity.
Qed.

Lemma admin_delete_task_store (cu : current_user) (task_id : Z) (st : app_state) :
  db_after (admin_delete_task cu task_id st) = db st
  \/ db_after (admin_delete_task cu task_id st)
     = mkdb (base.delete task_id (tasks (db st))) (tasks_next_id (db st))
            (users (db st)) (users_next_id (db st)).
Proof.
  destruct (tasks (db st) !! task_id) as [t|] eqn:Hf.
  - right. rewrite (admin_delete_task_found cu task_id st t Hf). reflexivity.
  - left. rewrite (admin_delete_task_missing cu task_id st Hf). reflexivity.
Qed.

(** X7. The task handlers keep the store well formed: if every stored
    task has a title of 1 to 200 characters, a status among the four
    values, and no raw markup character in its title and description,
    then the same holds after any request to create, list, read, update
    or delete a task, whatever the request holds and whoever sends it. *)
Theorem task_handlers_keep_tasks_ok :
  forall (req : request) (cu : current_user) (task_id : Z) (st : app_state),
    tasks_ok (db st) ->
    tasks_ok (db_after (create_task req cu st))
    /\ tasks_ok (db_after (get_tasks req cu st))
    /\ tasks_ok (db_after (get_task cu task_id st))
    /\ tasks_ok (db_after (update_task req cu task_id st))
    /\ tasks_ok (db_after (delete_task cu task_id st))
    /\ tasks_ok (db_after (admin_delete_task cu task_id st)).
Proof.
  intros req cu task_id st Hok.
  split; [| split; [| split; [| split; [| split]]]].
  - destruct (create_task_cases req cu st)
      as [(fields & _ & Ht & Hl & Hs & _ & ->) | (_ & ->)]; [| exact Hok].
    apply tasks_ok_insert; [exact Hok | apply field_or_task_ok; assumption].
  - rewrite get_tasks_store. exact Hok.
  - rewrite get_task_store. exact Hok.
  - destruct (update_task_cases req cu task_id st)
      as [(t & fields & _ & _ & _ & _ & Ht & Hl & Hs & _ & ->) | (_ & ->)];
      [| exact Hok].
    apply tasks_ok_insert; [exact Hok | apply field_or_task_ok; assumption].
  - destruct (delete_task_cases cu task_id st) as [(_ & _ & ->) | (_ & ->)];
      [apply tasks_ok_delete, Hok | exact Hok].
  - destruct (admin_delete_task_store cu task_id st) as [-> | ->];
      [exact Hok | apply tasks_ok_delete, Hok].
Qed.

Lemma tasks_ok_empty : tasks_ok empty_db.
Proof. intros k t H. simpl in H. rewrite lookup_empty in H. discriminate H. Qed.

Lemma task_handlers_keep_tasks_ok_witness :
  tasks_ok (db_after (create_task (json_request [("title", JStr "Buy milk")])
                                  (mkuser 7 "user") demo_state)).
Proof.
  destruct (task_handlers_keep_tasks_ok (json_request [("title", JStr "Buy milk")])
              (mkuser 7 "user") 1 demo_state tasks_ok_empty) as (Hcreate & _).
  exact Hcreate.
Defined.

(** X8. [PUT /tasks/<id>] never moves a task to another owner and never
    touches anything but the three editable columns of that one task:
    whatever the request, after it every task id has the owner and the
    creation time it had before (and is stored exactly when it was), every
    other task is unchanged, and so are the users and the id counters. *)
Theorem update_task_keeps_owner_and_others :
  forall (req : request) (cu : current_user) (task_id : Z) (st : app_state),
    let d' := db_after (update_task req cu task_id st) in
    (forall k : Z,
        Task.user_id <$> tasks d' !! k = Task.user_id <$> tasks (db st) !! k
        /\ Task.created_at <$> tasks d' !! k = Task.created_at <$> tasks (db st) !! k
        /\ (k <> task_id -> tasks d' !! k = tasks (db st) !! k))
    /\ users d' = users (db st)
    /\ tasks_next_id d' = tasks_next_id (db st)
    /\ users_next_id d' = users_next_id (db st).
Proof.
  intros req cu task_id st d'. subst d'.
  destruct (update_task_cases req cu task_id st)
    as [(t & fields & Hf & _ & _ & _ & _ & _ & _ & _ & ->) | (_ & ->)].
  - split; [| repeat split]. intros k. cbn [tasks].
    rewrite lookup_insert. case_decide as Hk.
    + subst k. rewrite Hf. repeat split. intros Hne. contradiction.
    + repeat split.
  - repeat split.
Qed.

(** X9. [POST /tasks] never changes or removes a task that is stored: when
    the ids in use are below the id counter, every stored task is still
    there, unchanged, after any create request, and the users are
    unchanged. *)
Theorem create_task_keeps_stored_tasks :
  forall (req : request) (cu : current_user) (st : app_state),
    store_ok (db st) ->
    (forall (k : Z) (t : Task.row),
        tasks (db st) !! k = Some t ->
        tasks (db_after (create_task req cu st)) !! k = Some t)
    /\ users (db_after (create_task req cu st)) = users (db st).
Proof.
  intros req cu st Hok.
  destruct (create_task_cases req cu st)
    as [(fields & _ & _ & _ & _ & _ & ->) | (_ & ->)]; [| split; auto].
  split; [| reflexivity]. intros k t Hk. cbn [tasks].
  rewrite lookup_insert_ne; [exact Hk |].
  intros <-. rewrite (next_task_id_fresh (db st) Hok) in Hk. discriminate Hk.
Qed.

Lemma create_task_keeps_stored_tasks_witness :
  tasks (db_after (create_task (json_request [("title", JStr "second")])
                               (mkuser 8 "user") one_task_state)) !! 1
  = Some (Task.mk "Buy milk" "" "pending" 7 900).
Proof.
  destruct (create_task_keeps_stored_tasks (json_request [("title", JStr "second")])
              (mkuser 8 "user") one_task_state) as (Hkeep & _).
  - split; intros k x Hk; simpl in Hk.
    + apply lookup_singleton_Some in Hk as [<- _]. reflexivity.
    + rewrite lookup_empty in Hk. discriminate Hk.
  - apply Hkeep. reflexivity.
Defined.

(** X10. The update frame, where it holds: when an update is answered
    200, a title or description that the body omits keeps its stored value
    provided that value is trimmed and holds none of the five characters
    that [html.escape] replaces, and an omitted status keeps its stored
    value provided that is one of the four values. *)
Theorem update_task_keeps_plain_omitted_fields :
  forall (req : request) (cu : current_user) (task_id : Z) (st : app_state)
         (t : Task.row) (fields : gmap string jval),
    tasks (db st) !! task_id = Some t ->
    json req = BodyObject fields ->
    status_of (update_task req cu task_id st) = Some 200 ->
    exists t' : Task.row,
      tasks (db_after (update_task req cu task_id st)) !! task_id = Some t'
      /\ (fields !! "title" = None ->
          Validators.all_chars plain_char (Task.title t) = true ->
          Py.strip (Task.title t) = Task.title t ->
          Task.title t' = Task.title t)
      /\ (fields !! "description" = None ->
          Validators.all_chars plain_char (Task.description t) = true ->
          Py.strip (Task.description t) = Task.description t ->
          Task.description t' = Task.description t)
      /\ (fields !! "status" = None ->
          In (Task.status t) valid_statuses ->
          Task.status t' = Task.status t).
Proof.
  intros req cu task_id st t fields Hf Hbody H200.
  destruct (update_task_cases req cu task_id st)
    as [(t0 & fields0 & Hf0 & _ & Hbody0 & _ & _ & _ & Hs & _ & ->) | (Hne & _)];
    [| contradiction].
  rewrite Hf in Hf0. injection Hf0 as <-.
  rewrite Hbody in Hbody0. injection Hbody0 as <-.
  eexists. split; [apply lookup_insert_eq |].
  cbn [Task.title Task.description Task.status]. unfold field_or in *.
  split; [| split].
  - intros -> Hp Hstrip. apply sanitize_input_fixed; assumption.
  - intros -> Hp Hstrip. apply sanitize_input_fixed; assumption.
  - intros -> Hin. cbn [default].
    destruct Hin as [<- | [<- | [<- | [<- | []]]]]; reflexivity.
Qed.

Lemma update_task_keeps_plain_omitted_fields_witness :
  exists t' : Task.row,
    tasks (db_after (update_task (json_request [("status", JStr "completed")])
                                 (mkuser 7 "user") 1 one_task_state)) !! 1 = Some t'
    /\ Task.title t' = "Buy milk".
Proof.
  destruct (update_task_keeps_plain_omitted_fields
              (json_request [("status", JStr "completed")]) (mkuser 7 "user") 1
              one_task_state (Task.mk "Buy milk" "" "pending" 7 900)
              (list_to_map [("status", JStr "completed")]))
    as (t' & Hrow & Htitle & _).
  - reflexivity.
  - reflexivity.
  - vm_compute. reflexivity.
  - exists t'. split; [exact Hrow |].
    apply Htitle; vm_compute; reflexivity.
Defined.

(* --------------------------------------------------------------------- *)
(** ** Registration and login *)
(* --------------------------------------------------------------------- *)

Lemma filter_nil_iff {A} (f : A -> bool) (l : list A) :
  List.filter f l = [] <-> forall x, In x l -> f x = false.
Proof.
  induction l as [|y l IH]; simpl.
  - split; [intros _ x [] | reflexivity].
  - destruct (f y) eqn:Hy.
    + split; [discriminate |]. intros Hall.
      specialize (Hall y (or_introl eq_refl)). congruence.
    + rewrite IH. split.
      * intros Hall x [<- | Hx]; [exact Hy | apply Hall, Hx].
      * intros Hall x Hx. apply Hall. right. exact Hx.
Qed.

Lemma filter_perm {A} (f : A -> bool) (l l' : list A) :
  l ≡ₚ l' -> List.filter f l ≡ₚ List.filter f l'.
Proof.
  induction 1 as [|x l l' _ IH|x y l|l l' l'' _ IH1 _ IH2]; simpl.
  - reflexivity.
  - destruct (f x); [constructor |]; exact IH.
  - destruct (f x), (f y); try reflexivity. apply perm_swap.
  - etransitivity; eassumption.
Qed.

Lemma head_none_nil {A} (l : list A) : head l = None -> l = [].
Proof. destruct l; [reflexivity | discriminate]. Qed.

Section FindByEmail.

Variable st : app_state.
Variable email : string.

Lemma find_by_email_eq :
  UserModel.find_by_email email st
  = (Return (head (List.filter
                     (fun r : Z * User.row => String.eqb (User.email r.2) email)
                     (map_to_list (users (db st))))), st).
Proof. reflexivity. Qed.

Lemma find_by_email_none :
  (UserModel.find_by_email email st).1 = Return None <->
  forall (k : Z) (u : User.row), users (db st) !! k = Some u -> User.email u <> email.
Proof.
  rewrite find_by_email_eq. cbn [fst]. split.
  - intros [= Hh]. apply head_none_nil in Hh.
    intros k u Hk Heq.
    pose proof (proj1 (filter_nil_iff _ _) Hh (k, u)) as Hf.
    cbn [snd] in Hf. rewrite Heq, String.eqb_refl in Hf.
    assert (In (k, u) (map_to_list (users (db st)))) as Hin.
    { apply list_elem_of_In, elem_of_map_to_list, Hk. }
    specialize (Hf Hin). discriminate Hf.
  - intros Hall. f_equal.
    replace (List.filter _ _) with (@nil (Z * User.row)); [reflexivity |].
    symmetry. apply filter_nil_iff. intros [k u] Hin. cbn [snd].
    apply list_elem_of_In, elem_of_map_to_list in Hin.
    apply String.eqb_neq. apply (Hall k u Hin).
Qed.

Lemma find_by_email_some (r : Z * User.row) :
  (UserModel.find_by_email email st).1 = Return (Some r) ->
  users (db st) !! r.1 = Some r.2 /\ User.email r.2 = email.
Proof.
  rewrite find_by_email_eq. cbn [fst]. intros [= Hh].
  destruct (List.filter _ _) as [|x l] eqn:Hf; [discriminate |].
  injection Hh as ->.
  assert (In r (List.filter
                  (fun r : Z * User.row => String.eqb (User.email r.2) email)
                  (map_to_list (users (db st))))) as Hin.
  { rewrite Hf. left. reflexivity. }
  apply filter_In in Hin as [Hin Heq]. destruct r as [k u].
  apply list_elem_of_In, elem_of_map_to_list in Hin.
  split; [exact Hin | apply String.eqb_eq, Heq].
Qed.

End FindByEmail.

(** After an insert at an unused id of a user whose email nobody has,
    [find_by_email] finds that user. *)
Lemma find_by_email_inserted (st st' : app_state) (k : Z) (u : User.row) :
  users (db st) !! k = None ->
  (forall (j : Z) (x : User.row), users (db st) !! j = Some x ->
                                  User.email x <> User.email u) ->
  users (db st') = <[k := u]> (users (db st)) ->
  UserModel.find_by_email (User.email u) st' = (Return (Some (k, u)), st').
Proof.
  intros Hfresh Hnew Hins. rewrite find_by_email_eq, Hins. do 2 f_equal.
  set (f := fun r : Z * User.row => String.eqb (User.email r.2) (User.email u)).
  assert (Hperm : List.filter f (map_to_list (<[k := u]> (users (db st))))
                  ≡ₚ [(k, u)]).
  { rewrite (filter_perm f _ _ (map_to_list_insert _ _ _ Hfresh)).
    simpl. unfold f at 1. cbn [snd]. rewrite String.eqb_refl.
    replace (List.filter f (map_to_list (users (db st)))) with (@nil (Z * User.row));
      [reflexivity |].
    symmetry. apply filter_nil_iff. intros [j x] Hin. unfold f. cbn [snd].
    apply list_elem_of_In, elem_of_map_to_list in Hin.
    apply String.eqb_neq, (Hnew j x Hin). }
  apply Permutation_singleton_r in Hperm. rewrite Hperm. reflexivity.
Qed.

Lemma register_cases (req : request)
  (bcrypt_hashpw : string -> string -> outcome string)
  (gensalt : nat -> string) (st : app_state) :
  (exists (fields : gmap string jval) (pw msg password_hash : string),
      json req = BodyObject fields
      /\ fields !! "password" = Some (JStr pw)
      /\ Validators.validate_email (field_or fields "email" "") = true
      /\ Validators.validate_password (JStr pw) = Return (true, msg)
      /\ field_or fields "name" "" <> ""
      /\ (UserModel.find_by_email (field_or fields "email" "") st).1 = Return None
      /\ bcrypt_hashpw pw (gensalt (salts_drawn st)) = Return password_hash
      /\ register req bcrypt_hashpw gensalt st = registered st fields password_hash)
  \/ (status_of (register req bcrypt_hashpw gensalt st) <> Some 201
      /\ db_after (register req bcrypt_hashpw gensalt st) = db st).
Proof.
  unfold register. run.
  destruct (json req) as [|fields|v] eqn:Hbody; simpl.
  - right. split; [discriminate | reflexivity].
  - destruct (bool_decide (fields = ∅)) eqn:He; simpl.
    { right. split; [discriminate | reflexivity]. }
    fold (field_or fields "email" "") (field_or fields "name" "")
         (field_or fields "role" "user").
    destruct (String.eqb_spec (field_or fields "email" "") "") as [Hem|Hem]; simpl.
    { right. split; [discriminate | reflexivity]. }
    destruct (Validators.truthy (default (JStr "") (fields !! "password"))) eqn:Htr;
      simpl; [| right; split; [discriminate | reflexivity]].
    destruct (String.eqb_spec (field_or fields "name" "") "") as [Hn|Hn]; simpl.
    { right. split; [discriminate | reflexivity]. }
    destruct (Validators.validate_email (field_or fields "email" "")) eqn:Hve; simpl;
      [| right; split; [discriminate | reflexivity]].
    destruct (Validators.validate_password (default (JStr "") (fields !! "password")))
      as [[[] msg]|e] eqn:Hvp; simpl;
      [| right; split; [discriminate | reflexivity]
       | right; split; [discriminate | reflexivity]].
    unfold UserModel.find_by_email, UserModel.create, hash_password. run.
    destruct (head _) as [r|] eqn:Hhead; simpl.
    { right. split; [discriminate | reflexivity]. }
    destruct (fields !! "password") as [pwv|] eqn:Hpw; cbn [default] in *.
    2:{ discriminate Htr. }
    destruct pwv as [|b|n|pw|text truth len]; simpl;
      try (right; split; [discriminate | reflexivity]).
    destruct (bcrypt_hashpw pw (gensalt (salts_drawn st))) as [password_hash|e]
      eqn:Hhash; simpl; [| right; split; [discriminate | reflexivity]].
    left. exists fields, pw, msg, password_hash.
    split; [reflexivity |]. split; [exact Hpw |]. split; [exact Hve |].
    split; [exact Hvp |]. split; [exact Hn |].
    split; [rewrite Hhead; reflexivity |]. split; [exact Hhash |].
    unfold registered, stored_role. reflexivity.
  - right. case_if; split; first [discriminate | reflexivity].
Qed.

Lemma stored_role_in (role : string) : In (stored_role role) ["user"; "admin"].
Proof.
  unfold stored_role. destruct (Py.str_in role ["user"; "admin"]) eqn:Hin; simpl.
  - apply str_in_In in Hin. exact Hin.
  - left. reflexivity.
Qed.

(** X11. [register] keeps the users table well formed: ids below the next
    id, every stored role [user] or [admin], every stored email of the
    accepted shape, no empty name, and no email stored twice; it never
    touches the tasks. *)
Theorem register_keeps_users_valid :
  forall (req : request) (bcrypt_hashpw : string -> string -> outcome string)
         (gensalt : nat -> string) (st : app_state),
    store_ok (db st) -> users_ok (db st) -> emails_unique (db st) ->
    let d := db_after (register req bcrypt_hashpw gensalt st) in
    store_ok d /\ users_ok d /\ emails_unique d /\ tasks d = tasks (db st).
Proof.
  intros req bh gs st Hstore Hok Huniq.
  destruct (register_cases req bh gs st)
    as [(fields & pw & msg & h & Hbody & Hpw & Hve & Hvp & Hn & Hfree & Hhash & Hrun)
       | [_ Hsame]];
    cbn zeta.
  2:{ rewrite Hsame. split; [exact Hstore |]. split; [exact Hok |].
      split; [exact Huniq | reflexivity]. }
  rewrite Hrun. unfold registered, db_after. cbn [fst snd db].
  pose proof (proj1 (find_by_email_none st _) Hfree) as Hnew.
  assert (Hfresh : users (db st) !! users_next_id (db st) = None).
  { destruct Hstore as [_ Hu].
    destruct (users (db st) !! users_next_id (db st)) as [u|] eqn:Hl; [| reflexivity].
    apply Hu in Hl. lia. }
  split; [apply store_ok_insert_user, Hstore |].
  split; [| split; [| reflexivity]].
  - intros k u. cbn [users]. rewrite lookup_insert. case_decide as Hk.
    + intros [= <-]. split; [apply stored_role_in |]. split; [exact Hve | exact Hn].
    + apply Hok.
  - intros k1 k2 u1 u2. cbn [users]. rewrite !lookup_insert.
    case_decide as Hk1; case_decide as Hk2.
    + congruence.
    + intros [= <-] H2 Heq. cbn [User.email] in Heq.
      exfalso. apply (Hnew k2 u2 H2). symmetry. exact Heq.
    + intros H1 [= <-] Heq. cbn [User.email] in Heq.
      exfalso. apply (Hnew k1 u1 H1). exact Heq.
    + apply Huniq.
Qed.

Lemma register_keeps_users_valid_witness :
  let d := db_after (register (json_request [("email", JStr "carol@example.com");
                                             ("password", JStr "Passw0rd");
                                             ("name", JStr "Carol")])
                              demo_hashpw (fun _ => "salt")
                              demo_state) in
  store_ok d /\ users_ok d /\ emails_unique d /\ tasks d = tasks (db demo_state).
Proof.
  apply register_keeps_users_valid.
  - apply store_ok_empty.
  - intros k u Hk. vm_compute in Hk. discriminate Hk.
  - intros k1 k2 u1 u2 Hk. vm_compute in Hk. discriminate Hk.
Defined.

(** X12. An email that is already stored cannot be registered again: for a
    body whose sanitized email is that of a stored user the store is left as
    it is and the answer is not 201; it is 409 when the body passes the
    email, password and name checks. *)
Theorem register_refuses_stored_email :
  forall (req : request) (bcrypt_hashpw : string -> string -> outcome string)
         (gensalt : nat -> string) (st : app_state)
         (fields : gmap string jval) (k : Z) (u : User.row),
    json req = BodyObject fields ->
    users (db st) !! k = Some u ->
    User.email u = field_or fields "email" "" ->
    let r := register req bcrypt_hashpw gensalt st in
    db_after r = db st
    /\ status_of r <> Some 201
    /\ (forall (msg : string),
          Validators.validate_email (field_or fields "email" "") = true ->
          Validators.validate_password (default (JStr "") (fields !! "password"))
          = Return (true, msg) ->
          field_or fields "name" "" <> "" ->
          r.1 = Return (error_response "Email already registered" 409)).
Proof.
  intros req bh gs st fields k u Hbody Hk Hemail r.
  assert (Hfound : (UserModel.find_by_email (field_or fields "email" "") st).1
                   <> Return None).
  { intros Hnone. apply (proj1 (find_by_email_none st _) Hnone k u Hk Hemail). }
  split; [| split].
  - destruct (register_cases req bh gs st)
      as [(fields' & pw & msg & h & Hbody' & _ & _ & _ & _ & Hfree & _) | [_ Hsame]];
      [| exact Hsame].
    rewrite Hbody in Hbody'. injection Hbody' as <-. contradiction.
  - destruct (register_cases req bh gs st)
      as [(fields' & pw & msg & h & Hbody' & _ & _ & _ & _ & Hfree & _) | [Hne _]];
      [| exact Hne].
    rewrite Hbody in Hbody'. injection Hbody' as <-. contradiction.
  - intros msg Hve Hvp Hn. subst r. unfold register. run. rewrite Hbody. simpl.
    destruct (bool_decide (fields = ∅)) eqn:He.
    { apply bool_decide_eq_true in He. subst fields.
      rewrite lookup_empty in Hvp. discriminate Hvp. }
    simpl. fold (field_or fields "email" "") (field_or fields "name" "")
                (field_or fields "role" "user").
    destruct (String.eqb_spec (field_or fields "email" "") "") as [He'|_].
    { exfalso. revert He'. apply validate_email_nonempty, Hve. }
    rewrite (validate_password_truthy _ _ Hvp).
    destruct (String.eqb_spec (field_or fields "name" "") ""); [contradiction |].
    simpl. rewrite Hve. simpl. rewrite Hvp. simpl.
    rewrite find_by_email_eq in Hfound. cbn [fst] in Hfound.
    unfold UserModel.find_by_email. run.
    destruct (head _) as [x|]; [reflexivity | contradiction].
Qed.

Lemma register_refuses_stored_email_witness :
  let r := register (json_request [("email", JStr " bob@example.com ");
                                   ("password", JStr "Passw0rd");
                                   ("name", JStr "Robert")])
                    demo_hashpw (fun _ => "salt") sample_state in
  db_after r = db sample_state
  /\ status_of r <> Some 201
  /\ r.1 = Return (error_response "Email already registered" 409).
Proof.
  pose proof (register_refuses_stored_email
                (json_request [("email", JStr " bob@example.com ");
                               ("password", JStr "Passw0rd");
                               ("name", JStr "Robert")])
                demo_hashpw (fun _ => "salt") sample_state
                (list_to_map [("email", JStr " bob@example.com ");
                              ("password", JStr "Passw0rd");
                              ("name", JStr "Robert")])
                8 (User.mk "bob@example.com" "Secret99salt" "Bob" "user" 6)
                eq_refl eq_refl eq_refl) as (Hdb & Hst & Hconf).
  split; [exact Hdb |]. split; [exact Hst |].
  apply (Hconf "Password is valid"); [reflexivity | reflexivity |].
  vm_compute. discriminate.
Defined.

Section LoginCases.

Variable HS256 : string -> string -> string.
Variable bcrypt_checkpw : string -> string -> outcome bool.
Variable config : Config.
Variable req : request.
Variable st : app_state.
Variable fields : gmap string jval.
Variable password : jval.

Hypothesis Hbody : json req = BodyObject fields.
Hypothesis Hpassword : fields !! "password" = Some password.
Hypothesis Hgiven : Validators.truthy password = true.
Hypothesis Hemail : field_or fields "email" "" <> "".

Lemma login_unknown :
  (UserModel.find_by_email (field_or fields "email" "") st).1 = Return None ->
  login HS256 bcrypt_checkpw config req st
  = (Return (error_reply "Invalid email or password" 401),
     mkst (db st)
          (logs st ++ [mklog WARNING ("Login attempt with unknown email: "
                                      ++ field_or fields "email" "") None])
          (utcnow st) (salts_drawn st) (ties st)).
Proof.
  intros Hnone. unfold login. run. rewrite Hbody. simpl.
  destruct (bool_decide (fields = ∅)) eqn:He.
  { apply bool_decide_eq_true in He. rewrite He in Hpassword. discriminate Hpassword. }
  simpl. rewrite Hpassword. simpl. fold (field_or fields "email" "").
  destruct (String.eqb_spec (field_or fields "email" "") ""); [contradiction |].
  rewrite Hgiven. simpl.
  rewrite find_by_email_eq in Hnone. cbn [fst] in Hnone. injection Hnone as Hnone.
  unfold UserModel.find_by_email. run. rewrite Hnone. reflexivity.
Qed.

Lemma login_known (k : Z) (u : User.row) :
  (UserModel.find_by_email (field_or fields "email" "") st).1 = Return (Some (k, u)) ->
  login HS256 bcrypt_checkpw config req st
  = if verify_password bcrypt_checkpw password (User.password_hash u)
    then (Return (success_reply "Login successful"
                    (Some (LoggedIn
                             (Jwt.encode HS256
                                (Jwt.mk k (User.role u) (utcnow st)
                                        (utcnow st + 3600 * JWT_EXPIRY_HOURS config))
                                (JWT_SECRET_KEY config) "HS256")
                             k (User.email u) (User.name u) (User.role u))) 200),
          mkst (db st)
               (logs st ++ [mklog INFO ("User logged in: "
                                        ++ field_or fields "email" "") None])
               (utcnow st) (salts_drawn st) (ties st))
    else (Return (error_reply "Invalid email or password" 401),
          mkst (db st)
               (logs st ++ [mklog WARNING ("Failed login attempt for: "
                                           ++ field_or fields "email" "") None])
               (utcnow st) (salts_drawn st) (ties st)).
Proof.
  intros Hsome. unfold login. run. rewrite Hbody. simpl.
  destruct (bool_decide (fields = ∅)) eqn:He.
  { apply bool_decide_eq_true in He. rewrite He in Hpassword. discriminate Hpassword. }
  simpl. rewrite Hpassword. simpl. fold (field_or fields "email" "").
  destruct (String.eqb_spec (field_or fields "email" "") ""); [contradiction |].
  rewrite Hgiven. simpl.
  rewrite find_by_email_eq in Hsome. cbn [fst] in Hsome. injection Hsome as Hsome.
  unfold UserModel.find_by_email. run. rewrite Hsome. simpl.
  destruct (verify_password bcrypt_checkpw password (User.password_hash u));
    reflexivity.
Qed.

End LoginCases.

(** [login] always answers, and never writes. *)
Lemma login_store (HS256 : string -> string -> string)
  (bcrypt_checkpw : string -> string -> outcome bool) (config : Config)
  (req : request) (st : app_state) :
  exists (r : reply),
    (login HS256 bcrypt_checkpw config req st).1 = Return r
    /\ In (reply_status r) [200; 400; 401; 500]
    /\ db (login HS256 bcrypt_checkpw config req st).2 = db st.
Proof.
  unfold login, UserModel.find_by_email, generate_token. run.
  destruct (json req) as [|fields|v]; simpl.
  - eexists. split; [reflexivity |]. simpl. auto 10.
  - destruct (bool_decide (fields = ∅)); simpl.
    { eexists. split; [reflexivity |]. simpl. auto 10. }
    destruct (_ || _); simpl.
    { eexists. split; [reflexivity |]. simpl. auto 10. }
    destruct (head _) as [x|]; simpl.
    2:{ eexists. split; [reflexivity |]. simpl. auto 10. }
    destruct (verify_password _ _ _); simpl;
      eexists; (split; [reflexivity |]); simpl; auto 10.
  - destruct (negb (Validators.truthy v)); simpl;
      eexists; (split; [reflexivity |]); simpl; auto 10.
Qed.

Lemma bearer_issued (HS256 : string -> string -> string) (p : Jwt.claims)
  (key : string) :
  bearer_token (Some ("Bearer " ++ Jwt.encode HS256 p key "HS256"))
  = Some (Jwt.encode HS256 p key "HS256").
Proof.
  destruct (encode_spaceless HS256 p key) as [Hsp Hne].
  rewrite bearer_token_split, (split_bearer_token _ Hne Hsp). reflexivity.
Qed.

(** A token issued at [issued] for [(u, r)] opens the gate of any handler
    while it is not expired. *)
Lemma issued_token_opens_gate {R : Type} `{Envelope R}
  (HS256 : string -> string -> string) (config : Config) (u : Z) (r : string)
  (issued : Z) (req : request) (st : app_state) (f : current_user -> M R) :
  authorization req
  = Some ("Bearer " ++ Jwt.encode HS256
                         (Jwt.mk u r issued (issued + 3600 * JWT_EXPIRY_HOURS config))
                         (JWT_SECRET_KEY config) "HS256") ->
  issued <= utcnow st < issued + 3600 * JWT_EXPIRY_HOURS config ->
  token_required_as HS256 config req f st = f (mkuser u r) st.
Proof.
  intros Hh [Hlo Hhi].
  rewrite (gate_as_valid HS256 config req st f
             (Jwt.encode HS256
                (Jwt.mk u r issued (issued + 3600 * JWT_EXPIRY_HOURS config))
                (JWT_SECRET_KEY config) "HS256")
             (Jwt.mk u r issued (issued + 3600 * JWT_EXPIRY_HOURS config))).
  - reflexivity.
  - rewrite Hh. apply bearer_issued.
  - rewrite decode_encode. cbn [Jwt.iat Jwt.exp].
    destruct (Z.ltb_spec (utcnow st) issued); [lia |].
    destruct (Z.leb_spec (issued + 3600 * JWT_EXPIRY_HOURS config) (utcnow st));
      [lia | reflexivity].
Qed.

(** X13. Registration, login and the gate compose: after an accepted
    registration, a login with the same sanitized email and the same
    password answers 200 with the new user's id, email, name and stored
    role, and the token it returns opens the gate of any handler for that
    id and role until it expires.  The password library is assumed to
    accept a password against a hash that it returned for it. *)
Theorem login_after_register :
  forall (HS256 : string -> string -> string)
         (bcrypt_hashpw : string -> string -> outcome string) (gensalt : nat -> string)
         (bcrypt_checkpw : string -> string -> outcome bool) (config : Config)
         (req req' : request) (st : app_state)
         (fields fields' : gmap string jval) (pw : string),
    (forall (p salt password_hash : string),
        bcrypt_hashpw p salt = Return password_hash ->
        bcrypt_checkpw p password_hash = Return true) ->
    store_ok (db st) ->
    json req = BodyObject fields ->
    fields !! "password" = Some (JStr pw) ->
    status_of (register req bcrypt_hashpw gensalt st) = Some 201 ->
    json req' = BodyObject fields' ->
    fields' !! "password" = Some (JStr pw) ->
    field_or fields' "email" "" = field_or fields "email" "" ->
    let st1 := (register req bcrypt_hashpw gensalt st).2 in
    let id := users_next_id (db st) in
    let role := stored_role (field_or fields "role" "user") in
    exists (token : string),
      (login HS256 bcrypt_checkpw config req' st1).1
      = Return (success_reply "Login successful"
                  (Some (LoggedIn token id (field_or fields "email" "")
                                  (field_or fields "name" "") role)) 200)
      /\ forall (gate_req : request) (st2 : app_state) (f : current_user -> M reply),
           authorization gate_req = Some ("Bearer " ++ token) ->
           utcnow st1 <= utcnow st2 < utcnow st1 + 3600 * JWT_EXPIRY_HOURS config ->
           token_required_as HS256 config gate_req f st2 = f (mkuser id role) st2.
Proof.
  intros HS256 bh gs check config req req' st fields fields' pw
         Hcheck Hstore Hbody Hpw Hok Hbody' Hpw' Hsame st1 id role.
  destruct (register_cases req bh gs st)
    as [(fields0 & pw0 & msg & h & Hbody0 & Hpw0 & Hve & Hvp & Hn & Hfree & Hhash & Hrun)
       | [Hne _]]; [| contradiction].
  rewrite Hbody in Hbody0. injection Hbody0 as <-.
  rewrite Hpw in Hpw0. injection Hpw0 as <-.
  assert (Hfresh : users (db st) !! users_next_id (db st) = None).
  { destruct Hstore as [_ Hu].
    destruct (users (db st) !! users_next_id (db st)) as [u|] eqn:Hl; [| reflexivity].
    apply Hu in Hl. lia. }
  set (u := User.mk (field_or fields "email" "") h
                    (field_or fields "name" "") role (utcnow st)).
  assert (Hfind : UserModel.find_by_email (field_or fields' "email" "") st1
                  = (Return (Some (id, u)), st1)).
  { rewrite Hsame.
    apply (find_by_email_inserted st st1 id u Hfresh).
    - exact (proj1 (find_by_email_none st _) Hfree).
    - subst st1. rewrite Hrun. reflexivity. }
  assert (Hemail' : field_or fields' "email" "" <> "").
  { rewrite Hsame. apply validate_email_nonempty, Hve. }
  pose proof (login_known HS256 check config req' st1 fields' (JStr pw)
                Hbody' Hpw' (validate_password_truthy _ _ Hvp) Hemail' id u
                (f_equal fst Hfind)) as Hlogin.
  cbn [verify_password User.password_hash u] in Hlogin.
  rewrite (Hcheck _ _ _ Hhash) in Hlogin. rewrite Hlogin. cbn [fst].
  eexists. split; [reflexivity |].
  intros gate_req st2 f Hh Hnow.
  apply (issued_token_opens_gate HS256 config id role (utcnow st1)); assumption.
Qed.

Lemma login_after_register_witness :
  let req := json_request [("email", JStr "carol@example.com");
                           ("password", JStr "Passw0rd");
                           ("name", JStr "Carol"); ("role", JStr "admin")] in
  let st1 := (register req demo_hashpw (fun _ => "salt")
                       demo_state).2 in
  exists (token : string),
    (login demo_mac demo_checkpw demo_config
           (json_request [("email", JStr " carol@example.com");
                          ("password", JStr "Passw0rd")]) st1).1
    = Return (success_reply "Login successful"
                (Some (LoggedIn token 1 "carol@example.com" "Carol" "admin")) 200)
    /\ forall (gate_req : request) (st2 : app_state) (f : current_user -> M reply),
         authorization gate_req = Some ("Bearer " ++ token) ->
         utcnow st1 <= utcnow st2 < utcnow st1 + 3600 * JWT_EXPIRY_HOURS demo_config ->
         token_required_as demo_mac demo_config gate_req f st2
         = f (mkuser 1 "admin") st2.
Proof.
  cbv zeta.
  refine (login_after_register demo_mac demo_hashpw (fun _ => "salt")
           demo_checkpw demo_config
           (json_request [("email", JStr "carol@example.com");
                          ("password", JStr "Passw0rd");
                          ("name", JStr "Carol"); ("role", JStr "admin")])
           (json_request [("email", JStr " carol@example.com");
                          ("password", JStr "Passw0rd")])
           demo_state
           (list_to_map [("email", JStr "carol@example.com");
                         ("password", JStr "Passw0rd");
                         ("name", JStr "Carol"); ("role", JStr "admin")])
           (list_to_map [("email", JStr " carol@example.com");
                         ("password", JStr "Passw0rd")])
           "Passw0rd" _ _ _ _ _ _ _ _).
  - intros p salt h. unfold demo_hashpw, demo_checkpw.
    destruct (72 <? Py.len p); [discriminate |]. intros [= <-]. f_equal.
    induction p as [|c p IH]; [destruct salt; reflexivity |].
    rewrite append_cons. simpl. destruct (ascii_dec c c); [exact IH | contradiction].
  - apply store_ok_empty.
  - reflexivity.
  - reflexivity.
  - vm_compute. reflexivity.
  - reflexivity.
  - reflexivity.
  - vm_compute. reflexivity.
Defined.

Lemma login_cases (HS256 : string -> string -> string)
  (bcrypt_checkpw : string -> string -> outcome bool) (config : Config)
  (req : request) (st : app_state) :
  (exists (fields : gmap string jval) (password : jval) (k : Z) (u : User.row),
      json req = BodyObject fields
      /\ fields !! "password" = Some password
      /\ users (db st) !! k = Some u
      /\ User.email u = field_or fields "email" ""
      /\ verify_password bcrypt_checkpw password (User.password_hash u) = true
      /\ (login HS256 bcrypt_checkpw config req st).1
         = Return (success_reply "Login successful"
                     (Some (LoggedIn
                              (Jwt.encode HS256
                                 (Jwt.mk k (User.role u) (utcnow st)
                                         (utcnow st + 3600 * JWT_EXPIRY_HOURS config))
                                 (JWT_SECRET_KEY config) "HS256")
                              k (User.email u) (User.name u) (User.role u))) 200))
  \/ reply_status_of (login HS256 bcrypt_checkpw config req st) <> Some 200.
Proof.
  destruct (json req) as [|fields|v] eqn:Hbody.
  - right. unfold login. run. rewrite Hbody. simpl. discriminate.
  - destruct (fields !! "password") as [password|] eqn:Hpw.
    2:{ right. unfold login. run. rewrite Hbody. simpl.
        destruct (bool_decide (fields = ∅)); simpl; [discriminate |].
        rewrite Hpw. simpl. rewrite orb_true_r. simpl. discriminate. }
    destruct (Validators.truthy password) eqn:Hgiven.
    2:{ right. unfold login. run. rewrite Hbody. simpl.
        destruct (bool_decide (fields = ∅)); simpl; [discriminate |].
        rewrite Hpw. simpl. rewrite Hgiven, orb_true_r. simpl. discriminate. }
    destruct (String.eqb_spec (field_or fields "email" "") "") as [Hempty|Hemail].
    { right. unfold login. run. rewrite Hbody. simpl.
      destruct (bool_decide (fields = ∅)); simpl; [discriminate |].
      fold (field_or fields "email" ""). rewrite Hempty. simpl. discriminate. }
    destruct (UserModel.find_by_email (field_or fields "email" "") st).1
      as [[[k u]|]|e] eqn:Hfind.
    + rewrite (login_known HS256 bcrypt_checkpw config req st fields password
                 Hbody Hpw Hgiven Hemail k u Hfind).
      destruct (verify_password bcrypt_checkpw password (User.password_hash u)) eqn:Hv;
        [| right; discriminate].
      left. exists fields, password, k, u.
      destruct (find_by_email_some st _ _ Hfind) as [Hk Heq]. cbn [fst snd] in Hk, Heq.
      split; [reflexivity |]. split; [exact Hpw |]. split; [exact Hk |].
      split; [exact Heq |]. split; [exact Hv | reflexivity].
    + right. rewrite (login_unknown HS256 bcrypt_checkpw config req st fields password
                        Hbody Hpw Hgiven Hemail Hfind). discriminate.
    + rewrite find_by_email_eq in Hfind. discriminate Hfind.
  - right. unfold login. run. rewrite Hbody. simpl.
    destruct (negb (Validators.truthy v)); simpl; discriminate.
Qed.

(** X14. A login is answered 200 only for a stored user whose email is the
    sanitized email of the body and whose stored hash the body password
    verifies against; the reply names that user, and its token decodes, at
    the time of the login, to that user's id and role. *)
Theorem login_success_means_verified :
  forall (HS256 : string -> string -> string)
         (bcrypt_checkpw : string -> string -> outcome bool) (config : Config)
         (req : request) (st : app_state),
    0 < JWT_EXPIRY_HOURS config ->
    reply_status_of (login HS256 bcrypt_checkpw config req st) = Some 200 ->
    exists (fields : gmap string jval) (password : jval) (k : Z) (u : User.row)
           (token : string),
      json req = BodyObject fields
      /\ fields !! "password" = Some password
      /\ users (db st) !! k = Some u
      /\ User.email u = field_or fields "email" ""
      /\ verify_password bcrypt_checkpw password (User.password_hash u) = true
      /\ (login HS256 bcrypt_checkpw config req st).1
         = Return (success_reply "Login successful"
                     (Some (LoggedIn token k (User.email u) (User.name u)
                                     (User.role u))) 200)
      /\ decode_token HS256 config token st
         = (Return (Some (Jwt.mk k (User.role u) (utcnow st)
                                 (utcnow st + 3600 * JWT_EXPIRY_HOURS config))), st).
Proof.
  intros HS256 check config req st Hhours H200.
  destruct (login_cases HS256 check config req st)
    as [(fields & password & k & u & Hbody & Hpw & Hk & Heq & Hv & Hrun) | Hno];
    [| contradiction].
  exists fields, password, k, u. eexists.
  split; [exact Hbody |]. split; [exact Hpw |]. split; [exact Hk |].
  split; [exact Heq |]. split; [exact Hv |]. split; [exact Hrun |].
  apply decode_token_ok. rewrite decode_encode. cbn [Jwt.iat Jwt.exp].
  rewrite Z.ltb_irrefl.
  destruct (Z.leb_spec (utcnow st + 3600 * JWT_EXPIRY_HOURS config) (utcnow st));
    [lia | reflexivity].
Qed.

Lemma login_success_means_verified_witness :
  exists (fields : gmap string jval) (password : jval) (k : Z) (u : User.row)
         (token : string),
    json (json_request [("email", JStr "bob@example.com");
                        ("password", JStr "Secret99")]) = BodyObject fields
    /\ fields !! "password" = Some password
    /\ users (db sample_state) !! k = Some u
    /\ User.email u = field_or fields "email" ""
    /\ verify_password demo_checkpw password (User.password_hash u) = true
    /\ (login demo_mac demo_checkpw demo_config
              (json_request [("email", JStr "bob@example.com");
                             ("password", JStr "Secret99")]) sample_state).1
       = Return (success_reply "Login successful"
                   (Some (LoggedIn token k (User.email u) (User.name u)
                                   (User.role u))) 200)
    /\ decode_token demo_mac demo_config token sample_state
       = (Return (Some (Jwt.mk k (User.role u) (utcnow sample_state)
                               (utcnow sample_state
                                + 3600 * JWT_EXPIRY_HOURS demo_config))),
          sample_state).
Proof.
  apply (login_success_means_verified demo_mac demo_checkpw demo_config
           (json_request [("email", JStr "bob@example.com");
                          ("password", JStr "Secret99")]) sample_state).
  - vm_compute. reflexivity.
  - vm_compute. reflexivity.
Defined.

(** X15. A login with an email and a password that does not succeed does
    not say why: when no stored user with the sanitized email has a hash
    that the password verifies against, be it that the email is unknown or
    that the password is wrong, the reply is the same 401 with the same
    message. *)
Theorem login_hides_which_check_failed :
  forall (HS256 : string -> string -> string)
         (bcrypt_checkpw : string -> string -> outcome bool) (config : Config)
         (req : request) (st : app_state) (fields : gmap string jval)
         (password : jval),
    json req = BodyObject fields ->
    fields !! "password" = Some password ->
    Validators.truthy password = true ->
    field_or fields "email" "" <> "" ->
    (forall (k : Z) (u : User.row),
        users (db st) !! k = Some u ->
        User.email u = field_or fields "email" "" ->
        verify_password bcrypt_checkpw password (User.password_hash u) = false) ->
    (login HS256 bcrypt_checkpw config req st).1
    = Return (error_reply "Invalid email or password" 401).
Proof.
  intros HS256 check config req st fields password Hbody Hpw Hgiven Hemail Hnone.
  destruct (UserModel.find_by_email (field_or fields "email" "") st).1
    as [[[k u]|]|e] eqn:Hfind.
  - rewrite (login_known HS256 check config req st fields password
               Hbody Hpw Hgiven Hemail k u Hfind).
    destruct (find_by_email_some st _ _ Hfind) as [Hk Heq]. cbn [fst snd] in Hk, Heq.
    rewrite (Hnone k u Hk Heq). reflexivity.
  - rewrite (login_unknown HS256 check config req st fields password
               Hbody Hpw Hgiven Hemail Hfind). reflexivity.
  - rewrite find_by_email_eq in Hfind. discriminate Hfind.
Qed.

Lemma sample_users (k : Z) (u : User.row) :
  users (db sample_state) !! k = Some u ->
  (k = 7 /\ u = User.mk "alice@example.com" "Passw0rdsalt" "Alice" "admin" 5)
  \/ (k = 8 /\ u = User.mk "bob@example.com" "Secret99salt" "Bob" "user" 6).
Proof.
  unfold sample_state. cbn [db users list_to_map foldr].
  rewrite !lookup_insert. case_decide as H7; [intros [= <-]; left; auto |].
  case_decide as H8; [intros [= <-]; right; auto |].
  rewrite lookup_empty. discriminate.
Qed.

Lemma login_hides_which_check_failed_witness :
  (login demo_mac demo_checkpw demo_config
         (json_request [("email", JStr "bob@example.com");
                        ("password", JStr "Passw0rd")]) sample_state).1
  = Return (error_reply "Invalid email or password" 401)
  /\ (login demo_mac demo_checkpw demo_config
            (json_request [("email", JStr "dave@example.com");
                           ("password", JStr "Passw0rd")]) sample_state).1
     = Return (error_reply "Invalid email or password" 401).
Proof.
  split.
  - apply (login_hides_which_check_failed demo_mac demo_checkpw demo_config
             (json_request [("email", JStr "bob@example.com");
                            ("password", JStr "Passw0rd")]) sample_state
             (list_to_map [("email", JStr "bob@example.com");
                           ("password", JStr "Passw0rd")]) (JStr "Passw0rd"));
      try reflexivity.
    + vm_compute. discriminate.
    + intros k u Hk Heq.
      destruct (sample_users k u Hk) as [[-> ->] | [-> ->]];
        [vm_compute in Heq; discriminate Heq | reflexivity].
  - apply (login_hides_which_check_failed demo_mac demo_checkpw demo_config
             (json_request [("email", JStr "dave@example.com");
                            ("password", JStr "Passw0rd")]) sample_state
             (list_to_map [("email", JStr "dave@example.com");
                           ("password", JStr "Passw0rd")]) (JStr "Passw0rd"));
      try reflexivity.
    + vm_compute. discriminate.
    + intros k u Hk Heq.
      destruct (sample_users k u Hk) as [[-> ->] | [-> ->]];
        vm_compute in Heq; discriminate Heq.
Defined.

(* --------------------------------------------------------------------- *)
(** ** Handlers that only read *)
(* --------------------------------------------------------------------- *)

Lemma user_id_arg_state (req : request) (st : app_state) :
  (user_id_arg req st).2 = st.
Proof.
  unfold user_id_arg. destruct (args req !! "user_id") as [s|]; [| reflexivity].
  destruct (String.eqb s ""); [reflexivity |].
  destruct (Py.int_of_str s); reflexivity.
Qed.

Lemma admin_get_all_tasks_store (req : request) (cu : current_user) (st : app_state) :
  db (admin_get_all_tasks req cu st).2 = db st.
Proof.
  unfold admin_get_all_tasks, try_except, bind.
  pose proof (user_id_arg_state req st) as Hst.
  destruct (user_id_arg req st) as [[u|e] st']; cbn [snd] in Hst; subst st';
    reflexivity.
Qed.

(** X16. The handlers that read do not write: login, the current-user
    route, the user list, logout, the task list, the task detail and the
    admin task list leave the stored tasks and users as they were, whatever
    the request and whether they answer with data or with an error. *)
Theorem reading_handlers_never_write :
  forall (HS256 : string -> string -> string)
         (bcrypt_checkpw : string -> string -> outcome bool) (config : Config)
         (req : request) (cu : current_user) (task_id : Z) (st : app_state),
    db (login HS256 bcrypt_checkpw config req st).2 = db st
    /\ db (get_current_user cu st).2 = db st
    /\ db (get_all_users cu st).2 = db st
    /\ db (logout cu st).2 = db st
    /\ db_after (get_tasks req cu st) = db st
    /\ db_after (get_task cu task_id st) = db st
    /\ db (admin_get_all_tasks req cu st).2 = db st.
Proof.
  intros HS256 check config req cu task_id st.
  split; [| split; [| split; [| split; [| split; [| split]]]]].
  - destruct (login_store HS256 check config req st) as (r & _ & _ & Hdb). exact Hdb.
  - unfold get_current_user. run_more.
    destruct (users (db st) !! user_id cu); reflexivity.
  - reflexivity.
  - reflexivity.
  - apply get_tasks_store.
  - apply get_task_store.
  - apply admin_get_all_tasks_store.
Qed.

(* --------------------------------------------------------------------- *)
(** ** The user list *)
(* --------------------------------------------------------------------- *)

(** X17. The user list is complete and ordered by creation time:
    [get_all_users] answers 200 with one entry for each stored user and no
    other, each entry showing that user's id, email, name, role and
    creation time, no user listed before one that was created later (the
    engine chooses the order of users of one second); the reported total is
    the number of stored users. *)
Theorem get_all_users_lists_every_user :
  forall (cu : current_user) (st : app_state),
    exists (rows : list (Z * User.row)),
      get_all_users cu st
      = (Return (success_reply "Users retrieved successfully"
                   (Some (UserList (List.map to_user_view rows)
                                   (Z.of_nat (size (users (db st)))))) 200),
         after_select st)
      /\ (forall (k : Z) (u : User.row),
            (k, u) ∈ rows <-> users (db st) !! k = Some u)
      /\ NoDup rows
      /\ newest_first User.created_at rows.
Proof.
  intros cu st.
  exists (order_by_created_at_desc User.created_at (ties st 0%nat)
            (map_to_list (users (db st)))).
  split; [| split; [| split]].
  - unfold get_all_users, UserTable.find_all, engine_order. run_more.
    rewrite length_map, order_by_length, length_map_to_list. reflexivity.
  - intros k u. rewrite order_by_perm. apply elem_of_map_to_list.
  - rewrite order_by_perm. apply NoDup_map_to_list.
  - apply order_by_sorted.
Qed.

(* --------------------------------------------------------------------- *)
(** ** The admin task list *)
(* --------------------------------------------------------------------- *)

Lemma by_filters_spec (status : option string) (user_id : option Z)
  (r : Z * Task.row) :
  TaskTable.by_filters status user_id r = true <->
  (forall s : string, filter_given status = Some s -> Task.status r.2 = s)
  /\ (forall u : Z, user_id = Some u -> u <> 0 -> Task.user_id r.2 = u).
Proof.
  unfold TaskTable.by_filters, TaskModel.by_status.
  rewrite andb_true_iff. split.
  - intros [Hs Hu]. split.
    + intros s Hf. rewrite Hf in Hs. apply String.eqb_eq, Hs.
    + intros u -> Hnz. destruct (Z.eqb_spec u 0); [contradiction |].
      apply Z.eqb_eq, Hu.
  - intros [Hs Hu]. split.
    + destruct (filter_given status) as [s|]; [| reflexivity].
      apply String.eqb_eq, Hs. reflexivity.
    + destruct user_id as [u|]; [| reflexivity].
      destruct (Z.eqb_spec u 0); [reflexivity |].
      apply Z.eqb_eq, Hu; [reflexivity | assumption].
Qed.

Lemma admin_get_all_tasks_run (req : request) (cu : current_user) (st : app_state)
  (u : option Z) :
  user_id_arg req st = (Return u, st) ->
  admin_get_all_tasks req cu st
  = (let rows := limit_offset 100 0
                   (select_tasks (ties st 0%nat)
                                 (TaskTable.by_filters (args req !! "status") u)
                                 (db st)) in
     (Return (success_reply "All tasks retrieved successfully"
                (Some (AllTasks (List.map to_view rows)
                                (Z.of_nat (length (List.map to_view rows))))) 200),
      after_select st)).
Proof.
  intros Hu. unfold admin_get_all_tasks, try_except, bind. rewrite Hu. reflexivity.
Qed.

Lemma sorted_sublist {A} (R : A -> A -> Prop) (l k : list A) :
  l `sublist_of` k -> StronglySorted R k -> StronglySorted R l.
Proof.
  induction 1 as [|x l k Hsub IH|x l k Hsub IH]; intros Hs.
  - constructor.
  - apply StronglySorted_inv in Hs as [Hk Hx].
    constructor; [apply IH, Hk |].
    apply Forall_forall. intros y Hy. rewrite Forall_forall in Hx.
    apply Hx. eapply sublist_subseteq; eassumption.
  - apply StronglySorted_inv in Hs as [Hk _]. apply IH, Hk.
Qed.

Lemma limit_offset_sublist {A} (limit offset : Z) (rows : list A) :
  limit_offset limit offset rows `sublist_of` rows.
Proof.
  unfold limit_offset. etransitivity; [apply sublist_take | apply sublist_drop].
Qed.

Lemma limit_offset_elem {A} (limit offset : Z) (rows : list A) (x : A) :
  x ∈ limit_offset limit offset rows -> x ∈ rows.
Proof. apply sublist_subseteq, limit_offset_sublist. Qed.

(** X18. The admin task list: when the [user_id] argument is absent, empty
    or a text that [int] reads, the answer is 200 with at most 100 tasks,
    none listed before a task that was created later; each listed task is a
    stored task that has the given status (when a non-empty status is
    given) and the given owner (when a non-zero user id is given); when at
    most 100 stored tasks match, all of them are listed; and the reported
    total is the number of tasks listed, not the number of tasks that
    match. *)
Theorem admin_task_list :
  forall (req : request) (cu : current_user) (st : app_state) (u : option Z),
    user_id_arg req st = (Return u, st) ->
    let matches := fun r : Z * Task.row =>
      tasks (db st) !! r.1 = Some r.2
      /\ (forall s : string, filter_given (args req !! "status") = Some s ->
                             Task.status r.2 = s)
      /\ (forall n : Z, u = Some n -> n <> 0 -> Task.user_id r.2 = n) in
    exists (rows : list (Z * Task.row)),
      admin_get_all_tasks req cu st
      = (Return (success_reply "All tasks retrieved successfully"
                   (Some (AllTasks (List.map to_view rows)
                                   (Z.of_nat (length rows)))) 200),
         after_select st)
      /\ (length rows <= 100)%nat
      /\ newest_first Task.created_at rows
      /\ (forall r : Z * Task.row, r ∈ rows -> matches r)
      /\ ((length (List.filter (TaskTable.by_filters (args req !! "status") u)
                               (map_to_list (tasks (db st)))) <= 100)%nat ->
          forall r : Z * Task.row, matches r -> r ∈ rows).
Proof.
  intros req cu st u Hu matches.
  set (P := TaskTable.by_filters (args req !! "status") u).
  set (rank := ties st 0%nat).
  exists (limit_offset 100 0 (select_tasks rank P (db st))).
  assert (Hm : forall r, r ∈ select_tasks rank P (db st) <-> matches r).
  { intros r. rewrite select_tasks_spec. unfold matches, P.
    rewrite by_filters_spec. tauto. }
  split; [| split; [| split; [| split]]].
  - rewrite (admin_get_all_tasks_run req cu st u Hu). cbv zeta.
    rewrite length_map. reflexivity.
  - unfold limit_offset. rewrite length_take. lia.
  - apply (sorted_sublist _ _ _ (limit_offset_sublist 100 0 _)), order_by_sorted.
  - intros r Hr. apply Hm. apply limit_offset_elem in Hr. exact Hr.
  - intros Hfew r Hr. apply Hm in Hr. unfold limit_offset.
    change (Z.to_nat 0) with 0%nat. rewrite drop_0.
    rewrite take_ge; [exact Hr |].
    rewrite select_tasks_length. change (Z.to_nat 100) with 100%nat. exact Hfew.
Qed.

Lemma admin_task_list_witness :
  exists (rows : list (Z * Task.row)),
    admin_get_all_tasks (query_request [("user_id", "7"); ("status", "pending")])
                        (mkuser 7 "admin") sample_state
    = (Return (success_reply "All tasks retrieved successfully"
                 (Some (AllTasks (List.map to_view rows)
                                 (Z.of_nat (length rows)))) 200),
       after_select sample_state)
    /\ (length rows <= 100)%nat
    /\ (forall r : Z * Task.row, r ∈ rows -> Task.user_id r.2 = 7).
Proof.
  destruct (admin_task_list (query_request [("user_id", "7"); ("status", "pending")])
              (mkuser 7 "admin") sample_state (Some 7) eq_refl)
    as (rows & Hrun & Hlen & _ & Hin & _).
  exists rows. split; [exact Hrun |]. split; [exact Hlen |].
  intros r Hr. destruct (Hin r Hr) as (_ & _ & Hu). apply (Hu 7); [reflexivity | lia].
Defined.

(** X19. A query argument that is not an integer literal is answered 500:
    [page] or [limit] of the task list (the empty string included), and a
    non-empty [user_id] of the admin task list; an empty [user_id] is
    no filter. *)
Theorem non_integer_arguments_fail :
  forall (req : request) (cu : current_user) (st : app_state) (s : string),
    Py.int_of_str s = None ->
    (args req !! "page" = Some s \/ args req !! "limit" = Some s ->
     (get_tasks req cu st).1
     = Return (error_response "Failed to retrieve tasks" 500))
    /\ (args req !! "user_id" = Some s ->
        if String.eqb s "" then
          reply_status_of (admin_get_all_tasks req cu st) = Some 200
        else
          (admin_get_all_tasks req cu st).1
          = Return (error_reply "Failed to retrieve tasks" 500)).
Proof.
  intros req cu st s Hs. split.
  - intros [Hp | Hl]; unfold get_tasks, try_except, bind, int_arg.
    + rewrite Hp, Hs. reflexivity.
    + rewrite Hl, Hs.
      destruct (args req !! "page") as [sp|]; [destruct (Py.int_of_str sp) |];
        reflexivity.
  - intros Hu. unfold admin_get_all_tasks, try_except, bind, user_id_arg,
      reply_status_of.
    rewrite Hu. destruct (String.eqb s ""); [reflexivity |].
    rewrite Hs. reflexivity.
Qed.

Lemma non_integer_arguments_fail_witness :
  (get_tasks (query_request [("page", "2.5")]) (mkuser 7 "user") sample_state).1
  = Return (error_response "Failed to retrieve tasks" 500)
  /\ (admin_get_all_tasks (query_request [("user_id", "seven")]) (mkuser 7 "admin")
                          sample_state).1
     = Return (error_reply "Failed to retrieve tasks" 500)
  /\ (get_tasks (query_request [("limit", "")]) (mkuser 7 "user") sample_state).1
     = Return (error_response "Failed to retrieve tasks" 500)
  /\ reply_status_of (admin_get_all_tasks (query_request [("user_id", "")])
                                          (mkuser 7 "admin") sample_state)
     = Some 200.
Proof.
  split; [| split; [| split]].
  - apply (non_integer_arguments_fail (query_request [("page", "2.5")])
             (mkuser 7 "user") sample_state "2.5" eq_refl). left. reflexivity.
  - apply (proj2 (non_integer_arguments_fail (query_request [("user_id", "seven")])
                    (mkuser 7 "admin") sample_state "seven" eq_refl)). reflexivity.
  - apply (non_integer_arguments_fail (query_request [("limit", "")])
             (mkuser 7 "user") sample_state "" eq_refl). right. reflexivity.
  - apply (proj2 (non_integer_arguments_fail (query_request [("user_id", "")])
                    (mkuser 7 "admin") sample_state "" eq_refl)). reflexivity.
Defined.

(* --------------------------------------------------------------------- *)
(** ** The task list *)
(* --------------------------------------------------------------------- *)

Lemma int_arg_cases (req : request) (key : string) (dflt : Z) (st : app_state) :
  (exists n : Z, int_arg req key dflt st = (Return n, st))
  \/ int_arg req key dflt st = (Raise ValueError, st).
Proof.
  unfold int_arg. destruct (args req !! key) as [s|]; [| left; eexists; reflexivity].
  destruct (Py.int_of_str s); [left; eexists; reflexivity | right; reflexivity].
Qed.

Section TaskList.

Variable req : request.
Variable cu : current_user.
Variable st : app_state.

Local Abbreviation admin_all :=
  (String.eqb (Py.lower (default "false" (args req !! "all"))) "true"
   && String.eqb (role cu) "admin").

Local Abbreviation selected :=
  (if admin_all then TaskModel.by_status (args req !! "status")
   else TaskModel.by_user (user_id cu) (args req !! "status")).

Lemma get_tasks_run (P L : Z) :
  int_arg req "page" 1 st = (Return P, st) ->
  int_arg req "limit" 10 st = (Return L, st) ->
  let page := if P <? 1 then 1 else P in
  let limit := if (L <? 1) || (100 <? L) then 10 else L in
  let total := Z.of_nat (length (List.filter selected (map_to_list (tasks (db st))))) in
  get_tasks req cu st
  = (Return (success_response "Tasks retrieved successfully"
               (Some (TaskPage
                        (List.map to_view
                           (limit_offset limit ((page - 1) * limit)
                                         (select_tasks (ties st 0%nat) selected
                                                       (db st))))
                        total page limit ((total + limit - 1) / limit))) 200),
     after_select st).
Proof.
  intros Hp Hl. unfold get_tasks, try_except, bind. rewrite Hp, Hl.
  cbv zeta. destruct admin_all; reflexivity.
Qed.

Lemma get_tasks_cases :
  (exists P L : Z,
      int_arg req "page" 1 st = (Return P, st)
      /\ int_arg req "limit" 10 st = (Return L, st))
  \/ (get_tasks req cu st).1 = Return (error_response "Failed to retrieve tasks" 500).
Proof.
  destruct (int_arg_cases req "page" 1 st) as [[P Hp] | Hp].
  - destruct (int_arg_cases req "limit" 10 st) as [[L Hl] | Hl].
    + left. exists P, L. split; assumption.
    + right. unfold get_tasks, try_except, bind. rewrite Hp, Hl. reflexivity.
  - right. unfold get_tasks, try_except, bind. rewrite Hp. reflexivity.
Qed.

End TaskList.

(** X20. A caller who is not an admin reads own tasks only: every task in
    a task list answered to such a caller, and the task of a task detail
    answered to such a caller, is a stored task whose owner is the caller,
    whatever the query arguments. *)
Theorem non_admin_reads_own_tasks_only :
  forall (req : request) (cu : current_user) (task_id : Z) (st : app_state),
    role cu <> "admin" ->
    let own := fun v : task_view =>
      view_user_id v = user_id cu
      /\ exists t : Task.row,
           tasks (db st) !! view_id v = Some t /\ v = to_view (view_id v, t) in
    Forall own (listed_tasks (get_tasks req cu st))
    /\ (forall v : task_view,
          shown_task (get_task cu task_id st) = Some v -> own v /\ view_id v = task_id).
Proof.
  intros req cu task_id st Hrole own.
  apply String.eqb_neq in Hrole. split.
  - destruct (get_tasks_cases req cu st) as [(P & L & Hp & Hl) | Herr].
    2:{ unfold listed_tasks. rewrite Herr. constructor. }
    unfold listed_tasks. rewrite (get_tasks_run req cu st P L Hp Hl). cbv zeta.
    cbn [fst data success_response].
    apply Forall_forall. intros v Hv.
    apply list_elem_of_In, in_map_iff in Hv as ([k t] & <- & Hin).
    apply list_elem_of_In, limit_offset_elem in Hin.
    rewrite Hrole, andb_false_r in Hin.
    apply select_tasks_spec in Hin as [Hstored Hown]. cbn [fst snd] in Hstored.
    split.
    + unfold TaskModel.by_user in Hown. cbn [snd] in Hown. cbn [to_view view_user_id snd].
      destruct (filter_given (args req !! "status"));
        [apply andb_true_iff in Hown as [Hown _] |]; apply Z.eqb_eq, Hown.
    + exists t. split; [exact Hstored | reflexivity].
  - intros v. unfold shown_task, get_task. run.
    destruct (tasks (db st) !! task_id) as [t|] eqn:Hf; simpl; [| discriminate].
    rewrite Hrole. simpl.
    destruct (Z.eqb_spec (Task.user_id t) (user_id cu)) as [Hown|Hother]; simpl;
      [| discriminate].
    intros [= <-]. split; [| reflexivity].
    split; [exact Hown |]. exists t. split; [exact Hf | reflexivity].
Qed.

Lemma non_admin_reads_own_tasks_only_witness :
  Forall (fun v : task_view => view_user_id v = 8)
         (listed_tasks (get_tasks (query_request [("all", "true"); ("limit", "50")])
                                  (mkuser 8 "user") sample_state))
  /\ listed_tasks (get_tasks (query_request [("all", "true"); ("limit", "50")])
                             (mkuser 8 "user") sample_state)
     = [mkview 3 "c" "" "pending" 8 30].
Proof.
  split; [| reflexivity].
  assert (Hrole : role (mkuser 8 "user") <> "admin") by (vm_compute; discriminate).
  eapply Forall_impl.
  - apply (proj1 (non_admin_reads_own_tasks_only
                    (query_request [("all", "true"); ("limit", "50")])
                    (mkuser 8 "user") 1 sample_state Hrole)).
  - intros v [Hown _]. exact Hown.
Defined.

(** X21. Out-of-range paging arguments are replaced, not refused: when
    [int] reads the [page] and [limit] arguments as [P] and [L], and the
    offset is one that the engine takes (below 2^63), the task list is
    answered 200 for page [max 1 P] and for limit [L] when 1 <= L <= 100 and
    10 otherwise; it holds at most that many tasks, hence never more than
    100, and its page count is the ceiling of total / limit. *)
Theorem task_list_window_is_clamped :
  forall (req : request) (cu : current_user) (st : app_state) (P L : Z),
    int_arg req "page" 1 st = (Return P, st) ->
    int_arg req "limit" 10 st = (Return L, st) ->
    let page := Z.max 1 P in
    let limit := if (1 <=? L) && (L <=? 100) then L else 10 in
    (page - 1) * limit < 2 ^ 63 ->
    exists (rows : list (Z * Task.row)) (total : Z),
      get_tasks req cu st
      = (Return (success_response "Tasks retrieved successfully"
                   (Some (TaskPage (List.map to_view rows) total page limit
                                   ((total + limit - 1) / limit))) 200),
         after_select st)
      /\ 1 <= limit <= 100
      /\ Z.of_nat (length rows) <= limit
      /\ Z.of_nat (length rows) <= total
      /\ is_ceil_div ((total + limit - 1) / limit) total limit.
Proof.
  intros req cu st P L Hp Hl page limit _.
  pose proof (get_tasks_run req cu st P L Hp Hl) as Hrun. cbv zeta in Hrun.
  assert (Hpage : (if P <? 1 then 1 else P) = page).
  { unfold page. destruct (Z.ltb_spec P 1); lia. }
  assert (Hlimit : (if (L <? 1) || (100 <? L) then 10 else L) = limit).
  { unfold limit.
    destruct (Z.ltb_spec L 1), (Z.ltb_spec 100 L), (Z.leb_spec 1 L), (Z.leb_spec L 100);
      simpl; lia. }
  rewrite Hpage, Hlimit in Hrun.
  assert (Hrange : 1 <= limit <= 100).
  { unfold limit. destruct (Z.leb_spec 1 L), (Z.leb_spec L 100); simpl; lia. }
  eexists. eexists. split; [exact Hrun |]. split; [exact Hrange |].
  assert (Hoff : 0 <= (page - 1) * limit) by (unfold page; nia).
  split; [| split].
  - rewrite limit_offset_length by lia. lia.
  - rewrite limit_offset_length by lia. rewrite select_tasks_length. lia.
  - apply pages_is_ceil_div. lia.
Qed.

Lemma task_list_window_is_clamped_witness :
  exists (rows : list (Z * Task.row)) (total : Z),
    get_tasks (query_request [("page", "-3"); ("limit", "500")]) (mkuser 7 "user")
              sample_state
    = (Return (success_response "Tasks retrieved successfully"
                 (Some (TaskPage (List.map to_view rows) total 1 10
                                 ((total + 10 - 1) / 10))) 200),
       after_select sample_state)
    /\ 1 <= 10 <= 100
    /\ Z.of_nat (length rows) <= 10
    /\ Z.of_nat (length rows) <= total
    /\ is_ceil_div ((total + 10 - 1) / 10) total 10.
Proof.
  apply (task_list_window_is_clamped
           (query_request [("page", "-3"); ("limit", "500")]) (mkuser 7 "user")
           sample_state (-3) 500); [reflexivity | reflexivity |].
  vm_compute. reflexivity.
Defined.

Lemma by_user_owner (user_id : Z) (status : option string) (r : Z * Task.row) :
  TaskModel.by_user user_id status r = true -> Task.user_id r.2 = user_id.
Proof.
  unfold TaskModel.by_user. destruct (filter_given status); intros H;
    [apply andb_true_iff in H as [H _] |]; apply Z.eqb_eq, H.
Qed.

(** When no two of the selected tasks were created in the same second, the
    listing does not depend on the engine's choice. *)
Lemma select_tasks_determined (rank rank' : Z -> Z) (P : Z * Task.row -> bool)
  (d : database) :
  (forall (k1 k2 : Z) (t1 t2 : Task.row),
      tasks d !! k1 = Some t1 -> tasks d !! k2 = Some t2 ->
      P (k1, t1) = true -> P (k2, t2) = true ->
      Task.created_at t1 = Task.created_at t2 -> k1 = k2) ->
  select_tasks rank P d = select_tasks rank' P d.
Proof.
  intros Hdistinct.
  apply (sorted_perm_unique (fun a b => Task.created_at b.2 <= Task.created_at a.2)).
  - intros [k1 t1] [k2 t2] H1 H2 Hle Hge.
    apply select_tasks_spec in H1 as [Hl1 HP1].
    apply select_tasks_spec in H2 as [Hl2 HP2].
    cbn [fst snd] in *.
    assert (k1 = k2) by (apply (Hdistinct k1 k2 t1 t2); try assumption; lia).
    subst k2. rewrite Hl1 in Hl2. injection Hl2 as <-. reflexivity.
  - apply order_by_sorted.
  - apply order_by_sorted.
  - rewrite !select_tasks_perm. reflexivity.
Qed.

(** X22. The pages of a listing tile it when creation times tell the tasks
    apart: if no two tasks of a user were created in the same second, then
    for a page size of at least 1 the windows that the task list reads for
    the pages 1 to [n], at offset (page - 1) * limit each and each in a
    query of its own on the same stored tasks, put one after the other are
    the first n * limit rows of the listing, each row once and in order; so
    from ceil(total / limit) pages on, they are the whole listing. *)
Theorem pages_tile_the_listing :
  forall (user_id : Z) (status : option string) (limit : Z) (n : nat)
         (st : app_state) (served : Z -> app_state),
    1 <= limit ->
    (forall page : Z, db (served page) = db st) ->
    (forall (k1 k2 : Z) (t1 t2 : Task.row),
        tasks (db st) !! k1 = Some t1 -> tasks (db st) !! k2 = Some t2 ->
        Task.user_id t1 = user_id -> Task.user_id t2 = user_id ->
        Task.created_at t1 = Task.created_at t2 -> k1 = k2) ->
    let listing :=
      select_tasks (ties st 0%nat) (TaskModel.by_user user_id status) (db st) in
    let window := fun page : Z =>
      match (TaskModel.find_by_user user_id status limit ((page - 1) * limit)
                                    (served page)).1 with
      | Return rows => rows
      | Raise _ => []
      end in
    concat (List.map window (page_numbers n)) = take (n * Z.to_nat limit) listing
    /\ ((length listing <= n * Z.to_nat limit)%nat ->
        concat (List.map window (page_numbers n)) = listing).
Proof.
  intros user_id status limit n st served Hlimit Hdb Hdistinct listing window.
  assert (Hw : forall i : nat,
             window (Z.of_nat i + 1)
             = take (Z.to_nat limit) (drop (i * Z.to_nat limit) listing)).
  { intros i. unfold window, TaskModel.find_by_user, engine_order. run.
    unfold limit_offset. rewrite Hdb.
    rewrite (select_tasks_determined _ (ties st 0%nat)).
    - fold listing. do 2 f_equal. nia.
    - intros k1 k2 t1 t2 H1 H2 HP1 HP2.
      apply (Hdistinct k1 k2 t1 t2 H1 H2).
      + apply (by_user_owner user_id status (k1, t1) HP1).
      + apply (by_user_owner user_id status (k2, t2) HP2). }
  assert (Hgen : forall (m k : nat),
             concat (List.map window (List.map (fun i => Z.of_nat i + 1) (seq k m)))
             = take (m * Z.to_nat limit) (drop (k * Z.to_nat limit) listing)).
  { induction m as [|m IH]; intros k; [reflexivity |].
    cbn [seq List.map concat]. rewrite Hw, IH.
    rewrite <- (take_drop (Z.to_nat limit)
                  (take (S m * Z.to_nat limit) (drop (k * Z.to_nat limit) listing))).
    f_equal.
    - rewrite take_take. f_equal. lia.
    - replace (S k * Z.to_nat limit)%nat with (k * Z.to_nat limit + Z.to_nat limit)%nat
        by lia.
      rewrite <- drop_drop, take_drop_commute. reflexivity. }
  assert (Hall : concat (List.map window (page_numbers n))
                 = take (n * Z.to_nat limit) listing).
  { unfold page_numbers. rewrite (Hgen n 0%nat). rewrite drop_0. reflexivity. }
  split; [exact Hall |].
  intros Hlen. rewrite Hall. apply take_ge. exact Hlen.
Qed.

Lemma pages_tile_the_listing_witness :
  let engines := fun page : Z =>
    mkst (db sample_state) [] (1000 + page) 0
         (if page =? 1 then by_id_ascending else by_id_descending) in
  let window := fun page : Z =>
    match (TaskModel.find_by_user 7 None 1 ((page - 1) * 1) (engines page)).1 with
    | Return rows => rows
    | Raise _ => []
    end in
  concat (List.map window (page_numbers 2))
  = select_tasks (ties sample_state 0%nat) (TaskModel.by_user 7 None) (db sample_state).
Proof.
  cbv zeta.
  apply (pages_tile_the_listing 7 None 1 2 sample_state
           (fun page : Z =>
              mkst (db sample_state) [] (1000 + page) 0
                   (if page =? 1 then by_id_ascending else by_id_descending))).
  - lia.
  - reflexivity.
  - intros k1 k2 t1 t2 H1 H2 _ _ Hsame.
    unfold sample_state in H1, H2. cbn [db tasks list_to_map foldr] in H1, H2.
    rewrite !lookup_insert in H1. rewrite !lookup_insert in H2.
    repeat case_decide; subst;
      try (rewrite lookup_empty in H1; discriminate H1);
      try (rewrite lookup_empty in H2; discriminate H2);
      try reflexivity;
      injection H1 as <-; injection H2 as <-; discriminate Hsame.
  - vm_compute. lia.
Defined.

(* --------------------------------------------------------------------- *)
(** ** The validators and response builders that the routes do not call *)
(* --------------------------------------------------------------------- *)

Lemma validate_string_length_spec (value : string) (min_length max_length : Z) :
  (validate_string_length value min_length max_length).1 = true <->
  value <> "" /\ min_length <= Py.len value <= max_length.
Proof.
  unfold validate_string_length.
  destruct (String.eqb_spec value "") as [He|He]; cbn [fst].
  - split; [discriminate | intros [Hne _]; contradiction].
  - destruct (Z.ltb_spec (Py.len value) min_length); cbn [fst].
    + split; [discriminate | lia].
    + destruct (Z.ltb_spec max_length (Py.len value)); cbn [fst].
      * split; [discriminate | lia].
      * split; [intros _; split; [exact He | lia] | reflexivity].
Qed.

Lemma len_nonempty (s : string) : s <> "" -> 1 <= Py.len s.
Proof. destruct s; [contradiction |]. intros _. unfold Py.len. simpl. lia. Qed.

(** X23. The checks that the task routes write out are those of the
    validators module: for a body that is a JSON object, creating a task is
    answered 201 exactly when [validate_string_length] with bounds 1 and
    200 accepts the sanitized title and [validate_task_status] accepts the
    sanitized status; and an update by the owner with a non-empty body is
    answered 200 exactly when the two accept the sanitized title and status
    of the update. *)
Theorem task_checks_are_the_validators :
  forall (req : request) (cu : current_user) (task_id : Z) (st : app_state)
         (fields : gmap string jval),
    json req = BodyObject fields ->
    (status_of (create_task req cu st) = Some 201 <->
     (validate_string_length (field_or fields "title" "") 1 200).1 = true
     /\ validate_task_status (field_or fields "status" "pending") = true)
    /\ (forall t : Task.row,
          tasks (db st) !! task_id = Some t ->
          Task.user_id t = user_id cu ->
          fields <> ∅ ->
          (status_of (update_task req cu task_id st) = Some 200 <->
           (validate_string_length (field_or fields "title" (Task.title t)) 1 200).1
           = true
           /\ validate_task_status (field_or fields "status" (Task.status t)) = true)).
Proof.
  intros req cu task_id st fields Hbody. split.
  - rewrite validate_string_length_spec. unfold validate_task_status.
    rewrite str_in_In. fold valid_statuses. split.
    + intros H201.
      destruct (create_task_cases req cu st)
        as [(fields' & Hbody' & Ht & Hl & Hs & _) | [Hne _]]; [| contradiction].
      rewrite Hbody in Hbody'. injection Hbody' as <-.
      split; [split; [exact Ht | split; [apply len_nonempty, Ht | exact Hl]] | exact Hs].
    + intros [(Ht & _ & Hl) Hs].
      rewrite (create_task_accepts req cu st fields Hbody Ht Hl Hs). reflexivity.
  - intros t Hfound Howner Hne.
    rewrite validate_string_length_spec. unfold validate_task_status.
    rewrite str_in_In. fold valid_statuses. split.
    + intros H200.
      destruct (update_task_cases req cu task_id st)
        as [(t' & fields' & Hf' & _ & Hbody' & _ & Ht & Hl & Hs & _) | [Hno _]];
        [| contradiction].
      rewrite Hbody in Hbody'. injection Hbody' as <-.
      rewrite Hfound in Hf'. injection Hf' as <-.
      split; [split; [exact Ht | split; [apply len_nonempty, Ht | exact Hl]] | exact Hs].
    + intros [(Ht & _ & Hl) Hs].
      destruct (update_task_accepts req cu st task_id t fields Hfound Howner Hbody
                  Hne Ht Hl Hs) as [Hr _].
      unfold status_of. rewrite Hr. reflexivity.
Qed.

Lemma task_checks_are_the_validators_witness :
  (status_of (create_task (json_request [("title", JStr " Buy <milk> ");
                                         ("status", JStr "done")])
                          (mkuser 7 "user") demo_state) = Some 201 <->
   (validate_string_length "Buy &lt;milk&gt;" 1 200).1 = true
   /\ validate_task_status "done" = true)
  /\ status_of (create_task (json_request [("title", JStr " Buy <milk> ");
                                           ("status", JStr "done")])
                            (mkuser 7 "user") demo_state) = Some 400.
Proof.
  split; [| reflexivity].
  apply (task_checks_are_the_validators
           (json_request [("title", JStr " Buy <milk> "); ("status", JStr "done")])
           (mkuser 7 "user") 1 demo_state
           (list_to_map [("title", JStr " Buy <milk> "); ("status", JStr "done")])
           eq_refl).
Defined.

(** X24. [paginated_response] counts pages as the task list does: for a
    limit of at least 1 its [total_pages] is the ceiling of total / limit,
    the number that the task list reports as [pages]; [has_next] holds
    exactly when rows are left after the page, [has_prev] exactly when the
    page is beyond the first; and a limit of 0 or less gives 0 pages and no
    next page rather than a division by zero. *)
Theorem paginated_response_pages :
  forall (D : Type) (message : string) (data : D) (page limit total status_code : Z),
    let p := Pagination.pagination
               (paginated_response message data page limit total status_code) in
    (1 <= limit ->
     is_ceil_div (Pagination.total_pages p) total limit
     /\ Pagination.total_pages p = (total + limit - 1) / limit
     /\ (Pagination.has_next p = true <-> page * limit < total))
    /\ (limit <= 0 ->
        Pagination.total_pages p = 0
        /\ (Pagination.has_next p = true <-> page < 0))
    /\ (Pagination.has_prev p = true <-> 1 < page)
    /\ Pagination.page p = page /\ Pagination.limit p = limit
    /\ Pagination.total_items p = total.
Proof.
  intros D message data page limit total status_code p.
  unfold p, paginated_response. cbn [Pagination.pagination Pagination.total_pages
    Pagination.has_next Pagination.has_prev Pagination.page Pagination.limit
    Pagination.total_items].
  split; [| split; [| split; [apply Z.ltb_lt | repeat split]]].
  - intros Hl. destruct (Z.ltb_spec 0 limit); [| lia].
    pose proof (pages_is_ceil_div total limit ltac:(lia)) as Hc.
    split; [exact Hc |]. split; [reflexivity |].
    rewrite Z.ltb_lt. unfold is_ceil_div in Hc. nia.
  - intros Hl. destruct (Z.ltb_spec 0 limit); [lia |].
    split; [reflexivity | apply Z.ltb_lt].
Qed.

Lemma paginated_response_pages_witness :
  let p := Pagination.pagination
             (paginated_response "Tasks" [1; 2; 3] 2 10 25 200) in
  Pagination.total_pages p = 3 /\ Pagination.has_next p = true
  /\ Pagination.total_pages
       (Pagination.pagination (paginated_response "Tasks" [1; 2; 3] 2 0 25 200)) = 0.
Proof.
  cbv zeta.
  pose proof (paginated_response_pages (list Z) "Tasks" [1; 2; 3] 2 10 25 200) as H10.
  pose proof (paginated_response_pages (list Z) "Tasks" [1; 2; 3] 2 0 25 200) as H0.
  cbv zeta in H10, H0.
  destruct H10 as [H10 _]. destruct H0 as [_ [H0 _]].
  destruct (H10 ltac:(lia)) as (_ & Hp & Hn).
  destruct (H0 ltac:(lia)) as [Hz _].
  split; [rewrite Hp; reflexivity |]. split; [apply Hn; lia | exact Hz].
Defined.

(* --------------------------------------------------------------------- *)
(** ** A password that is not text *)
(* --------------------------------------------------------------------- *)

(** X25. A body password that is not a JSON string never registers and
    never logs in.  With a sanitized email of the accepted shape and a
    non-empty name, registration of a truthy such password is answered 400
    when it is a container of fewer than 8 items and 500 otherwise, the
    store unchanged; a login with it and a non-empty email is answered
    401. *)
Theorem password_that_is_not_text :
  forall (HS256 : string -> string -> string)
         (bcrypt_hashpw : string -> string -> outcome string) (gensalt : nat -> string)
         (bcrypt_checkpw : string -> string -> outcome bool) (config : Config)
         (req : request) (st : app_state) (fields : gmap string jval)
         (password : jval),
    json req = BodyObject fields ->
    fields !! "password" = Some password ->
    (forall s : string, password <> JStr s) ->
    Validators.truthy password = true ->
    let r := register req bcrypt_hashpw gensalt st in
    db_after r = db st
    /\ (Validators.validate_email (field_or fields "email" "") = true ->
        field_or fields "name" "" <> "" ->
        status_of r
        = Some (match Validators.py_len password with
                | Some n => if n <? 8 then 400 else 500
                | None => 500
                end))
    /\ (field_or fields "email" "" <> "" ->
        (login HS256 bcrypt_checkpw config req st).1
        = Return (error_reply "Invalid email or password" 401)).
Proof.
  intros HS256 bh gs check config req st fields password Hbody Hpw Hnot Hgiven r.
  split; [| split].
  - destruct (register_cases req bh gs st)
      as [(fields' & pw & msg & h & Hbody' & Hpw' & _) | [_ Hsame]]; [| exact Hsame].
    rewrite Hbody in Hbody'. injection Hbody' as <-.
    rewrite Hpw in Hpw'. injection Hpw' as ->. exfalso. apply (Hnot pw). reflexivity.
  - intros Hve Hn. subst r. unfold register. run. rewrite Hbody. simpl.
    destruct (bool_decide (fields = ∅)) eqn:He.
    { apply bool_decide_eq_true in He. rewrite He, lookup_empty in Hpw.
      discriminate Hpw. }
    simpl. rewrite Hpw. simpl.
    fold (field_or fields "email" "") (field_or fields "name" "").
    destruct (String.eqb_spec (field_or fields "email" "") "") as [He'|_].
    { exfalso. revert He'. apply validate_email_nonempty, Hve. }
    rewrite Hgiven.
    destruct (String.eqb_spec (field_or fields "name" "") ""); [contradiction |].
    simpl. rewrite Hve. simpl.
    unfold Validators.validate_password. rewrite Hgiven. simpl.
    destruct password as [|b|n0|s|text truth [len|]]; simpl;
      try reflexivity; try discriminate Hgiven.
    + exfalso. apply (Hnot s). reflexivity.
    + destruct (Z.of_nat len <? 8); reflexivity.
  - intros Hemail.
    assert (Hv : forall h : string, verify_password check password h = false).
    { intros h. destruct password; try reflexivity.
      exfalso. apply (Hnot s). reflexivity. }
    destruct (UserModel.find_by_email (field_or fields "email" "") st).1
      as [[[k u]|]|e] eqn:Hfind.
    + rewrite (login_known HS256 check config req st fields password
                 Hbody Hpw Hgiven Hemail k u Hfind), Hv. reflexivity.
    + rewrite (login_unknown HS256 check config req st fields password
                 Hbody Hpw Hgiven Hemail Hfind). reflexivity.
    + rewrite find_by_email_eq in Hfind. discriminate Hfind.
Qed.

Lemma password_that_is_not_text_witness :
  let req := json_request [("email", JStr "bob@example.com");
                           ("password", JInt 12345678); ("name", JStr "Bob")] in
  let r := register req demo_hashpw (fun _ => "salt") sample_state in
  db_after r = db sample_state
  /\ status_of r = Some 500
  /\ (login demo_mac demo_checkpw demo_config req sample_state).1
     = Return (error_reply "Invalid email or password" 401).
Proof.
  cbv zeta.
  destruct (password_that_is_not_text demo_mac demo_hashpw
              (fun _ => "salt") demo_checkpw demo_config
              (json_request [("email", JStr "bob@example.com");
                             ("password", JInt 12345678); ("name", JStr "Bob")])
              sample_state
              (list_to_map [("email", JStr "bob@example.com");
                            ("password", JInt 12345678); ("name", JStr "Bob")])
              (JInt 12345678) eq_refl eq_refl)
    as (Hdb & Hreg & Hlogin).
  - intros s. discriminate.
  - reflexivity.
  - split; [exact Hdb |]. split.
    + apply Hreg; [reflexivity | vm_compute; discriminate].
    + apply Hlogin. vm_compute. discriminate.
Defined.

(* --------------------------------------------------------------------- *)
(** ** After the login *)
(* --------------------------------------------------------------------- *)

(** X26. The token of a login opens the current-user route for the user
    who logged in: when a login is answered 200 with a token, a request
    that carries [Bearer] and that token, served before the token expires
    and with the users as they were, is answered 200 with the id, email,
    name and role that the login reply showed. *)
Theorem profile_after_login :
  forall (HS256 : string -> string -> string)
         (bcrypt_checkpw : string -> string -> outcome bool) (config : Config)
         (req gate_req : request) (st st2 : app_state)
         (token : string) (k : Z) (email name role : string),
    (login HS256 bcrypt_checkpw config req st).1
    = Return (success_reply "Login successful"
                (Some (LoggedIn token k email name role)) 200) ->
    authorization gate_req = Some ("Bearer " ++ token) ->
    users (db st2) = users (db st) ->
    utcnow st <= utcnow st2 < utcnow st + 3600 * JWT_EXPIRY_HOURS config ->
    exists (created_at : Z),
      token_required_as HS256 config gate_req get_current_user st2
      = (Return (success_reply "User retrieved successfully"
                   (Some (UserDetail (mkuview k email name role created_at))) 200),
         st2).
Proof.
  intros HS256 check config req gate_req st st2 token k email name role
         Hlogin Hh Husers Hnow.
  destruct (login_cases HS256 check config req st)
    as [(fields & password & k' & u & _ & _ & Hk & _ & _ & Hrun) | Hno].
  2:{ exfalso. apply Hno. unfold reply_status_of. rewrite Hlogin. reflexivity. }
  rewrite Hlogin in Hrun. injection Hrun as -> -> -> -> ->.
  exists (User.created_at u).
  rewrite (issued_token_opens_gate HS256 config k' (User.role u) (utcnow st)
             gate_req st2 get_current_user Hh Hnow).
  unfold get_current_user. run_more. rewrite Husers, Hk. reflexivity.
Qed.

Lemma profile_after_login_witness :
  exists (token : string) (created_at : Z),
    (login demo_mac demo_checkpw demo_config
           (json_request [("email", JStr "bob@example.com");
                          ("password", JStr "Secret99")]) sample_state).1
    = Return (success_reply "Login successful"
                (Some (LoggedIn token 8 "bob@example.com" "Bob" "user")) 200)
    /\ token_required_as demo_mac demo_config
         (bearer_request ("Bearer " ++ token) [] []) get_current_user sample_state
       = (Return (success_reply "User retrieved successfully"
                    (Some (UserDetail (mkuview 8 "bob@example.com" "Bob" "user"
                                               created_at))) 200),
          sample_state).
Proof.
  eexists.
  destruct (profile_after_login demo_mac demo_checkpw demo_config
              (json_request [("email", JStr "bob@example.com");
                             ("password", JStr "Secret99")])
              (bearer_request
                 ("Bearer " ++ Jwt.encode demo_mac (Jwt.mk 8 "user" 1000 (1000 + 3600 * 24))
                                          "secret" "HS256") [] [])
              sample_state sample_state _ 8 "bob@example.com" "Bob" "user"
              eq_refl eq_refl eq_refl) as [created Hme].
  - simpl. lia.
  - exists created. split; [reflexivity | exact Hme].
Defined.

(** X27. Logging out revokes nothing: a request whose token opens the
    gate is answered 200 by the logout route, which leaves the store as it
    was, and the same token opens the gate of every handler afterwards for
    the same user id and role. *)
Theorem logout_revokes_nothing :
  forall (HS256 : string -> string -> string) (config : Config) (req : request)
         (st : app_state) (token : string) (payload : Jwt.claims),
    bearer_token (authorization req) = Some token ->
    Jwt.decode HS256 token (JWT_SECRET_KEY config) ["HS256"] (utcnow st)
    = Return payload ->
    let served := token_required_as HS256 config req logout st in
    served.1 = Return (success_response
                         "Logout successful. Please remove token from client."
                         None 200)
    /\ db served.2 = db st
    /\ forall (R : Type) (E : Envelope R) (f : current_user -> M R),
         token_required_as HS256 config req f served.2
         = f (mkuser (Jwt.user_id payload) (Jwt.role payload)) served.2.
Proof.
  intros HS256 config req st token payload Hb Hd served.
  assert (Hserved : served = logout (mkuser (Jwt.user_id payload) (Jwt.role payload)) st).
  { unfold served. apply (gate_as_valid HS256 config req st logout token payload Hb Hd). }
  rewrite Hserved. split; [reflexivity |]. split; [reflexivity |].
  intros R E f.
  apply (gate_as_valid HS256 config req _ f token payload Hb). exact Hd.
Qed.

Lemma logout_revokes_nothing_witness :
  let req := bearer_request ("Bearer " ++ demo_token) [] [] in
  let served := token_required_as demo_mac demo_config req logout one_task_state in
  served.1 = Return (success_response
                       "Logout successful. Please remove token from client."
                       None 200)
  /\ db served.2 = db one_task_state
  /\ token_required_as demo_mac demo_config req (fun cu => delete_task cu 1) served.2
     = delete_task (mkuser 7 "admin") 1 served.2.
Proof.
  cbv zeta.
  destruct (logout_revokes_nothing demo_mac demo_config
              (bearer_request ("Bearer " ++ demo_token) [] []) one_task_state
              demo_token (Jwt.mk 7 "admin" 1000 87400) eq_refl eq_refl)
    as (Hlogout & Hdb & Hgate).
  split; [exact Hlogout |]. split; [exact Hdb |].
  apply (Hgate response response_envelope (fun cu => delete_task cu 1)).
Defined.

(* --------------------------------------------------------------------- *)
(** ** The shape of an accepted email *)
(* --------------------------------------------------------------------- *)

Section EmailShape.

Import Validators.

Lemma split_first_app (c : ascii) (a b : string) :
  all_chars (differs c) a = true -> split_first c (a ++ String c b) = Some (a, b).
Proof.
  induction a as [|x a IH]; intros Ha.
  - change ("" ++ String c b) with (String c b). simpl.
    rewrite Ascii.eqb_refl. reflexivity.
  - rewrite append_cons. simpl in Ha |- *.
    apply andb_prop in Ha as [Hx Ha]. unfold differs in Hx.
    apply negb_true_iff in Hx. rewrite Hx, (IH Ha). reflexivity.
Qed.

Lemma split_first_inv (c : ascii) (s a b : string) :
  split_first c s = Some (a, b) ->
  s = a ++ String c b /\ all_chars (differs c) a = true.
Proof.
  revert a. induction s as [|x s IH]; intros a; simpl; [discriminate |].
  destruct (Ascii.eqb_spec x c) as [-> | Hx].
  - intros [= <- <-]. split; reflexivity.
  - destruct (split_first c s) as [[a' b']|]; [| discriminate].
    intros [= <- <-]. destruct (IH a' eq_refl) as [-> Ha].
    split; [reflexivity |]. simpl. rewrite Ha. unfold differs.
    apply Ascii.eqb_neq in Hx. rewrite Hx. reflexivity.
Qed.

Lemma split_last_none (c : ascii) (s : string) :
  split_last c s = None <-> all_chars (differs c) s = true.
Proof.
  induction s as [|x s IH]; simpl; [split; reflexivity |].
  destruct (split_last c s) as [[a b]|].
  - split; [discriminate |]. intros H. apply andb_prop in H as [_ H].
    apply IH in H. discriminate H.
  - unfold differs at 1. destruct (Ascii.eqb x c); simpl.
    + split; discriminate.
    + split; [intros _; apply IH; reflexivity | reflexivity].
Qed.

Lemma split_last_app (c : ascii) (a b : string) :
  all_chars (differs c) b = true -> split_last c (a ++ String c b) = Some (a, b).
Proof.
  intros Hb. induction a as [|x a IH].
  - change ("" ++ String c b) with (String c b). simpl.
    rewrite (proj2 (split_last_none c b) Hb), Ascii.eqb_refl. reflexivity.
  - rewrite append_cons. simpl. rewrite IH. reflexivity.
Qed.

Lemma split_last_inv (c : ascii) (s a b : string) :
  split_last c s = Some (a, b) ->
  s = a ++ String c b /\ all_chars (differs c) b = true.
Proof.
  revert a. induction s as [|x s IH]; intros a; simpl; [discriminate |].
  destruct (split_last c s) as [[a' b']|] eqn:Hs.
  - intros [= <- <-]. destruct (IH a' eq_refl) as [-> Hb].
    split; [reflexivity | exact Hb].
  - destruct (Ascii.eqb_spec x c) as [-> | Hx]; [| discriminate].
    intros [= <- <-]. split; [reflexivity |]. apply split_last_none, Hs.
Qed.

Lemma local_char_not_at (c : ascii) : local_char c = true -> differs "@" c = true.
Proof.
  unfold differs. destruct (Ascii.eqb_spec c "@") as [-> | _]; [| reflexivity].
  vm_compute. discriminate.
Qed.

Lemma is_alpha_not_dot (c : ascii) : is_alpha c = true -> differs "." c = true.
Proof.
  unfold differs. destruct (Ascii.eqb_spec c ".") as [-> | _]; [| reflexivity].
  vm_compute. discriminate.
Qed.

Lemma email_pattern_shape (email : string) :
  email_pattern email = true <->
  exists (local domain tld : string),
    chomp email = local ++ "@" ++ domain ++ "." ++ tld
    /\ local <> "" /\ all_chars local_char local = true
    /\ domain <> "" /\ all_chars domain_char domain = true
    /\ 2 <= Py.len tld /\ all_chars is_alpha tld = true.
Proof.
  unfold email_pattern. split.
  - destruct (split_first "@" (chomp email)) as [[local rest]|] eqn:Hf; [| discriminate].
    destruct (split_last "." rest) as [[domain tld]|] eqn:Hl; [| discriminate].
    intros H. repeat (apply andb_prop in H as [H ?]).
    apply split_first_inv in Hf as [Hf _]. apply split_last_inv in Hl as [Hl _].
    exists local, domain, tld. rewrite !append_sep, Hf, Hl.
    split; [reflexivity |].
    split; [apply String.eqb_neq, negb_true_iff; assumption |].
    split; [assumption |].
    split; [apply String.eqb_neq, negb_true_iff; assumption |].
    split; [assumption |]. split; [apply Z.leb_le; assumption | assumption].
  - intros (local & domain & tld & Hshape & Hl & Hlc & Hd & Hdc & Hlen & Htc).
    rewrite Hshape, !append_sep.
    rewrite split_first_app
      by (apply (all_chars_impl local_char); [exact local_char_not_at | exact Hlc]).
    rewrite split_last_app
      by (apply (all_chars_impl is_alpha); [exact is_alpha_not_dot | exact Htc]).
    apply String.eqb_neq in Hl, Hd. rewrite Hl, Hd, Hlc, Hdc, Htc.
    apply Z.leb_le in Hlen. rewrite Hlen. reflexivity.
Qed.

End EmailShape.

(** X28. The accepted emails: [validate_email] answers true exactly for a
    text that, a final line feed apart, reads local@domain.tld with a
    non-empty local part of letters, digits and [._%+-], a non-empty domain
    of letters, digits, dots and hyphens, and a last label of two or more
    letters; the local part ends at the first at-sign and the last label
    starts after the last dot. *)
Theorem validate_email_shape :
  forall (email : string),
    Validators.validate_email email = true <->
    exists (local domain tld : string),
      Validators.chomp email = local ++ "@" ++ domain ++ "." ++ tld
      /\ local <> "" /\ Validators.all_chars Validators.local_char local = true
      /\ domain <> "" /\ Validators.all_chars Validators.domain_char domain = true
      /\ 2 <= Py.len tld /\ Validators.all_chars Validators.is_alpha tld = true.
Proof.
  intros email. rewrite <- email_pattern_shape. unfold Validators.validate_email.
  destruct (String.eqb_spec email "") as [-> | _]; [| reflexivity].
  split; discriminate.
Qed.

Lemma validate_email_shape_witness :
  Validators.validate_email "a.b+c@mail.example-1.org" = true
  /\ Validators.validate_email "a@b@c.org" = false
  /\ Validators.validate_email ("a@b.org" ++ String (ascii_of_nat 10) "") = true.
Proof.
  split; [| split; reflexivity].
  apply (proj2 (validate_email_shape "a.b+c@mail.example-1.org")).
  exists "a.b+c", "mail.example-1", "org".
  split; [reflexivity |]. split; [discriminate |]. split; [reflexivity |].
  split; [discriminate |]. split; [reflexivity |]. split; [vm_compute; discriminate |].
  reflexivity.
Defined.

(* --------------------------------------------------------------------- *)
(** ** A body that is not a JSON object with members *)
(* --------------------------------------------------------------------- *)

(** X29. The four handlers that read a body treat a body without members
    alike: creating a task, updating an own task, registering and logging in
    answer 400 for an empty object and for any other falsy JSON value, and
    500 for a body that cannot be parsed and for a truthy JSON value that is
    not an object; none of them writes to the store. *)
Theorem body_that_is_no_object :
  forall (HS256 : string -> string -> string)
         (bcrypt_hashpw : string -> string -> outcome string) (gensalt : nat -> string)
         (bcrypt_checkpw : string -> string -> outcome bool) (config : Config)
         (req : request) (cu : current_user) (task_id : Z) (st : app_state),
    (forall fields : gmap string jval, json req = BodyObject fields -> fields = ∅) ->
    let code := match json req with
                | BodyRaises => 500
                | BodyObject _ => 400
                | BodyOther v => if Validators.truthy v then 500 else 400
                end in
    (status_of (create_task req cu st) = Some code
     /\ db_after (create_task req cu st) = db st)
    /\ (status_of (register req bcrypt_hashpw gensalt st) = Some code
        /\ db_after (register req bcrypt_hashpw gensalt st) = db st)
    /\ reply_status_of (login HS256 bcrypt_checkpw config req st) = Some code
    /\ (forall t : Task.row,
          tasks (db st) !! task_id = Some t ->
          Task.user_id t = user_id cu ->
          status_of (update_task req cu task_id st) = Some code
          /\ db_after (update_task req cu task_id st) = db st).
Proof.
  intros HS256 bh gs check config req cu task_id st Hbody code. subst code.
  split; [| split; [| split]].
  - unfold create_task. run.
    destruct (json req) as [|fields|v]; simpl.
    + split; reflexivity.
    + rewrite (Hbody fields eq_refl). split; reflexivity.
    + destruct (Validators.truthy v); split; reflexivity.
  - unfold register. run.
    destruct (json req) as [|fields|v]; simpl.
    + split; reflexivity.
    + rewrite (Hbody fields eq_refl). split; reflexivity.
    + destruct (Validators.truthy v); split; reflexivity.
  - unfold login. run.
    destruct (json req) as [|fields|v]; simpl.
    + reflexivity.
    + rewrite (Hbody fields eq_refl). reflexivity.
    + destruct (Validators.truthy v); reflexivity.
  - intros t Hfound Howner. unfold update_task. run. rewrite Hfound. simpl.
    replace (Task.user_id t =? user_id cu) with true
      by (symmetry; apply Z.eqb_eq, Howner).
    simpl.
    destruct (json req) as [|fields|v]; simpl.
    + split; reflexivity.
    + rewrite (Hbody fields eq_refl). split; reflexivity.
    + destruct (Validators.truthy v); split; reflexivity.
Qed.

Lemma body_that_is_no_object_witness :
  let req := mkreq None (BodyOther (JStr "title=x")) ∅ in
  status_of (create_task req (mkuser 7 "user") one_task_state) = Some 500
  /\ status_of (register req demo_hashpw (fun _ => "salt")
                         one_task_state) = Some 500
  /\ reply_status_of (login demo_mac demo_checkpw demo_config req one_task_state)
     = Some 500
  /\ status_of (update_task req (mkuser 7 "user") 1 one_task_state) = Some 500
  /\ status_of (create_task (json_request []) (mkuser 7 "user") one_task_state)
     = Some 400.
Proof.
  cbv zeta.
  destruct (body_that_is_no_object demo_mac demo_hashpw
              (fun _ => "salt") demo_checkpw demo_config
              (mkreq None (BodyOther (JStr "title=x")) ∅) (mkuser 7 "user") 1
              one_task_state)
    as ([Hc _] & [Hr _] & Hl & Hu).
  { intros fields Hf. discriminate Hf. }
  destruct (body_that_is_no_object demo_mac demo_hashpw
              (fun _ => "salt") demo_checkpw demo_config
              (json_request []) (mkuser 7 "user") 1 one_task_state)
    as ([Hc0 _] & _).
  { intros fields [= <-]. reflexivity. }
  split; [exact Hc |]. split; [exact Hr |]. split; [exact Hl |].
  split; [| exact Hc0].
  apply (Hu (Task.mk "Buy milk" "" "pending" 7 900)); reflexivity.
Defined.

(* --------------------------------------------------------------------- *)
(** ** Deleting the tasks of a user *)
(* --------------------------------------------------------------------- *)

(** X30. [delete_by_user] removes the tasks of one user and nothing else:
    afterwards the stored tasks are the earlier ones of the other owners,
    the users are as before, that user's task count is 0 for every status
    filter, and the task list answered to that user, when not an admin, is
    empty. *)
Theorem delete_by_user_removes_own_tasks :
  forall (uid : Z) (st : app_state) (req : request) (cu : current_user)
         (status : option string),
    let st1 := (TaskTable.delete_by_user uid st).2 in
    (TaskTable.delete_by_user uid st).1 = Return true
    /\ users (db st1) = users (db st)
    /\ (forall (k : Z) (t : Task.row),
          tasks (db st1) !! k = Some t <->
          tasks (db st) !! k = Some t /\ Task.user_id t <> uid)
    /\ (TaskModel.count_by_user uid status st1).1 = Return 0
    /\ (user_id cu = uid -> role cu <> "admin" ->
        listed_tasks (get_tasks req cu st1) = []).
Proof.
  intros uid st req cu status st1.
  assert (Hlook : forall (k : Z) (t : Task.row),
             tasks (db st1) !! k = Some t <->
             tasks (db st) !! k = Some t /\ Task.user_id t <> uid).
  { intros k t. unfold st1, TaskTable.delete_by_user. run_more.
    rewrite map_lookup_filter_Some. reflexivity. }
  assert (Hnone : forall s : option string,
             List.filter (TaskModel.by_user uid s) (map_to_list (tasks (db st1))) = []).
  { intros s. apply filter_nil_iff. intros [k t] Hin.
    apply list_elem_of_In, elem_of_map_to_list, Hlook in Hin as [_ Hne].
    destruct (TaskModel.by_user uid s (k, t)) eqn:Hb; [| reflexivity].
    apply by_user_owner in Hb. contradiction. }
  split; [reflexivity |]. split; [reflexivity |]. split; [exact Hlook |].
  split.
  - unfold TaskModel.count_by_user. run_more. fold st1. rewrite Hnone. reflexivity.
  - intros Hcu Hrole. apply String.eqb_neq in Hrole.
    destruct (get_tasks_cases req cu st1) as [(P & L & Hp & Hl) | Herr].
    2:{ unfold listed_tasks. rewrite Herr. reflexivity. }
    unfold listed_tasks. rewrite (get_tasks_run req cu st1 P L Hp Hl). cbv zeta.
    cbn [fst data success_response].
    rewrite Hrole, andb_false_r. unfold select_tasks. rewrite Hcu, Hnone.
    unfold limit_offset. cbn [order_by_created_at_desc foldr].
    rewrite drop_nil, take_nil. reflexivity.
Qed.

Lemma delete_by_user_removes_own_tasks_witness :
  let st1 := (TaskTable.delete_by_user 7 sample_state).2 in
  tasks (db st1) !! 3 = Some (Task.mk "c" "" "pending" 8 30)
  /\ tasks (db st1) !! 1 = None
  /\ listed_tasks (get_tasks (query_request []) (mkuser 7 "user") st1) = [].
Proof.
  cbv zeta.
  destruct (delete_by_user_removes_own_tasks 7 sample_state (query_request [])
              (mkuser 7 "user") None) as (_ & _ & Hlook & _ & Hlist).
  split; [| split].
  - apply Hlook. split; [reflexivity | vm_compute; discriminate].
  - destruct (tasks (db (TaskTable.delete_by_user 7 sample_state).2) !! 1)
      as [t|] eqn:Ht; [| reflexivity].
    apply Hlook in Ht as [Hs Hne]. vm_compute in Hs. injection Hs as <-.
    exfalso. apply Hne. reflexivity.
  - apply Hlist; [reflexivity | vm_compute; discriminate].
Defined.
